(** * ci-evidence-pack: deterministic evidence bundles and their strict verification

    A shallow embedding of the core of [ci_evidence_pack] (modules
    [util], [manifest], [pack], [verify], the tool selection of [sbom] and
    the commands of [cli]) and the properties of its specification.

    Conventions of the embedding.
    - A Python [str] is represented by the bytes of its UTF-8 encoding, held
      in a Rocq [string]; UTF-8 preserves code-point order, so [str]
      comparison is byte-wise comparison.  POSIX file names are byte strings
      already.  Reading a file in text mode checks that its bytes are valid
      UTF-8 ([utf8_valid]) and raises [UnicodeDecodeError] otherwise.
    - A directory tree is the listing that [Path.rglob("*")] yields: pairs of
      a relative path (its [parts]) and the node found there, in the
      iteration order of the operating system.  [stat]-like queries look a
      path up in that listing.
    - Exceptions are values of [exn]; code that may raise returns [result]. *)

From Stdlib Require Import ZArith NArith List Ascii String Bool Lia.
From stdpp Require Import base decidable option list sorting strings gmap.
From Equations Require Import Equations.

Local Open Scope string_scope.
Local Open Scope list_scope.

(** ** Python strings *)

Module PyStr.

Definition chr (n : nat) : ascii := ascii_of_nat n.
Definition ord (c : ascii) : N := N_of_ascii c.

Definition LF : string := String (chr 10) "".
Definition CR : string := String (chr 13) "".

Definition in_range (lo hi : N) (c : ascii) : bool :=
  (lo <=? ord c)%N && (ord c <=? hi)%N.

(** [str.startswith]. *)
Fixpoint startswith (s p : string) : bool :=
  match p, s with
  | EmptyString, _ => true
  | String a p', String b s' => if Ascii.eqb a b then startswith s' p' else false
  | String _ _, EmptyString => false
  end.

Fixpoint drop (n : nat) (s : string) : string :=
  match n, s with
  | O, _ => s
  | S n', String _ s' => drop n' s'
  | S _, EmptyString => EmptyString
  end.

Fixpoint rev_onto (s acc : string) : string :=
  match s with
  | EmptyString => acc
  | String c s' => rev_onto s' (String c acc)
  end.

Definition rev (s : string) : string := rev_onto s "".

(** Strict UTF-8 validity (RFC 3629: no overlong forms, no surrogates,
    nothing above U+10FFFF), as the [utf-8] codec with [errors="strict"]
    demands it. *)
Fixpoint utf8_valid (s : string) : bool :=
  match s with
  | EmptyString => true
  | String b0 s1 =>
    if in_range 0 127 b0 then utf8_valid s1 else
    match s1 with
    | EmptyString => false
    | String b1 s2 =>
      if in_range 194 223 b0 then in_range 128 191 b1 && utf8_valid s2 else
      match s2 with
      | EmptyString => false
      | String b2 s3 =>
        if in_range 224 239 b0 then
          (if in_range 224 224 b0 then in_range 160 191 b1
           else if in_range 237 237 b0 then in_range 128 159 b1
           else in_range 128 191 b1)
          && in_range 128 191 b2 && utf8_valid s3
        else
        match s3 with
        | EmptyString => false
        | String b3 s4 =>
          in_range 240 244 b0
          && (if in_range 240 240 b0 then in_range 144 191 b1
              else if in_range 244 244 b0 then in_range 128 143 b1
              else in_range 128 191 b1)
          && in_range 128 191 b2 && in_range 128 191 b3 && utf8_valid s4
        end
      end
    end
  end.

(** The characters [str.strip()] removes ([str.isspace]): U+0009..U+000D,
    U+001C..U+0020, U+0085, U+00A0, U+1680, U+2000..U+200A, U+2028, U+2029,
    U+202F, U+205F, U+3000, here by their UTF-8 encodings. *)
Definition ws1 (a : ascii) : bool :=
  in_range 9 13 a || in_range 28 32 a.

Definition ws2 (a b : ascii) : bool :=
  in_range 194 194 a && (in_range 133 133 b || in_range 160 160 b).

Definition ws3 (a b c : ascii) : bool :=
  (in_range 225 225 a && in_range 154 154 b && in_range 128 128 c)
  || (in_range 226 226 a && in_range 128 128 b
      && (in_range 128 138 c || in_range 168 169 c || in_range 175 175 c))
  || (in_range 226 226 a && in_range 129 129 b && in_range 159 159 c)
  || (in_range 227 227 a && in_range 128 128 b && in_range 128 128 c).

Fixpoint lstrip (s : string) : string :=
  match s with
  | EmptyString => EmptyString
  | String a s1 =>
    if ws1 a then lstrip s1 else
    match s1 with
    | EmptyString => s
    | String b s2 =>
      if ws2 a b then lstrip s2 else
      match s2 with
      | EmptyString => s
      | String c s3 => if ws3 a b c then lstrip s3 else s
      end
    end
  end.

(** The same scan on the reversed string, where each encoding appears with
    its bytes in reverse order. *)
Fixpoint lstrip_rev (s : string) : string :=
  match s with
  | EmptyString => EmptyString
  | String a s1 =>
    if ws1 a then lstrip_rev s1 else
    match s1 with
    | EmptyString => s
    | String b s2 =>
      if ws2 b a then lstrip_rev s2 else
      match s2 with
      | EmptyString => s
      | String c s3 => if ws3 c b a then lstrip_rev s3 else s
      end
    end
  end.

Definition rstrip (s : string) : string := rev (lstrip_rev (rev s)).

(** [str.strip()]. *)
Definition strip (s : string) : string := rstrip (lstrip s).

(** [s.split(sep, 1)] for a non-empty [sep]: one piece when [sep] does not
    occur, otherwise the text before and after its first occurrence. *)
Fixpoint split_at_first (sep : string) (s : string) (before : string)
  : option (string * string) :=
  if startswith s sep then Some (rev before, drop (String.length sep) s)
  else match s with
       | EmptyString => None
       | String c s' => split_at_first sep s' (String c before)
       end.

Definition split1 (sep s : string) : list string :=
  match split_at_first sep s "" with
  | Some (a, b) => [a; b]
  | None => [s]
  end.

(** Universal-newlines translation of text-mode reading ([newline=None]):
    CR LF and a lone CR become LF. *)
Fixpoint translate_newlines (s : string) : string :=
  match s with
  | EmptyString => EmptyString
  | String c s' =>
    if Ascii.eqb c (chr 13) then
      match s' with
      | String d s'' =>
        if Ascii.eqb d (chr 10) then String (chr 10) (translate_newlines s'')
        else String (chr 10) (translate_newlines s')
      | EmptyString => LF
      end
    else String c (translate_newlines s')
  end.

(** Iterating a text file: the lines, each with its terminating LF except
    possibly the last one. *)
Fixpoint lines_from (s : string) (cur : string) : list string :=
  match s with
  | EmptyString => match cur with EmptyString => [] | _ => [rev cur] end
  | String c s' =>
    if Ascii.eqb c (chr 10) then rev (String c cur) :: lines_from s' ""
    else lines_from s' (String c cur)
  end.

Definition readlines (s : string) : list string := lines_from s "".

(** [sep.join(l)]. *)
Fixpoint join (sep : string) (l : list string) : string :=
  match l with
  | [] => ""
  | [x] => x
  | x :: l' => x +:+ sep +:+ join sep l'
  end.

(** Split on one character, keeping empty pieces ([s.split("/")]). *)
Fixpoint split_char_from (c : ascii) (s : string) (cur : string) : list string :=
  match s with
  | EmptyString => [rev cur]
  | String d s' =>
    if Ascii.eqb d c then rev cur :: split_char_from c s' ""
    else split_char_from c s' (String d cur)
  end.

Definition split_char (c : ascii) (s : string) : list string :=
  split_char_from c s "".

(** Order of [str]: lexicographic on code points, that is on the bytes. *)
Definition le (a b : string) : Prop := String.leb a b = true.

End PyStr.

(** ** SHA-256 ([hashlib.sha256]), FIPS 180-4 *)

Module Sha256.

Local Open Scope N_scope.

Definition w32 (x : N) : N := N.land x 0xFFFFFFFF.
Definition add32 (x y : N) : N := w32 (x + y).
Definition rotr (n x : N) : N := N.lor (N.shiftr x n) (w32 (N.shiftl x (32 - n))).
Definition not32 (x : N) : N := N.lxor x 0xFFFFFFFF.

Definition Ch (x y z : N) := N.lxor (N.land x y) (N.land (not32 x) z).
Definition Maj (x y z : N) :=
  N.lxor (N.lxor (N.land x y) (N.land x z)) (N.land y z).
Definition Sigma0 x := N.lxor (N.lxor (rotr 2 x) (rotr 13 x)) (rotr 22 x).
Definition Sigma1 x := N.lxor (N.lxor (rotr 6 x) (rotr 11 x)) (rotr 25 x).
Definition sigma0 x := N.lxor (N.lxor (rotr 7 x) (rotr 18 x)) (N.shiftr x 3).
Definition sigma1 x := N.lxor (N.lxor (rotr 17 x) (rotr 19 x)) (N.shiftr x 10).

(** The first 64 primes. *)
Definition is_prime (n : nat) : bool :=
  List.forallb (fun d => negb (Nat.eqb (n mod d) 0)) (List.seq 2 (n - 2)).

Definition primes : list N :=
  List.map N.of_nat (List.firstn 64 (List.filter is_prime (List.seq 2 310))).

(** Integer cube root by bisection on the bits of the result. *)
Fixpoint cbrt_bits (n : nat) (x r : N) : N :=
  match n with
  | O => r
  | S n' =>
    let c := r + N.shiftl 1 (N.of_nat n') in
    cbrt_bits n' x (if c * c * c <=? x then c else r)
  end.

(** The first 32 bits of the fractional part of the cube root and of the
    square root of [p]. *)
Definition frac_cbrt (p : N) : N := w32 (cbrt_bits 40 (N.shiftl p 96) 0).
Definition frac_sqrt (p : N) : N := w32 (N.sqrt (N.shiftl p 64)).

(** The round constants and the initial hash value. *)
Definition K : list N := Eval vm_compute in List.map frac_cbrt primes.

Definition H0 : list N := Eval vm_compute in List.map frac_sqrt (List.firstn 8 primes).

Definition bytes_of (s : string) : list N :=
  List.map N_of_ascii (list_ascii_of_string s).

(** Big-endian bytes of a [n]-byte quantity. *)
Fixpoint be_bytes (n : nat) (x : N) : list N :=
  match n with
  | O => []
  | S n' => N.land (N.shiftr x (8 * N.of_nat n')) 0xFF :: be_bytes n' x
  end.

(** Padding: bit 1, zeros up to 56 modulo 64, then the bit length on 64 bits. *)
Definition pad (msg : list N) : list N :=
  let len := List.length msg in
  let zeros := ((64 - ((len + 9) mod 64)) mod 64)%nat in
  msg ++ [0x80] ++ List.repeat 0 zeros ++ be_bytes 8 (8 * N.of_nat len).

Fixpoint words (fuel : nat) (bs : list N) : list N :=
  match fuel, bs with
  | S f, a :: b :: c :: d :: rest =>
    (N.shiftl a 24 + N.shiftl b 16 + N.shiftl c 8 + d) :: words f rest
  | _, _ => []
  end.

Definition nth_word (l : list N) (i : nat) : N := List.nth i l 0.

(** Message schedule, newest word first: [rev_w] holds W(t-1), W(t-2), ... *)
Fixpoint schedule (n : nat) (rev_w : list N) : list N :=
  match n with
  | O => rev_w
  | S n' =>
    let w := add32 (add32 (sigma1 (nth_word rev_w 1)) (nth_word rev_w 6))
                   (add32 (sigma0 (nth_word rev_w 14)) (nth_word rev_w 15)) in
    schedule n' (w :: rev_w)
  end.

Record regs := Regs { ra : N; rb : N; rc : N; rd : N; re : N; rf : N; rg : N; rh : N }.

Definition round (s : regs) (kw : N * N) : regs :=
  let t1 := add32 (add32 (add32 (rh s) (Sigma1 (re s))) (Ch (re s) (rf s) (rg s)))
                  (add32 (fst kw) (snd kw)) in
  let t2 := add32 (Sigma0 (ra s)) (Maj (ra s) (rb s) (rc s)) in
  Regs (add32 t1 t2) (ra s) (rb s) (rc s) (add32 (rd s) t1) (re s) (rf s) (rg s).

Definition regs_of (h : list N) : regs :=
  Regs (nth_word h 0) (nth_word h 1) (nth_word h 2) (nth_word h 3)
       (nth_word h 4) (nth_word h 5) (nth_word h 6) (nth_word h 7).

Definition list_of (s : regs) : list N :=
  [ra s; rb s; rc s; rd s; re s; rf s; rg s; rh s].

Definition compress (h : list N) (block : list N) : list N :=
  let w := List.rev (schedule 48 (List.rev block)) in
  let s := List.fold_left round (List.combine K w) (regs_of h) in
  List.map (fun p => add32 (fst p) (snd p)) (List.combine h (list_of s)).

Fixpoint blocks (fuel : nat) (ws : list N) (h : list N) : list N :=
  match fuel, ws with
  | S f, _ :: _ => blocks f (List.skipn 16 ws) (compress h (List.firstn 16 ws))
  | _, _ => h
  end.

Definition digest_words (msg : list N) : list N :=
  let p := pad msg in
  let ws := words (List.length p) p in
  blocks (List.length ws) ws H0.

Definition hex_digit (n : N) : ascii :=
  if n <? 10 then ascii_of_N (48 + n) else ascii_of_N (87 + n).

Fixpoint hex_nibbles (n : nat) (x : N) : string :=
  match n with
  | O => EmptyString
  | S n' => String (hex_digit (N.land (N.shiftr x (4 * N.of_nat n')) 0xF))
                   (hex_nibbles n' x)
  end.

Fixpoint hex_words (ws : list N) : string :=
  match ws with
  | [] => EmptyString
  | w :: ws' => hex_nibbles 8 w +:+ hex_words ws'
  end.

(** [hashlib.sha256(data).hexdigest()]. *)
Definition hexdigest (data : string) : string :=
  hex_words (digest_words (bytes_of data)).

End Sha256.

(** ** Exceptions and results *)

(** The exceptions the modelled code raises.  The first five are
    [ValueError]s ([UnicodeDecodeError] and [UnicodeEncodeError] are
    subclasses of it); the [Unsafe...] ones are plain [Exception]s of
    [safe_extract]; [TarReadError] is [tarfile.ReadError]; [OSError] stands for [PermissionError],
    [IsADirectoryError], [FileExistsError] and the like, tagged with the
    path.  [Blocked] is not an exception: it marks a call that does not
    return (opening a FIFO that has no peer). *)
Inductive exn :=
| ManifestMissing
| UnexpectedFile (rel : string)
| HashMismatch (rel expected got : string)
| MissingFile (rel : string)
| UnicodeDecodeError
| UnicodeEncodeError
| UnsafeAbsolutePath (name : string)
| UnsafePathTraversal (name : string)
| UnsafeLink (name : string)
| TarReadError (what : string)
| RuntimeError (what : string)
| OSError (what : string)
| Blocked (what : string).

Definition is_ValueError (e : exn) : bool :=
  match e with
  | ManifestMissing | UnexpectedFile _ | HashMismatch _ _ _ | MissingFile _
  | UnicodeDecodeError | UnicodeEncodeError => true
  | _ => false
  end.

(** [str(e)]: the message each [raise] of the source builds.  Of the two
    codec errors only the beginning of the message is kept; the codec goes
    on with the offending byte, its position and the reason. *)
Definition exn_str (e : exn) : string :=
  match e with
  | ManifestMissing => "Manifest file missing from bundle."
  | UnexpectedFile rel => "Unexpected file in bundle: " +:+ rel
  | HashMismatch rel expected got =>
      "Hash mismatch for " +:+ rel +:+ ": expected " +:+ expected +:+ ", got " +:+ got
  | MissingFile rel => "Missing file declared in manifest: " +:+ rel
  | UnicodeDecodeError => "'utf-8' codec can't decode"
  | UnicodeEncodeError => "'utf-8' codec can't encode"
  | UnsafeAbsolutePath name => "Unsafe absolute path: " +:+ name
  | UnsafePathTraversal name => "Unsafe path traversal: " +:+ name
  | UnsafeLink name => "Unsafe symlink/hardlink blocked: " +:+ name
  | TarReadError what => what
  | RuntimeError what => what
  | OSError what => "OSError: " +:+ what
  | Blocked what => "blocked on " +:+ what
  end.

Inductive result (A : Type) :=
| Ok (a : A)
| Raise (e : exn).
Arguments Ok {A} a.
Arguments Raise {A} e.

Definition bind {A B} (r : result A) (k : A -> result B) : result B :=
  match r with
  | Ok a => k a
  | Raise e => Raise e
  end.

Notation "x <-! r ; k" := (bind r (fun x => k))
  (at level 100, r at next level, right associativity).

(** ** Python dictionaries, in insertion order *)

Module PyDict.

Definition t := list (string * string).

Fixpoint get (d : t) (k : string) : option string :=
  match d with
  | [] => None
  | (k', v) :: d' => if String.eqb k' k then Some v else get d' k
  end.

(** [d[k] = v]: an existing key keeps its position and takes the new value,
    a new key goes last. *)
Fixpoint set (d : t) (k v : string) : t :=
  match d with
  | [] => [(k, v)]
  | (k', v') :: d' =>
    if String.eqb k' k then (k', v) :: d' else (k', v') :: set d' k v
  end.

Definition keys (d : t) : list string := List.map fst d.

Definition mem (d : t) (k : string) : bool :=
  match get d k with Some _ => true | None => false end.

End PyDict.

(** ** Paths ([pathlib.PurePosixPath]) *)

Definition path := list string.

(** [str(p)] of a relative path. *)
Definition path_str (p : path) : string :=
  match p with
  | [] => "."
  | _ => PyStr.join "/" p
  end.

(** [p.name]. *)
Definition path_name (p : path) : string := List.last p "".

(** [Path(s).is_absolute()]. *)
Definition is_absolute (s : string) : bool := PyStr.startswith s "/".

(** The segments of [Path(s)]: empty ones and ["."] are dropped. *)
Definition segments (s : string) : list string :=
  List.filter (fun x => negb (String.eqb x "") && negb (String.eqb x "."))
              (PyStr.split_char "/" s).

(** [Path(s).parts]: the root, if any, then the segments.  Exactly two
    leading slashes are kept as the root ["//"]. *)
Definition parts (s : string) : list string :=
  if PyStr.startswith s "//" && negb (PyStr.startswith s "///")
  then "//" :: segments s
  else if PyStr.startswith s "/" then "/" :: segments s
  else segments s.

(** Order of [Path] objects: their parts compared segment by segment, each
    segment as a [str]. *)
Fixpoint path_leb (p q : path) : bool :=
  match p, q with
  | [], _ => true
  | _ :: _, [] => false
  | a :: p', b :: q' =>
    match String.compare a b with
    | Lt => true
    | Gt => false
    | Eq => path_leb p' q'
    end
  end.

Definition path_le (p q : path) : Prop := path_leb p q = true.

Definition path_eqb (p q : path) : bool := bool_decide (p = q).

(** ** Directory trees *)

Inductive kind :=
| Regular (data : string)
| Directory
| Fifo.

(** What [os.lstat] reports besides the type, and whether the file can be
    opened for reading. *)
Record stat := Stat {
  st_mode : N;
  st_uid : N;
  st_gid : N;
  st_mtime : Z;
  st_readable : bool
}.

Record node := Node { n_kind : kind; n_stat : stat }.

Definition tree := list (path * node).

(** [root.rglob("*")]: every entry below the root, in listing order. *)
Definition rglob (fs : tree) : list path := List.map fst fs.

Fixpoint fs_lookup (fs : tree) (p : path) : option node :=
  match fs with
  | [] => None
  | (q, n) :: fs' => if path_eqb q p then Some n else fs_lookup fs' p
  end.

(** [p.exists()]. *)
Definition exists_ (fs : tree) (p : path) : bool :=
  match fs_lookup fs p with Some _ => true | None => false end.

(** [p.is_file()]. *)
Definition is_file (fs : tree) (p : path) : bool :=
  match fs_lookup fs p with
  | Some (Node (Regular _) _) => true
  | _ => false
  end.

(** [p.is_dir()]. *)
Definition is_dir (fs : tree) (p : path) : bool :=
  match fs_lookup fs p with
  | Some (Node Directory _) => true
  | _ => false
  end.

(** The process that runs the tool: its umask and ids, the wall clock, and
    the user and group databases [tarfile] consults. *)
Record machine := Machine {
  m_umask : N;
  m_uid : N;
  m_gid : N;
  m_now : Z;
  m_pwd : N -> option string;
  m_grp : N -> option string
}.

Definition new_stat (m : machine) (perm : N) : stat :=
  Stat (N.land perm (N.lxor 511 (N.land (m_umask m) 511)))
       (m_uid m) (m_gid m) (m_now m) true.

Fixpoint fs_replace (fs : tree) (p : path) (n : node) : tree :=
  match fs with
  | [] => []
  | (q, n') :: fs' =>
    if path_eqb q p then (q, n) :: fs' else (q, n') :: fs_replace fs' p n
  end.

(** [p.mkdir(exist_ok=True)] on a path whose parent exists. *)
Definition mkdir_exist_ok (m : machine) (fs : tree) (p : path) : result tree :=
  match fs_lookup fs p with
  | None => Ok (fs ++ [(p, Node Directory (new_stat m 511))])
  | Some (Node Directory _) => Ok fs
  | Some _ => Raise (OSError ("FileExistsError: " +:+ path_str p))
  end.

(** [open(p, "w")] followed by writing [data] and closing. *)
Definition write_file (m : machine) (fs : tree) (p : path) (data : string)
  : result tree :=
  match fs_lookup fs p with
  | None => Ok (fs ++ [(p, Node (Regular data) (new_stat m 438))])
  | Some (Node (Regular _) st) =>
      Ok (fs_replace fs p
            (Node (Regular data)
                  (Stat (st_mode st) (st_uid st) (st_gid st) (m_now m)
                        (st_readable st))))
  | Some (Node Directory _) => Raise (OSError ("IsADirectoryError: " +:+ path_str p))
  | Some (Node Fifo _) => Raise (Blocked (path_str p))
  end.

(** ** manifest.py *)

(** [calculate_file_hash(path)].  The chunked reading loop feeds the whole
    content to the hash. *)
Definition calculate_file_hash (fs : tree) (p : path) : result string :=
  match fs_lookup fs p with
  | Some (Node (Regular data) st) =>
      if st_readable st then Ok (Sha256.hexdigest data)
      else Raise (OSError ("PermissionError: " +:+ path_str p))
  | Some (Node Directory _) => Raise (OSError ("IsADirectoryError: " +:+ path_str p))
  | Some (Node Fifo _) => Raise (Blocked (path_str p))
  | None => Raise (OSError ("FileNotFoundError: " +:+ path_str p))
  end.

Definition manifest_rel : path := ["manifest"; "sha256sum.txt"].

#[global] Instance path_le_dec (p q : path) : Decision (path_le p q).
Proof. unfold path_le. apply _. Defined.

#[global] Instance str_le_dec (a b : string) : Decision (PyStr.le a b).
Proof. unfold PyStr.le. apply _. Defined.

(** [sorted(...)] of paths and of strings. *)
Definition sorted_paths (l : list path) : list path := merge_sort path_le l.
Definition sorted_strs (l : list string) : list string := merge_sort PyStr.le l.

(** The test that skips the manifest in [generate_manifest]:
    [rel_path.parts[0] == "manifest" and rel_path.name == "sha256sum.txt"]. *)
Definition skipped_by_generate (rel : path) : bool :=
  String.eqb (List.hd "" rel) "manifest" && String.eqb (path_name rel) "sha256sum.txt".

(** The loop of [generate_manifest] that fills [hashes]. *)
Fixpoint hash_files (fs : tree) (todo : list path) (hashes : PyDict.t)
  : result PyDict.t :=
  match todo with
  | [] => Ok hashes
  | p :: rest =>
    if negb (is_file fs p) then hash_files fs rest hashes
    else if skipped_by_generate p then hash_files fs rest hashes
    else
      h <-! calculate_file_hash fs p;
      hash_files fs rest (PyDict.set hashes (path_str p) h)
  end.

(** One manifest line, [f"{hashes[path]}  {path}\n"]. *)
Definition manifest_line (digest rel : string) : string :=
  digest +:+ "  " +:+ rel +:+ PyStr.LF.

(** The loop that writes the lines; a line that the [utf-8] codec cannot
    encode raises. *)
Fixpoint write_lines (hashes : PyDict.t) (keys : list string) : result string :=
  match keys with
  | [] => Ok ""
  | k :: rest =>
    let line := manifest_line (default "" (PyDict.get hashes k)) k in
    if PyStr.utf8_valid line then
      out <-! write_lines hashes rest; Ok (line +:+ out)
    else Raise UnicodeEncodeError
  end.

Definition manifest_text (hashes : PyDict.t) : result string :=
  write_lines hashes (sorted_strs (PyDict.keys hashes)).

(** [generate_manifest(bundle_root)]: the tree after the call. *)
Definition generate_manifest (m : machine) (bundle_root : tree) : result tree :=
  fs <-! mkdir_exist_ok m bundle_root ["manifest"];
  hashes <-! hash_files fs (sorted_paths (rglob fs)) [];
  text <-! manifest_text hashes;
  write_file m fs manifest_rel text.

(** ** verify.py: the strict verifier *)

(** The body of the loop that loads the expected mapping. *)
Definition load_line (expected : PyDict.t) (line : string) : PyDict.t :=
  let line := PyStr.strip line in
  if String.eqb line "" then expected
  else match PyStr.split1 "  " line with
       | [h; p] => PyDict.set expected p h
       | _ => expected
       end.

(** Reading the manifest: [open(..., "r", encoding="utf-8")] and the loop
    over its lines. *)
Definition parse_manifest (bytes : string) : result PyDict.t :=
  if PyStr.utf8_valid bytes
  then Ok (List.fold_left load_line (PyStr.readlines (PyStr.translate_newlines bytes)) [])
  else Raise UnicodeDecodeError.

(** The walk over [extracted_dir.rglob("*")]. *)
Fixpoint verify_walk (fs : tree) (expected : PyDict.t) (todo : list path)
    (found_paths : gset string) : result (gset string) :=
  match todo with
  | [] => Ok found_paths
  | p :: rest =>
    if negb (is_file fs p) then verify_walk fs expected rest found_paths
    else if String.eqb (path_name p) ".DS_Store"
    then verify_walk fs expected rest found_paths
    else
      let rel_str := path_str p in
      if String.eqb rel_str (path_str manifest_rel)
      then verify_walk fs expected rest found_paths
      else
        let found_paths := {[rel_str]} ∪ found_paths in
        match PyDict.get expected rel_str with
        | None => Raise (UnexpectedFile rel_str)
        | Some want =>
          curr <-! calculate_file_hash fs p;
          if negb (String.eqb curr want)
          then Raise (HashMismatch rel_str want curr)
          else verify_walk fs expected rest found_paths
        end
  end.

(** The final loop over [expected]. *)
Fixpoint check_missing (keys : list string) (found_paths : gset string)
  : result bool :=
  match keys with
  | [] => Ok true
  | p :: rest =>
    if bool_decide (p ∈ found_paths) then check_missing rest found_paths
    else Raise (MissingFile p)
  end.

(** [verify_manifest(extracted_dir)]. *)
Definition verify_manifest (extracted_dir : tree) : result bool :=
  match fs_lookup extracted_dir manifest_rel with
  | None => Raise ManifestMissing
  | Some (Node (Regular bytes) st) =>
      if st_readable st then
        expected <-! parse_manifest bytes;
        found_paths <-! verify_walk extracted_dir expected (rglob extracted_dir) ∅;
        check_missing (PyDict.keys expected) found_paths
      else Raise (OSError ("PermissionError: " +:+ path_str manifest_rel))
  | Some (Node Directory _) =>
      Raise (OSError ("IsADirectoryError: " +:+ path_str manifest_rel))
  | Some (Node Fifo _) => Raise (Blocked (path_str manifest_rel))
  end.

(** ** util.py: the reproducibility timestamp *)

Definition is_digit (c : ascii) : bool := PyStr.in_range 48 57 c.

(** The code points of a [str], from its UTF-8 bytes.  [None] stands for
    bytes that are not valid UTF-8: [os.environ] decodes those with
    [surrogateescape], and [int] rejects a string that holds a surrogate. *)
Fixpoint utf8_decode (s : string) : option (list N) :=
  match s with
  | EmptyString => Some []
  | String b0 s1 =>
    if PyStr.in_range 0 127 b0 then cons (PyStr.ord b0) <$> utf8_decode s1 else
    match s1 with
    | EmptyString => None
    | String b1 s2 =>
      if PyStr.in_range 194 223 b0 then
        if PyStr.in_range 128 191 b1
        then cons ((PyStr.ord b0 - 192) * 64 + (PyStr.ord b1 - 128))%N <$> utf8_decode s2
        else None
      else
      match s2 with
      | EmptyString => None
      | String b2 s3 =>
        if PyStr.in_range 224 239 b0 then
          if (if PyStr.in_range 224 224 b0 then PyStr.in_range 160 191 b1
              else if PyStr.in_range 237 237 b0 then PyStr.in_range 128 159 b1
              else PyStr.in_range 128 191 b1)
             && PyStr.in_range 128 191 b2
          then cons ((PyStr.ord b0 - 224) * 4096 + (PyStr.ord b1 - 128) * 64
                     + (PyStr.ord b2 - 128))%N <$> utf8_decode s3
          else None
        else
        match s3 with
        | EmptyString => None
        | String b3 s4 =>
          if PyStr.in_range 240 244 b0
             && (if PyStr.in_range 240 240 b0 then PyStr.in_range 144 191 b1
                 else if PyStr.in_range 244 244 b0 then PyStr.in_range 128 143 b1
                 else PyStr.in_range 128 191 b1)
             && PyStr.in_range 128 191 b2 && PyStr.in_range 128 191 b3
          then cons ((PyStr.ord b0 - 240) * 262144 + (PyStr.ord b1 - 128) * 4096
                     + (PyStr.ord b2 - 128) * 64 + (PyStr.ord b3 - 128))%N
                 <$> utf8_decode s4
          else None
        end
      end
    end
  end.

(** The digit zero of every run of decimal digits (general category Nd) in
    Unicode 14.0, the version CPython 3.11 carries; the digits one to nine
    of a run follow its zero. *)
Definition decimal_zeros : list N :=
  [0x0030; 0x0660; 0x06F0; 0x07C0; 0x0966; 0x09E6; 0x0A66; 0x0AE6; 0x0B66;
   0x0BE6; 0x0C66; 0x0CE6; 0x0D66; 0x0DE6; 0x0E50; 0x0ED0; 0x0F20; 0x1040;
   0x1090; 0x17E0; 0x1810; 0x1946; 0x19D0; 0x1A80; 0x1A90; 0x1B50; 0x1BB0;
   0x1C40; 0x1C50; 0xA620; 0xA8D0; 0xA900; 0xA9D0; 0xA9F0; 0xAA50; 0xABF0;
   0xFF10; 0x104A0; 0x10D30; 0x11066; 0x110F0; 0x11136; 0x111D0; 0x112F0;
   0x11450; 0x114D0; 0x11650; 0x116C0; 0x11730; 0x118E0; 0x11950; 0x11C50;
   0x11D50; 0x11DA0; 0x16A60; 0x16AC0; 0x16B50; 0x1D7CE; 0x1D7D8; 0x1D7E2;
   0x1D7EC; 0x1D7F6; 0x1E140; 0x1E2F0; 0x1E950; 0x1FBF0]%N.

(** [Py_UNICODE_TODECIMAL]. *)
Definition to_decimal (cp : N) : option N :=
  (fun zero => cp - zero)%N
    <$> List.find (fun zero => (zero <=? cp)%N && (cp <? zero + 10)%N) decimal_zeros.

(** [Py_UNICODE_ISSPACE] from U+007F on. *)
Definition is_unicode_space (cp : N) : bool :=
  bool_decide (cp ∈ [0x85; 0xA0; 0x1680; 0x2028; 0x2029; 0x202F; 0x205F; 0x3000]%N)
  || (0x2000 <=? cp)%N && (cp <=? 0x200A)%N.

(** What [int] does to a [str] before it parses it
    ([_PyUnicode_TransformDecimalAndSpaceToASCII]): a code point below
    U+007F stays, white space from there on becomes a space and a decimal
    digit its ASCII digit; nothing else is accepted. *)
Definition to_ascii (cp : N) : option ascii :=
  if (cp <? 127)%N then Some (ascii_of_N cp)
  else if is_unicode_space cp then Some " "%char
  else (fun d => ascii_of_N (48 + d)) <$> to_decimal cp.

Fixpoint transform (cps : list N) : option string :=
  match cps with
  | [] => Some EmptyString
  | cp :: rest =>
    match to_ascii cp, transform rest with
    | Some c, Some s => Some (String c s)
    | _, _ => None
    end
  end.

(** [Py_ISSPACE], the white space the parser skips at both ends. *)
Definition is_c_space (c : ascii) : bool :=
  PyStr.in_range 9 13 c || PyStr.in_range 32 32 c.

Fixpoint lstrip_c (s : string) : string :=
  match s with
  | EmptyString => EmptyString
  | String c s' => if is_c_space c then lstrip_c s' else s
  end.

Definition strip_c (s : string) : string :=
  PyStr.rev (lstrip_c (PyStr.rev (lstrip_c s))).

(** The digits of a decimal literal and their number; single underscores
    may separate digits. *)
Fixpoint digits_value (s : string) (acc : Z) (digits : N) (after_digit : bool)
  : option (Z * N) :=
  match s with
  | EmptyString => if after_digit then Some (acc, digits) else None
  | String c s' =>
    if is_digit c
    then digits_value s' (10 * acc + (Z.of_N (PyStr.ord c) - 48))%Z (digits + 1)%N true
    else if Ascii.eqb c "_"%char
    then (if after_digit then digits_value s' acc digits false else None)
    else None
  end.

(** [sys.get_int_max_str_digits()], at its default. *)
Definition int_max_str_digits : N := 4300.

(** [int(val)] for a [str]: [None] stands for [ValueError].  White space
    around the literal and a sign before its digits are accepted; a literal
    of more than [int_max_str_digits] digits is refused. *)
Definition py_int (val : string) : option Z :=
  match utf8_decode val with
  | None => None
  | Some cps =>
    match transform cps with
    | None => None
    | Some s =>
      let '(negative, literal) :=
        match strip_c s with
        | String "+"%char t => (false, t)
        | String "-"%char t => (true, t)
        | t => (false, t)
        end in
      match digits_value literal 0 0 false with
      | Some (n, digits) =>
        if (digits <=? int_max_str_digits)%N
        then Some (if negative then (- n)%Z else n)
        else None
      | None => None
      end
    end
  end.

(** [os.environ]. *)
Abbreviation environ := (gmap string string).

(** [get_source_date_epoch()]. *)
Definition get_source_date_epoch (env : environ) : Z :=
  let val := default "0" (env !! "SOURCE_DATE_EPOCH") in
  match py_int val with
  | Some n => n
  | None => 0%Z
  end.

(** ** pack.py: the archive *)

Inductive member_type := REGTYPE | DIRTYPE | SYMTYPE | LNKTYPE | FIFOTYPE.

(** [tarfile.TarInfo], the fields that reach the header. *)
Record TarInfo := mkTarInfo {
  ti_name : string;
  ti_mode : N;
  ti_uid : N;
  ti_gid : N;
  ti_size : N;
  ti_mtime : Z;
  ti_type : member_type;
  ti_linkname : string;
  ti_uname : string;
  ti_gname : string
}.

(** A member of the archive: its header and, for a regular file, its data. *)
Definition member := (TarInfo * string)%type.

(** The file at the bundle path: the gzip header fields, the members of the
    tar stream it wraps and whether the end-of-archive marker was written.
    The bytes are the image of this value under the serializers of
    [tarfile] and [gzip], which are not modelled further. *)
Record bundle_file := mkBundle {
  gz_fname : string;
  gz_mtime : Z;
  tar_members : list member;
  tar_finished : bool
}.

(** [normalize_tarinfo(tarinfo)]. *)
Definition normalize_tarinfo (env : environ) (tarinfo : TarInfo) : TarInfo :=
  mkTarInfo (ti_name tarinfo) (ti_mode tarinfo) 0 0 (ti_size tarinfo)
            (get_source_date_epoch env) (ti_type tarinfo) (ti_linkname tarinfo)
            "" "".

(** [TarFile.gettarinfo(name, arcname)]: the header built from [os.lstat].
    (Sockets, for which it returns [None], and hard-link detection are left
    out: the tree has neither.) *)
Definition gettarinfo (m : machine) (fs : tree) (p : path) (arcname : string)
  : result TarInfo :=
  match fs_lookup fs p with
  | None => Raise (OSError ("FileNotFoundError: " +:+ path_str p))
  | Some (Node k st) =>
    Ok (mkTarInfo arcname (st_mode st) (st_uid st) (st_gid st)
          (match k with Regular data => N.of_nat (String.length data) | _ => 0%N end)
          (st_mtime st)
          (match k with Regular _ => REGTYPE | Directory => DIRTYPE | Fifo => FIFOTYPE end)
          ""
          (default "" (m_pwd m (st_uid st)))
          (default "" (m_grp m (st_gid st))))
  end.

(** Appending one entry: the header passes through [filter]; a regular file
    is opened for reading and its data copied. *)
Definition add_entry (m : machine) (fs : tree) (filter : TarInfo -> TarInfo)
    (p : path) (arcname : string) : result member :=
  tarinfo <-! gettarinfo m fs p arcname;
  let tarinfo := filter tarinfo in
  match fs_lookup fs p with
  | Some (Node (Regular data) st) =>
      if st_readable st then Ok (tarinfo, data)
      else Raise (OSError ("PermissionError: " +:+ path_str p))
  | _ => Ok (tarinfo, "")
  end.

(** [p] lies strictly below [d]. *)
Definition below (d p : path) : bool :=
  bool_decide (List.firstn (List.length d) p = d)
  && negb (bool_decide (p = d)).

Fixpoint add_entries (m : machine) (fs : tree) (filter : TarInfo -> TarInfo)
    (todo : list (path * string)) : list member * option exn :=
  match todo with
  | [] => ([], None)
  | (p, arcname) :: rest =>
    match add_entry m fs filter p arcname with
    | Raise e => ([], Some e)
    | Ok mb =>
      let '(ms, err) := add_entries m fs filter rest in (mb :: ms, err)
    end
  end.

(** [tar.add(name, arcname=..., recursive=..., filter=...)]: the members
    written and the exception that stopped the call, if any.  With
    [recursive] a directory is followed by everything below it, each level in
    sorted order, which is the order of [path_le]. *)
Definition tar_add (m : machine) (fs : tree) (filter : TarInfo -> TarInfo)
    (recursive : bool) (p : path) (arcname : string)
  : list member * option exn :=
  let sub :=
    if recursive && is_dir fs p
    then List.map
           (fun q => (q, PyStr.join "/" (arcname :: List.skipn (List.length p) q)))
           (sorted_paths (List.filter (below p) (rglob fs)))
    else [] in
  add_entries m fs filter ((p, arcname) :: sub).

(** [gzip.GzipFile(filename=..., mtime=...)]: the header it will write.  The
    name field holds the base name of [filename] when that is not empty; the
    time field holds [mtime], or the current time when none is given. *)
Definition GzipFile (m : machine) (filename : string) (mtime : option Z)
  : string * Z :=
  (List.last (PyStr.split_char "/" filename) "", default (m_now m) mtime).

(** The loop over [all_files] inside the three [with] blocks. *)
Fixpoint pack_loop (env : environ) (m : machine) (stage_dir : tree)
    (all_files : list path) : list member * option exn :=
  match all_files with
  | [] => ([], None)
  | p :: rest =>
    if String.eqb (path_name p) ".DS_Store" then pack_loop env m stage_dir rest
    else
      let rel_path := p in
      match tar_add m stage_dir (normalize_tarinfo env) false p (path_str rel_path) with
      | (ms, Some e) => (ms, Some e)
      | (ms, None) =>
        let '(ms', err) := pack_loop env m stage_dir rest in (ms ++ ms', err)
      end
  end.

(** Step 6 of [create_bundle]: what is at the bundle path when the [with]
    blocks are left, and the exception that left them, if any.  The file is
    created by [open(bundle_path, "wb")] before the first member is added;
    leaving the blocks closes the gzip stream in every case, and writes the
    end-of-archive marker only when no exception is in flight. *)
Definition write_bundle (env : environ) (m : machine) (stage_dir : tree)
  : bundle_file * option exn :=
  let '(fname, mtime) := GzipFile m "" (Some 0%Z) in
  let all_files := sorted_paths (rglob stage_dir) in
  let '(ms, err) := pack_loop env m stage_dir all_files in
  (mkBundle fname mtime ms (bool_decide (err = None)), err).

(** ** verify.py: the safe extractor *)

Definition issym (t : TarInfo) : bool :=
  match ti_type t with SYMTYPE => true | _ => false end.
Definition islnk (t : TarInfo) : bool :=
  match ti_type t with LNKTYPE => true | _ => false end.

(** [os.makedirs] of the directories above the target ([done] is the part of
    the path already walked). *)
Fixpoint make_upperdirs (m : machine) (fs : tree) (done : path)
    (todo : list string) : result tree :=
  match todo with
  | [] => Ok fs
  | x :: rest =>
    match rest with
    | [] => Ok fs
    | _ :: _ =>
      let d := done ++ [x] in
      match fs_lookup fs d with
      | None => make_upperdirs m (fs ++ [(d, Node Directory (new_stat m 511))]) d rest
      | Some (Node Directory _) => make_upperdirs m fs d rest
      | Some _ => Raise (OSError ("NotADirectoryError: " +:+ path_str d))
      end
    end
  end.

(** [tar.extract(member, path=path, set_attrs=False)]: the destination
    afterwards, addressed by the parts of the member's name.  Modes, owners
    and times of the archive are not applied.  An existing directory absorbs
    a directory member; a FIFO member needs a free name.  Link members
    ([makelink]) have no counterpart in [kind]; [safe_extract] refuses them
    before this call, and the model answers them with an [OSError]. *)
Definition tar_extract (m : machine) (dest : tree) (mb : member) : result tree :=
  let target := parts (ti_name (fst mb)) in
  fs <-! make_upperdirs m dest [] target;
  match ti_type (fst mb) with
  | REGTYPE =>
      match target with
      | [] => Raise (OSError "IsADirectoryError: .")
      | _ => write_file m fs target (snd mb)
      end
  | DIRTYPE =>
      match target, fs_lookup fs target with
      | _ :: _, None => Ok (fs ++ [(target, Node Directory (new_stat m 448))])
      | _, _ => Ok fs
      end
  | FIFOTYPE =>
      match target, fs_lookup fs target with
      | _ :: _, None => Ok (fs ++ [(target, Node Fifo (new_stat m 438))])
      | _, _ => Raise (OSError ("FileExistsError: " +:+ path_str target))
      end
  | SYMTYPE | LNKTYPE => Raise (OSError ("makelink: " +:+ ti_name (fst mb)))
  end.

(** The three rejection rules of [safe_extract], in the order of the source. *)
Definition rejection (member : TarInfo) : option exn :=
  if is_absolute (ti_name member)
  then Some (UnsafeAbsolutePath (ti_name member))
  else if bool_decide (".." ∈ parts (ti_name member))
  then Some (UnsafePathTraversal (ti_name member))
  else if issym member || islnk member
  then Some (UnsafeLink (ti_name member))
  else None.

(** [safe_extract(tar, path)] over [tar.getmembers()]: the destination when
    the call ends and the exception that ended it, if any. *)
Fixpoint safe_extract (m : machine) (members : list member) (dest : tree)
  : tree * option exn :=
  match members with
  | [] => (dest, None)
  | member :: rest =>
    match rejection (fst member) with
    | Some e => (dest, Some e)
    | None =>
      match tar_extract m dest member with
      | Raise e => (dest, Some e)
      | Ok dest' => safe_extract m rest dest'
      end
    end
  end.

(** [tar.getmembers()] of a bundle opened with [tarfile.open(..., "r:gz")]:
    a stream that ends before any member and without the end-of-archive
    marker is refused as an empty file. *)
Definition getmembers (b : bundle_file) : result (list member) :=
  match tar_members b, tar_finished b with
  | [], false => Raise (TarReadError "empty file")
  | ms, _ => Ok ms
  end.

(** ** verify.py: [verify_bundle] *)

Record verify_result := mkVerifyResult {
  vr_bundle_path : string;
  signature_verified : option bool;
  manifest_verified : bool;
  strict : bool;
  error : option string
}.

(** [verify_cosign]: the verifier is an external tool, given by what it
    would answer ([None]: no [cosign] on the PATH). *)
Definition verify_cosign (cosign : option bool) : result unit :=
  match cosign with
  | None => Raise (RuntimeError "Cosign binary missing.")
  | Some true => Ok tt
  | Some false => Raise (RuntimeError "Signature INVALID.")
  end.

(** [verify_bundle(bundle_path, sig_path, cert_path, identity, issuer)].
    [bundle] is the file at [bundle_path], if there is one.  An exception
    that is not caught by the source is returned as [Raise]. *)
Definition verify_bundle (m : machine) (bundle_path : string)
    (bundle : option bundle_file) (sig_path cert_path : option string)
    (cosign : option bool) : result verify_result :=
  let result0 := mkVerifyResult bundle_path None false true None in
  match bundle with
  | None =>
      Ok (mkVerifyResult bundle_path None false true
            (Some ("Bundle not found: " +:+ bundle_path)))
  | Some b =>
    let sig_step : result verify_result + verify_result :=
      match sig_path, cert_path with
      | Some _, Some _ =>
          match verify_cosign cosign with
          | Ok _ => inr (mkVerifyResult bundle_path (Some true) false true None)
          | Raise (RuntimeError msg) =>
              inl (Ok (mkVerifyResult bundle_path (Some false) false true (Some msg)))
          | Raise e => inl (Raise e)
          end
      | None, None => inr result0
      | _, _ =>
          inl (Ok (mkVerifyResult bundle_path None false true
                     (Some "Both --sig and --cert must be provided for verification.")))
      end in
    match sig_step with
    | inl r => r
    | inr res =>
      let extraction : tree * option exn :=
        match getmembers b with
        | Raise e => ([], Some e)
        | Ok ms => safe_extract m ms []
        end in
      match extraction with
      | (_, Some (Blocked w)) => Raise (Blocked w)
      | (_, Some e) =>
          Ok (mkVerifyResult bundle_path (signature_verified res) false true
                (Some ("Failed to extract bundle: " +:+ exn_str e)))
      | (td, None) =>
        match verify_manifest td with
        | Ok _ =>
            Ok (mkVerifyResult bundle_path (signature_verified res) true true None)
        | Raise e =>
            if is_ValueError e
            then Ok (mkVerifyResult bundle_path (signature_verified res) false true
                       (Some (exn_str e)))
            else Raise e
        end
      end
    end
  end.

(** ** util.py: [stable_json_write] *)

Module Json.

(** The values the tool writes: integers, strings, lists and dictionaries. *)
#[warnings="-register-all"]
Inductive t :=
| Int (z : Z)
| Str (s : string)
| Arr (l : list t)
| Dict (d : list (string * t)).

Definition DQ : string := String (PyStr.chr 34) "".

Fixpoint N_digits (fuel : nat) (n : N) (acc : string) : string :=
  match fuel with
  | O => acc
  | S f =>
    let acc' := String (ascii_of_N (48 + n mod 10)) acc in
    if (n <? 10)%N then acc' else N_digits f (n / 10) acc'
  end.

Definition str_of_N (n : N) : string := N_digits (S (N.size_nat n)) n "".

(** [str(z)] for an [int]. *)
Definition str_of_Z (z : Z) : string :=
  match z with
  | Z0 => "0"
  | Zpos p => str_of_N (Npos p)
  | Zneg p => "-" +:+ str_of_N (Npos p)
  end.

(** The escapes of [json.dumps(..., ensure_ascii=False)]. *)
Definition escape_char (c : ascii) : string :=
  let n := PyStr.ord c in
  if (n =? 34)%N then "\" +:+ DQ
  else if (n =? 92)%N then "\\"
  else if (n =? 10)%N then "\n"
  else if (n =? 13)%N then "\r"
  else if (n =? 9)%N then "\t"
  else if (n =? 8)%N then "\b"
  else if (n =? 12)%N then "\f"
  else if (n <? 32)%N then "\u00" +:+ Sha256.hex_nibbles 2 n
  else String c "".

Fixpoint escape (s : string) : string :=
  match s with
  | EmptyString => EmptyString
  | String c s' => escape_char c +:+ escape s'
  end.

Definition quote (s : string) : string := DQ +:+ escape s +:+ DQ.

Fixpoint spaces (n : nat) : string :=
  match n with O => "" | S n' => String " "%char (spaces n') end.

Definition newline_indent (level : nat) : string := PyStr.LF +:+ spaces (2 * level).

Definition key_le (a b : string * string) : Prop := PyStr.le (fst a) (fst b).

#[global] Instance key_le_dec a b : Decision (key_le a b).
Proof. unfold key_le. apply _. Defined.

(** [json.dumps(v, indent=2, sort_keys=True, ensure_ascii=False)] at nesting
    depth [level]. *)
Fixpoint dumps (level : nat) (v : t) : string :=
  match v with
  | Int z => str_of_Z z
  | Str s => quote s
  | Arr l =>
    match l with
    | [] => "[]"
    | _ => "[" +:+ newline_indent (S level)
           +:+ PyStr.join ("," +:+ newline_indent (S level))
                          (List.map (dumps (S level)) l)
           +:+ newline_indent level +:+ "]"
    end
  | Dict d =>
    match d with
    | [] => "{}"
    | _ =>
      let items := List.map (fun kv => (fst kv, dumps (S level) (snd kv))) d in
      "{" +:+ newline_indent (S level)
      +:+ PyStr.join ("," +:+ newline_indent (S level))
            (List.map (fun kv => quote (fst kv) +:+ ": " +:+ snd kv)
                      (merge_sort key_le items))
      +:+ newline_indent level +:+ "}"
    end
  end.

End Json.

(** [stable_json_write(path, data)]. *)
Definition stable_json_write (m : machine) (fs : tree) (p : path) (data : Json.t)
  : result tree :=
  let text := Json.dumps 0 data +:+ PyStr.LF in
  if PyStr.utf8_valid text then write_file m fs p text
  else Raise UnicodeEncodeError.

(** ** pack.py: staging and [create_bundle] *)

(** What [create_bundle] receives and what its collaborators hand over.
    The file system it reads is the tree below [repo_root] ([in_root_stat]
    is the [stat] of [repo_root] itself); an include is looked up there by
    its segments as they are written.  The source resolves a [..] segment
    against the file system around the repository, and raises on a NUL
    character; the tree has no such surroundings, the staging below passes
    over such an include, and the properties that depend on what is staged
    are stated for includes without them ([plain_includes]).  The
    collaborators (source control, dependency list, SBOM tool) are given by
    their results:
    [in_version] is [version("ci-evidence-pack")] when it is known, [in_git]
    what [collect_git_info] returns when [collect_git] is set, [in_pip] what
    [collect_pip_freeze] returns when [collect_pip] is set and a Python
    project is found, [in_sbom_tool] the effective tool and [in_sbom_file]
    what [generate_sbom] writes, if anything.  [exclude_globs] is not read
    by the source and has no counterpart here. *)
Record inputs := mkInputs {
  in_repo : tree;
  in_root_stat : stat;
  in_repo_root : string;
  in_includes : list string;
  in_version : option string;
  in_git : option (list (string * string));
  in_pip : option string;
  in_sbom_tool : string;
  in_sbom_file : option string
}.

(** A copy keeps type, data, mode and time ([shutil.copy2], [copystat]) and
    belongs to the copying process. *)
Definition copied (m : machine) (n : node) : node :=
  Node (n_kind n)
       (Stat (st_mode (n_stat n)) (m_uid m) (m_gid m) (st_mtime (n_stat n))
             (st_readable (n_stat n))).

Definition fs_put (fs : tree) (p : path) (n : node) : tree :=
  if exists_ fs p then fs_replace fs p n else fs ++ [(p, n)].

(** Copying the entries of a directory, [shutil.copytree]. *)
Fixpoint copy_entries (m : machine) (todo : list (path * node)) (stage : tree)
  : result tree :=
  match todo with
  | [] => Ok stage
  | (q, n) :: rest =>
    match n_kind n with
    | Fifo => Raise (OSError ("SpecialFileError: " +:+ path_str q))
    | Regular _ =>
      if st_readable (n_stat n)
      then copy_entries m rest (fs_put stage ("artifacts" :: q) (copied m n))
      else Raise (OSError ("PermissionError: " +:+ path_str q))
    | Directory =>
      copy_entries m rest (fs_put stage ("artifacts" :: q) (copied m n))
    end
  end.

(** [clean_rel] for an include: the path itself when relative, the path
    below [repo_root] when absolute and inside it. *)
Definition clean_rel (repo_root inc_str : string) : option path :=
  if is_absolute inc_str then
    let r := parts repo_root in
    if bool_decide (List.firstn (List.length r) (parts inc_str) = r)
    then Some (List.skipn (List.length r) (parts inc_str))
    else None
  else Some (segments inc_str).

Definition log_entry (src type : string) : Json.t :=
  Json.Dict [("src", Json.Str src); ("type", Json.Str type)].

(** One turn of the loop over [includes]: the stage and the input log
    afterwards. *)
Definition stage_include (m : machine) (i : inputs) (inc_str : string)
    (st : tree * list (string * Json.t)) : result (tree * list (string * Json.t)) :=
  let '(stage, input_log) := st in
  match clean_rel (in_repo_root i) inc_str with
  | None => Ok st
  | Some rel =>
    let src := if bool_decide (rel = []) then Some (Node Directory (in_root_stat i))
               else fs_lookup (in_repo i) rel in
    match src with
    | None => Ok st
    | Some n =>
      let dest_path := "artifacts" :: rel in
      stage <-! make_upperdirs m stage [] dest_path;
      match n_kind n with
      | Directory =>
        let stage := fs_put stage dest_path (copied m n) in
        stage <-! copy_entries m
                    (List.filter (fun e => below rel (fst e)) (in_repo i)) stage;
        Ok (stage, input_log ++ [(path_str rel, log_entry (path_str rel) "dir")])
      | Regular _ =>
        if st_readable (n_stat n)
        then Ok (fs_put stage dest_path (copied m n),
                 input_log ++ [(path_str rel, log_entry (path_str rel) "file")])
        else Raise (OSError ("PermissionError: " +:+ path_str rel))
      | Fifo => Raise (OSError ("SpecialFileError: " +:+ path_str rel))
      end
    end
  end.

Fixpoint stage_includes (m : machine) (i : inputs) (includes : list string)
    (st : tree * list (string * Json.t)) : result (tree * list (string * Json.t)) :=
  match includes with
  | [] => Ok st
  | inc_str :: rest =>
    st' <-! stage_include m i inc_str st;
    stage_includes m i rest st'
  end.

(** [tool_meta], the content of [metadata/metadata.json]. *)
Definition tool_meta (env : environ) (v : option string) : list (string * Json.t) :=
  [("tool", Json.Str "ci-evidence-pack");
   ("version", Json.Str (default "unknown" v));
   ("created_at_epoch", Json.Int (get_source_date_epoch env))].

(** [run_data] after the filter that keeps the non-empty values. *)
Definition run_data (env : environ) : list (string * Json.t) :=
  (if bool_decide (get_source_date_epoch env = 0%Z) then []
   else [("source_date_epoch", Json.Int (get_source_date_epoch env))])
  ++ List.flat_map
       (fun kv : string * string =>
          match env !! snd kv with
          | Some v => if String.eqb v "" then [] else [(fst kv, Json.Str v)]
          | None => []
          end)
       [("repo", "GITHUB_REPOSITORY"); ("run_id", "GITHUB_RUN_ID");
        ("sha", "GITHUB_SHA"); ("workflow", "GITHUB_WORKFLOW");
        ("actor", "GITHUB_ACTOR"); ("event_name", "GITHUB_EVENT_NAME");
        ("job", "GITHUB_JOB"); ("runner_name", "RUNNER_NAME")].

Definition log_le (a b : string * Json.t) : Prop := PyStr.le (fst a) (fst b).

#[global] Instance log_le_dec a b : Decision (log_le a b).
Proof. unfold log_le. apply _. Defined.

Definition mkdir (m : machine) (fs : tree) (p : path) : result tree :=
  match fs_lookup fs p with
  | None => Ok (fs ++ [(p, Node Directory (new_stat m 511))])
  | Some _ => Raise (OSError ("FileExistsError: " +:+ path_str p))
  end.

(** Steps 1 to 5 of [create_bundle] up to the call of [generate_manifest]:
    the staging directory that is hashed. *)
Definition stage_inputs (env : environ) (m : machine) (i : inputs) : result tree :=
  (* 1. Artifacts *)
  stage <-! mkdir m [] ["artifacts"];
  st <-! stage_includes m i (in_includes i) (stage, []);
  let '(stage, input_log) := st in
  (* 2. Metadata *)
  stage <-! mkdir m stage ["metadata"];
  stage <-! stable_json_write m stage ["metadata"; "metadata.json"]
              (Json.Dict (tool_meta env (in_version i)));
  stage <-! stable_json_write m stage ["metadata"; "run.json"]
              (Json.Dict (run_data env));
  stage <-! match in_git i with
            | Some (_ :: _ as gdata) =>
                stable_json_write m stage ["metadata"; "git.json"]
                  (Json.Dict (List.map (fun kv => (fst kv, Json.Str (snd kv))) gdata))
            | _ => Ok stage
            end;
  (* 3. Deps *)
  stage <-! match in_pip i with
            | Some pf =>
              if String.eqb pf "" then Ok stage
              else
                stage <-! mkdir_exist_ok m stage ["deps"];
                if PyStr.utf8_valid pf
                then write_file m stage ["deps"; "pip_freeze.txt"] pf
                else Raise UnicodeEncodeError
            | None => Ok stage
            end;
  (* 4. SBOM *)
  stage <-! (if String.eqb (in_sbom_tool i) "none" then Ok stage
             else
               stage <-! mkdir m stage ["sbom"];
               let filename := if String.eqb (in_sbom_tool i) "cyclonedx"
                               then "sbom.cdx.json" else "sbom.syft.json" in
               match in_sbom_file i with
               | Some data => write_file m stage ["sbom"; filename] data
               | None => Ok stage
               end);
  (* 5. Manifest *)
  stage <-! mkdir_exist_ok m stage ["manifest"];
  stable_json_write m stage ["manifest"; "inputs.json"]
    (Json.Arr (List.map snd (merge_sort log_le input_log))).

(** Steps 1 to 5 of [create_bundle]: the staging directory when the manifest
    has been written. *)
Definition stage_tree (env : environ) (m : machine) (i : inputs) : result tree :=
  stage <-! stage_inputs env m i;
  generate_manifest m stage.

(** The payload [create_bundle] returns when nothing is signed
    ([cosign_sign=False]).  [bundle_sha256], the digest of the serialized
    file, is a function of the file and is not kept. *)
Record pack_result := mkPackResult {
  pr_bundle_path : string;
  file_count : nat;
  sbom_tool : string;
  signed : bool;
  source_date_epoch : Z
}.

(** [create_bundle(...)] with [cosign_sign=False]: the file at the bundle
    path afterwards ([previous] is what was there before) and the payload or
    the exception.  The output directory is taken to be writable: creating
    it and opening the bundle path succeed. *)
Definition create_bundle (env : environ) (m : machine) (i : inputs)
    (bundle_path : string) (previous : option bundle_file)
  : option bundle_file * result pack_result :=
  match stage_tree env m i with
  | Raise e => (previous, Raise e)
  | Ok stage_dir =>
    match write_bundle env m stage_dir with
    | (b, Some e) => (Some b, Raise e)
    | (b, None) =>
      (Some b,
       Ok (mkPackResult bundle_path (List.length (rglob stage_dir))
             (in_sbom_tool i) false (get_source_date_epoch env)))
    end
  end.

(** ** util.py: [compute_file_sha256] and the reading loop *)

(** [b[:n]] *)
Fixpoint take_bytes (n : nat) (s : string) : string :=
  match n, s with
  | S n', String c s' => String c (take_bytes n' s')
  | _, _ => EmptyString
  end.

(** A value together with the equation that names it, for the loop below. *)
Definition inspect {A : Type} (a : A) : {b : A | a = b} := exist _ a eq_refl.

(** The reading loop of [calculate_file_hash] and [compute_file_sha256]:
    [rest] is what the file object has not delivered yet, [fed] what
    [update] has fed to the hash object so far; the result is what has been
    fed when [read] returns the empty chunk. *)
Equations read_loop (size : nat) (rest : string) (fed : string) : string
  by wf (String.length rest) lt :=
  read_loop size rest fed with inspect (take_bytes size rest) := {
    | exist _ EmptyString _ => fed
    | exist _ (String c s) H => read_loop size (PyStr.drop size rest) (fed +:+ String c s) }.
Next Obligation.
  destruct size as [|n]; [discriminate|]. destruct rest as [|d rest]; [discriminate|].
  cbn [PyStr.drop String.length]. clear.
  revert rest. induction n as [|n IH]; intros rest; [cbn; lia|].
  destruct rest as [|d' rest]; cbn [PyStr.drop String.length]; [lia|].
  specialize (IH rest). lia.
Defined.

(** [compute_file_sha256(path)] of util.py, which reads 4096 bytes at a
    time. *)
Definition compute_file_sha256 (fs : tree) (p : path) : result string :=
  match fs_lookup fs p with
  | Some (Node (Regular data) st) =>
      if st_readable st then Ok (Sha256.hexdigest (read_loop 4096 data ""))
      else Raise (OSError ("PermissionError: " +:+ path_str p))
  | Some (Node Directory _) => Raise (OSError ("IsADirectoryError: " +:+ path_str p))
  | Some (Node Fifo _) => Raise (Blocked (path_str p))
  | None => Raise (OSError ("FileNotFoundError: " +:+ path_str p))
  end.

(** ** sbom.py and the SBOM step of [create_bundle] *)

(** [generate_sbom(output_path, format_preference)]: the command it hands to
    [run_command], if any.  [which] tells whether [shutil.which] finds a
    program.  What the command writes is the business of that program; a
    failure of the command is logged and nothing else. *)
Definition generate_sbom (which : string -> bool) (output_path : string)
    (format_preference : string) : option (list string) :=
  if String.eqb format_preference "none" then None
  else
    let tool :=
      if String.eqb format_preference "auto" then
        if which "cyclonedx-py" then Some "cyclonedx-py"
        else if which "syft" then Some "syft"
        else None
      else if String.eqb format_preference "cyclonedx" then
        if which "cyclonedx-py" then Some "cyclonedx-py" else None
      else if String.eqb format_preference "syft" then
        if which "syft" then Some "syft" else None
      else None in
    match tool with
    | None => None
    | Some tool =>
      if String.eqb tool "cyclonedx-py"
      then Some ["cyclonedx-py"; "environment"; "--output-format"; "json";
                 "--output-file"; output_path]
      else if String.eqb tool "syft"
      then Some ["syft"; "."; "-o"; "cyclonedx-json"; "--file"; output_path]
      else None
    end.

(** Step 4 of [create_bundle]: the effective tool, and, unless that is
    ["none"], the name of the file in the [sbom] directory and the command
    that [generate_sbom] runs to write it, if it runs one. *)
Definition eff_tool (which : string -> bool) (sbom_format : string) : string :=
  if String.eqb sbom_format "auto" then
    if which "cyclonedx-py" then "cyclonedx"
    else if which "syft" then "syft"
    else "none"
  else sbom_format.

Definition sbom_step (which : string -> bool) (stage_dir sbom_format : string)
  : string * option (string * option (list string)) :=
  let eff_tool := eff_tool which sbom_format in
  if String.eqb eff_tool "none" then (eff_tool, None)
  else
    let filename := if String.eqb eff_tool "cyclonedx"
                    then "sbom.cdx.json" else "sbom.syft.json" in
    (eff_tool,
     Some (filename,
           generate_sbom which (stage_dir +:+ "/sbom/" +:+ filename) sbom_format)).

(** ** util.py: what the user sees *)

(** The module state that [init_console] sets: whether the Rich console was
    created, and the two mode flags. *)
Record ui := mkUi {
  console : bool;
  _quiet_mode : bool;
  _json_mode : bool
}.

(** The data handed to [print_json]: [{"error": msg}], or the dictionary
    that [verify_bundle] or [create_bundle] returned. *)
Inductive json_doc :=
| ErrorDoc (msg : string)
| VerifyDoc (r : verify_result)
| PackDoc (r : pack_result).

(** What the Rich console is asked to render. *)
Inductive renderable :=
| Markup (text : string)
| Rule (title : string)
| Panel (body title : string)
| Table (title : string) (rows : list (string * string)).

(** One write of the tool: [print] to standard output, [print_json] to
    standard output ([json.dumps(data, indent=2, sort_keys=True)], not
    rendered here), [print] to standard error, or a call of the Rich
    console, which is created with [stderr=True]. *)
Inductive output :=
| Stdout (line : string)
| StdoutJson (doc : json_doc)
| Stderr (line : string)
| Rich (r : renderable).

(** U+2714, U+274C and U+2705 in UTF-8. *)
Definition CHECK_MARK : string :=
  String (PyStr.chr 226) (String (PyStr.chr 156) (String (PyStr.chr 148) "")).
Definition CROSS_MARK : string :=
  String (PyStr.chr 226) (String (PyStr.chr 157) (String (PyStr.chr 140) "")).
Definition WHITE_CHECK_MARK : string :=
  String (PyStr.chr 226) (String (PyStr.chr 156) (String (PyStr.chr 133) "")).

(** [init_console(quiet, json_mode)]; [rich_installed] tells whether the
    package [rich] can be imported, which decides whether [Console] is the
    class or [None]. *)
Definition init_console (rich_installed quiet json_mode : bool) : ui :=
  mkUi (rich_installed && negb quiet && negb json_mode) quiet json_mode.

(** [print_json(data)]. *)
Definition print_json (data : json_doc) : list output := [StdoutJson data].

(** [print_success(msg)]. *)
Definition print_success (u : ui) (msg : string) : list output :=
  if _quiet_mode u || _json_mode u then []
  else if console u
  then [Rich (Markup ("[success]" +:+ CHECK_MARK +:+ " " +:+ msg +:+ "[/success]"))]
  else [Stderr (CHECK_MARK +:+ " " +:+ msg)].

(** The truth value of an optional string: [None] and [""] are false. *)
Definition truthy (s : option string) : bool :=
  match s with
  | Some s => negb (String.eqb s "")
  | None => false
  end.

(** [print_error(msg, hint)]. *)
Definition print_error (u : ui) (msg : string) (hint : option string) : list output :=
  if _json_mode u then []
  else if _quiet_mode u then [Stderr (CROSS_MARK +:+ " " +:+ msg)]
  else if console u
  then Rich (Markup ("[error]" +:+ CROSS_MARK +:+ " " +:+ msg +:+ "[/error]"))
       :: (if truthy hint
           then [Rich (Markup ("[yellow]Hint: " +:+ default "" hint +:+ "[/yellow]"))]
           else [])
  else Stderr (CROSS_MARK +:+ " " +:+ msg)
       :: (if truthy hint then [Stderr ("Hint: " +:+ default "" hint)] else []).

(** [str(e)] of the [ImportError] that [from rich.table import Table] and
    [from rich.panel import Panel] raise when the package is missing. *)
Definition NO_RICH : string := "No module named 'rich'".

(** ** cli.py: the commands [verify] and [pack] *)

Module Cli.

(** [verify(bundle, sig, cert, identity, issuer, quiet, json_mode, debug)]:
    what the command writes and the exit code of the process ([None] when
    the command does not return).  [bundle] is [str(bundle)] and
    [bundle_file] the file there, if any.  The records of [logging], which
    go to standard error, are not part of the output listed here.  On the
    success path of the default mode the command imports [rich.panel]; the
    [ImportError] of a missing package is caught by the handler of
    unexpected failures. *)
Definition verify (rich_installed : bool) (m : machine) (bundle : string)
    (file : option bundle_file) (sig cert : option string) (cosign : option bool)
    (quiet json_mode : bool) : list output * option Z :=
  let u := init_console rich_installed quiet json_mode in
  let rich_enabled := console u && negb quiet && negb json_mode in
  match file with
  | None =>
    let msg := "Bundle not found: " +:+ bundle in
    if json_mode then (print_json (ErrorDoc msg), Some 1%Z)
    else (print_error u msg None, Some 1%Z)
  | Some _ =>
    let rule :=
      if rich_enabled && console u
      then [Rich (Rule "[bold cyan]CI Evidence Pack - Verifier[/bold cyan]")]
      else [] in
    match verify_bundle m bundle file sig cert cosign with
    | Raise (Blocked _) => (rule, None)
    | Raise e =>
      if json_mode then (rule ++ print_json (ErrorDoc (exn_str e)), Some 1%Z)
      else (rule ++ print_error u ("Runtime Error: " +:+ exn_str e) None, Some 1%Z)
    | Ok result =>
      if truthy (error result) then
        if json_mode then (rule ++ print_json (VerifyDoc result), Some 2%Z)
        else (rule ++ print_error u (default "" (error result)) None, Some 2%Z)
      else if json_mode then (rule ++ print_json (VerifyDoc result), Some 0%Z)
      else if quiet then (rule ++ [Stdout "OK"], Some 0%Z)
      else if rich_installed then
        (rule
         ++ (if rich_enabled && console u
             then [Rich (Panel ("[bold green]Bundle Verified Successfully[/bold green]"
                                +:+ PyStr.LF +:+ PyStr.LF +:+ "Path: "
                                +:+ vr_bundle_path result)
                               "Verification Result")]
             else [])
         ++ print_success u "Verification Complete",
         Some 0%Z)
      else (rule ++ print_error u ("Runtime Error: " +:+ NO_RICH) None, Some 1%Z)
    end
  end.

(** [pack(...)] from the [try] on, with [cosign_sign=False]: the file at the
    bundle path afterwards, what the command writes and the exit code.  The
    arguments of [create_bundle] are given as [create_bundle] takes them.
    The default mode imports [rich.table] after the bundle is written. *)
Definition pack (rich_installed : bool) (env : environ) (m : machine) (i : inputs)
    (bundle_path : string) (previous : option bundle_file) (quiet json_mode : bool)
  : option bundle_file * list output * option Z :=
  let u := init_console rich_installed quiet json_mode in
  let rich_enabled := console u && negb quiet && negb json_mode in
  let rule :=
    if rich_enabled && console u
    then [Rich (Rule "[bold cyan]CI Evidence Pack - Generator[/bold cyan]")]
    else [] in
  match create_bundle env m i bundle_path previous with
  | (f, Raise (Blocked _)) => (f, rule, None)
  | (f, Raise e) =>
    if json_mode then (f, rule ++ print_json (ErrorDoc (exn_str e)), Some 1%Z)
    else (f, rule ++ print_error u (exn_str e) None, Some 1%Z)
  | (f, Ok result) =>
    if json_mode then (f, rule ++ print_json (PackDoc result), Some 0%Z)
    else if quiet then (f, rule ++ [Stdout (pr_bundle_path result)], Some 0%Z)
    else if rich_installed then
      let table :=
        Table "Bundle Contents"
          [("Bundle Path", pr_bundle_path result);
           ("Files Packed", Json.str_of_Z (Z.of_nat (file_count result)));
           ("SBOM Tool", sbom_tool result);
           ("Signed", if signed result then WHITE_CHECK_MARK +:+ " Yes" else "No")] in
      (f,
       rule ++ (if rich_enabled && console u then [Rich table] else [])
       ++ print_success u ("Bundle created: " +:+ pr_bundle_path result),
       Some 0%Z)
    else (f, rule ++ print_error u NO_RICH None, Some 1%Z)
  end.

End Cli.

(** ** Vocabulary of the properties *)

(** *** The archive step *)

(** The paths the loop does not skip. *)
Definition kept (p : path) : bool := negb (String.eqb (path_name p) ".DS_Store").

(** The loop, entry by entry. *)
Fixpoint pack_entries (env : environ) (m : machine) (stage_dir : tree)
    (todo : list path) : list member * option exn :=
  match todo with
  | [] => ([], None)
  | p :: rest =>
    match add_entry m stage_dir (normalize_tarinfo env) p (path_str p) with
    | Raise e => ([], Some e)
    | Ok mb => let '(ms, err) := pack_entries env m stage_dir rest in (mb :: ms, err)
    end
  end.

(** What [add_entry] makes of an entry under [normalize_tarinfo]: only the
    type, the data, the mode and the readability of the node are used. *)
Definition normalized_member (env : environ) (arc : string) (n : node) : result member :=
  let k := n_kind n in
  let ti := mkTarInfo arc (st_mode (n_stat n)) 0 0
              (match k with Regular data => N.of_nat (String.length data) | _ => 0%N end)
              (get_source_date_epoch env)
              (match k with Regular _ => REGTYPE | Directory => DIRTYPE | Fifo => FIFOTYPE end)
              "" "" "" in
  match k with
  | Regular data =>
      if st_readable (n_stat n) then Ok (ti, data)
      else Raise (OSError ("PermissionError: " +:+ arc))
  | _ => Ok (ti, "")
  end.

(** The part of a staged entry that reaches the archive: type and data,
    permission bits, and whether the data can be read. *)
Definition view (n : node) : kind * N * bool :=
  (n_kind n, st_mode (n_stat n), st_readable (n_stat n)).

Definition staged_view (stage : tree) : list (path * (kind * N * bool)) :=
  List.map (fun e : path * node => (e.1, view e.2)) stage.

(** Two staging directories with the same entries, whatever their owners,
    their times and the order in which the system lists them. *)
Definition same_staged (s1 s2 : tree) : Prop :=
  NoDup (rglob s1) /\ NoDup (rglob s2) /\ staged_view s1 ≡ₚ staged_view s2.

(** *** Parsing, extraction, verification *)

(** The entry a line contributes: the digest and the path around the first
    two-space separator of the stripped line; nothing for a blank line or a
    line without separator. *)
Definition line_entry (line : string) : option (string * string) :=
  let line := PyStr.strip line in
  if String.eqb line "" then None
  else match PyStr.split1 "  " line with
       | [h; p] => Some (h, p)
       | _ => None
       end.

(** A member the extractor must refuse: an absolute name, a [..] segment,
    or a link type. *)
Definition unsafe (t : TarInfo) : Prop :=
  is_absolute (ti_name t) = true
  \/ ".." ∈ parts (ti_name t)
  \/ ti_type t = SYMTYPE
  \/ ti_type t = LNKTYPE.

(** The mapping [verify_manifest] loads from the tree, when it can. *)
Definition expected_of (fs : tree) : option PyDict.t :=
  match fs_lookup fs manifest_rel with
  | Some (Node (Regular bytes) st) =>
      if st_readable st
      then match parse_manifest bytes with Ok d => Some d | Raise _ => None end
      else None
  | _ => None
  end.

(** [rel] is a path of the embedded manifest. *)
Definition listed (fs : tree) (rel : string) : bool :=
  match expected_of fs with
  | Some d => PyDict.mem d rel
  | None => false
  end.

(** *** Depth-first walks *)

(** A directory as a hierarchy: an entry and, below a directory, its named
    children. *)
#[warnings="-register-all"]
Inductive hier := Hier (n : node) (children : list (string * hier)).

Definition block_le (a b : string * list path) : Prop := PyStr.le a.1 b.1.

#[global] Instance block_le_dec a b : Decision (block_le a b).
Proof. unfold block_le. apply _. Defined.

(** The depth-first walk that visits the children of a directory in the
    order of their names: an entry, then the walks of its children. *)
Fixpoint dfs (here : path) (t : hier) : list path :=
  match t with
  | Hier _ children =>
    here :: concat (List.map snd
                      (merge_sort block_le
                         (List.map (fun c => (c.1, dfs (here ++ [c.1]) c.2)) children)))
  end.

Definition dfs_forest (here : path) (children : list (string * hier)) : list path :=
  concat (List.map snd
            (merge_sort block_le
               (List.map (fun c => (c.1, dfs (here ++ [c.1]) c.2)) children))).

(** The entries of a hierarchy, in the order in which it is given. *)
Fixpoint entries (here : path) (t : hier) : list path :=
  match t with
  | Hier _ children =>
    here :: concat (List.map (fun c => entries (here ++ [c.1]) c.2) children)
  end.

Definition forest_entries (here : path) (children : list (string * hier)) : list path :=
  concat (List.map (fun c => entries (here ++ [c.1]) c.2) children).

(** No directory has two children of the same name. *)
Fixpoint distinct_names (t : hier) : Prop :=
  match t with
  | Hier _ children =>
    NoDup (List.map fst children)
    /\ (fix all (cs : list (string * hier)) : Prop :=
          match cs with
          | [] => True
          | c :: cs' => distinct_names c.2 /\ all cs'
          end) children
  end.

Definition distinct_forest (children : list (string * hier)) : Prop :=
  NoDup (List.map fst children) /\ Forall (fun c => distinct_names c.2) children.

(** *** Staging directories on which the round trip holds *)

(** The directories above [p], from the top one down. *)
Definition proper_prefixes (p : path) : list path :=
  List.map (fun n => List.firstn n p) (List.seq 1 (List.length p - 1)).

(** A relative path that the manifest and the archive can carry: not empty,
    not absolute, without [..], and recovered from its string. *)
Definition wf_path (p : path) : bool :=
  negb (bool_decide (p = []))
  && negb (is_absolute (path_str p))
  && negb (bool_decide (".." ∈ p))
  && bool_decide (parts (path_str p) = p).

Definition clean_node (n : node) : bool :=
  match n_kind n with
  | Regular _ => st_readable (n_stat n)
  | Directory => true
  | Fifo => false
  end.

(** A staging directory of readable regular files and directories, no
    entry listed twice or named [.DS_Store], every entry with its parent
    directories. *)
Definition clean_stage (stage : tree) : bool :=
  bool_decide (NoDup (rglob stage))
  && List.forallb
       (fun e : path * node =>
          wf_path e.1
          && negb (String.eqb (path_name e.1) ".DS_Store")
          && clean_node e.2
          && List.forallb (is_dir stage) (proper_prefixes e.1))
       stage.

(** The member [write_bundle] makes of an entry. *)
Definition member_of (env : environ) (p : path) (n : node) : member :=
  (mkTarInfo (path_str p) (st_mode (n_stat n)) 0 0
     (match n_kind n with Regular data => N.of_nat (String.length data) | _ => 0%N end)
     (get_source_date_epoch env)
     (match n_kind n with Regular _ => REGTYPE | Directory => DIRTYPE | Fifo => FIFOTYPE end)
     "" "" "",
   match n_kind n with Regular data => data | _ => "" end).

(** The entry [tar_extract] makes of it. *)
Definition extracted_node (m : machine) (n : node) : node :=
  match n_kind n with
  | Regular data => Node (Regular data) (new_stat m 438)
  | Directory => Node Directory (new_stat m 448)
  | Fifo => Node Fifo (new_stat m 438)
  end.

(** The node at a path that is in the tree. *)
Definition node_at (fs : tree) (p : path) : node :=
  default (Node Directory (Stat 0 0 0 0 true)) (fs_lookup fs p).

(** The entry that extraction makes of the entry at [p]. *)
Definition extracted_entry (m : machine) (stage : tree) (p : path) : path * node :=
  (p, extracted_node m (node_at stage p)).

(** Every directory above an entry of [l] is an entry before it, or in
    [done]. *)
Definition parents_ready (stage : tree) (done l : list path) : Prop :=
  forall l1 p l2, l = l1 ++ p :: l2 ->
    forall d, d ∈ proper_prefixes p -> d ∈ done ++ l1 /\ is_dir stage d = true.

(** The tree that extraction of the whole archive leaves. *)
Definition extracted (stage : tree) (m' : machine) : tree :=
  List.map (extracted_entry m' stage) (sorted_paths (rglob stage)).

(** The manifest written from [hashes], read back, gives [hashes] again. *)
Definition reads_back (hashes : PyDict.t) : bool :=
  match manifest_text hashes with
  | Ok text =>
    match parse_manifest text with
    | Ok expected =>
      List.forallb
        (fun k => bool_decide (PyDict.get expected k = PyDict.get hashes k))
        (PyDict.keys hashes ++ PyDict.keys expected)
    | Raise _ => false
    end
  | Raise _ => false
  end.

(** The names of the staged files survive the line format of the manifest. *)
Definition manifest_reads_back (stage : tree) : bool :=
  match hash_files stage (sorted_paths (rglob stage)) [] with
  | Ok hashes => reads_back hashes
  | Raise _ => false
  end.

(** What [create_bundle] hands to [generate_manifest] when all is well: a
    clean staging directory with its [manifest] directory, no manifest yet,
    no other file that [generate_manifest] would skip, and names that
    survive the manifest. *)
Definition ready_stage (stage : tree) : bool :=
  clean_stage stage
  && is_dir stage ["manifest"]
  && negb (exists_ stage manifest_rel)
  && List.forallb (fun p => negb (is_file stage p && skipped_by_generate p)) (rglob stage)
  && manifest_reads_back stage.

(** ** Vocabulary of the further properties *)

(** The entries [verify_manifest] checks against the manifest. *)
Definition checked (fs : tree) (p : path) : bool :=
  is_file fs p
  && negb (String.eqb (path_name p) ".DS_Store")
  && negb (String.eqb (path_str p) (path_str manifest_rel)).

(** The entries [generate_manifest] hashes. *)
Definition hashed (fs : tree) (p : path) : bool :=
  is_file fs p && negb (skipped_by_generate p).

(** What [calculate_file_hash] and [is_file] see of an entry. *)
Definition content (n : node) : kind * bool := (n_kind n, st_readable (n_stat n)).

(** The text of a manifest with the given lines, each a path and a digest. *)
Definition manifest_of (entries : list (string * string)) : string :=
  List.fold_right (fun e out => manifest_line e.2 e.1 +:+ out) "" entries.

(** A path that stays below the directory it is joined to: it has no root
    and no [..] segment. *)
Definition inside (p : path) : bool :=
  negb (bool_decide (".." ∈ p))
  && negb (String.eqb (List.hd "" p) "/")
  && negb (String.eqb (List.hd "" p) "//").

(** What extraction reads of a member: its name, its type and its data. *)
Definition payload (mb : member) : string * member_type * string :=
  (ti_name mb.1, ti_type mb.1, mb.2).

(** The characters of a string. *)
Fixpoint has_char (c : ascii) (s : string) : bool :=
  match s with
  | EmptyString => false
  | String d s' => Ascii.eqb d c || has_char c s'
  end.

(** Every character of [s] passes the test [f]. *)
Fixpoint all_chars (f : ascii -> bool) (s : string) : bool :=
  match s with
  | EmptyString => true
  | String c s' => f c && all_chars f s'
  end.

(** An ASCII character that is not white space. *)
Definition plain (c : ascii) : bool :=
  negb (PyStr.ws1 c) && (PyStr.ord c <? 128)%N.

(** A lowercase hexadecimal digit. *)
Definition is_hex (c : ascii) : bool :=
  PyStr.in_range 48 57 c || PyStr.in_range 97 102 c.

(** What [hexdigest] returns: hexadecimal digits, at least one. *)
Definition is_digest (d : string) : bool :=
  negb (String.eqb d "") && all_chars is_hex d.

(** A path that the line format of the manifest carries: not empty, valid
    UTF-8, without line break, and not ending in white space. *)
Definition good_name (rel : string) : bool :=
  negb (String.eqb rel "")
  && PyStr.utf8_valid rel
  && negb (has_char (PyStr.chr 10) rel)
  && negb (has_char (PyStr.chr 13) rel)
  && String.eqb (PyStr.rstrip rel) rel.

(** The digest a dictionary of hashes holds for a key, and the line
    [generate_manifest] writes for it. *)
Definition digest_of (hashes : PyDict.t) (k : string) : string :=
  default "" (PyDict.get hashes k).

Definition line_of (hashes : PyDict.t) (k : string) : string :=
  manifest_line (digest_of hashes k) k.

(** A staging directory that [create_bundle] can hand to
    [generate_manifest] and whose regular files have names the manifest
    carries: clean, with its [manifest] directory, no manifest yet, and no
    other file that [generate_manifest] would skip. *)
Definition good_stage (stage : tree) : bool :=
  clean_stage stage
  && is_dir stage ["manifest"]
  && negb (exists_ stage manifest_rel)
  && List.forallb (fun p => negb (is_file stage p && skipped_by_generate p)) (rglob stage)
  && List.forallb (fun p => negb (is_file stage p) || good_name (path_str p)) (rglob stage).

(** An include that the model stages as the source does: it holds no [..]
    segment, which the source resolves against the file system around the
    repository, and no NUL character, on which [resolve] raises. *)
Definition plain_include (inc_str : string) : bool :=
  negb (bool_decide (".." ∈ parts inc_str)) && negb (has_char (PyStr.chr 0) inc_str).

Definition plain_includes (i : inputs) : bool :=
  List.forallb plain_include (in_includes i).

(** An include the staging loop passes over: a plain one that is an
    absolute path outside the repository root, or that has nothing at its
    path. *)
Definition include_missing (i : inputs) (inc_str : string) : bool :=
  plain_include inc_str
  && match clean_rel (in_repo_root i) inc_str with
     | None => true
     | Some rel => negb (bool_decide (rel = [])) && negb (exists_ (in_repo i) rel)
     end.

(** A character [int] takes as it is and does not strip. *)
Definition literal_char (c : ascii) : bool :=
  (PyStr.ord c <? 127)%N && negb (is_c_space c).

(** The same inputs with another list of includes. *)
Definition with_includes (i : inputs) (includes : list string) : inputs :=
  mkInputs (in_repo i) (in_root_stat i) (in_repo_root i) includes (in_version i)
           (in_git i) (in_pip i) (in_sbom_tool i) (in_sbom_file i).

(** The five directories of a bundle. *)
Definition top_level : list string := ["artifacts"; "metadata"; "deps"; "sbom"; "manifest"].

(** A path below one of them. *)
Definition in_layout (p : path) : bool :=
  bool_decide (List.hd "" p ∈ top_level).

Definition laid_out (p : path) : Prop := in_layout p = true.

(** Two trees with the same entries in the same order, whatever their
    owners and times. *)
Definition alike (s1 s2 : tree) : Prop := staged_view s1 = staged_view s2.

(** Two outcomes of the same kind: related results, or the same exception. *)
Definition alike_result {A : Type} (R : A -> A -> Prop) (r1 r2 : result A) : Prop :=
  match r1, r2 with
  | Ok a, Ok b => R a b
  | Raise e1, Raise e2 => e1 = e2
  | _, _ => False
  end.

(** The stage and the input log of the loop over the includes. *)
Definition alike_log (a b : tree * list (string * Json.t)) : Prop :=
  alike a.1 b.1 /\ a.2 = b.2.

(** The [error] entry of a document. *)
Definition doc_error (d : json_doc) : option string :=
  match d with
  | ErrorDoc msg => Some msg
  | VerifyDoc r => error r
  | PackDoc _ => None
  end.

(** The writes that reach standard output. *)
Definition on_stdout (o : output) : bool :=
  match o with
  | Stdout _ | StdoutJson _ => true
  | Stderr _ | Rich _ => false
  end.

(** ** Concrete inputs for the examples *)

#[global] Instance kind_eq_dec : EqDecision kind.
Proof. solve_decision. Defined.

Module Ex.

Definition file_stat : stat := Stat 420 1000 1000 12345 true.
Definition dir_stat : stat := Stat 493 1000 1000 11111 true.
Definition file (data : string) : node := Node (Regular data) file_stat.
Definition dir : node := Node Directory dir_stat.

(** A machine with umask 022 and one with umask 002. *)
Definition machine_022 : machine :=
  Machine 18 1000 1000 1700000123 (fun _ => Some "alice") (fun _ => Some "staff").
Definition machine_002 : machine :=
  Machine 2 501 20 1800000000 (fun _ => Some "bob") (fun _ => None).

Definition env_unset : environ := ∅.
Definition env_1700 : environ := {["SOURCE_DATE_EPOCH" := "1700000000"]}.
Definition env_bad : environ := {["SOURCE_DATE_EPOCH" := "yesterday"]}.

(** The tree of the integration tests. *)
Definition repo : tree :=
  [ (["subdir"], dir);
    (["subdir"; "file2.txt"], file "world");
    (["file1.txt"], file "hello") ].

Definition repo_inputs : inputs :=
  mkInputs repo dir_stat "/home/ci/repo" ["file1.txt"; "subdir"] None None None "none" None.

(** A directory that the Finder has visited. *)
Definition repo_ds : tree :=
  [ (["docs"], dir);
    (["docs"; "guide.txt"], file "verifiable");
    (["docs"; ".DS_Store"], file "Bud1") ].

Definition ds_inputs : inputs :=
  mkInputs repo_ds dir_stat "/home/ci/repo" ["docs"] None None None "none" None.

(** A tree with a file called [sha256sum.txt] deeper below [manifest]. *)
Definition nested_tree : tree :=
  [ (["a.txt"], file "hello");
    (["manifest"], dir);
    (["manifest"; "old"], dir);
    (["manifest"; "old"; "sha256sum.txt"], file "x") ].

(** A staging directory, and the same entries listed in another order with
    other owners and times. *)
Definition stage_a : tree :=
  [ (["artifacts"], dir);
    (["artifacts"; "b.txt"], file "b");
    (["artifacts"; "a.txt"], file "a") ].

Definition stage_b : tree :=
  [ (["artifacts"; "a.txt"], Node (Regular "a") (Stat 420 0 0 99 true));
    (["artifacts"; "b.txt"], Node (Regular "b") (Stat 420 7 7 98 true));
    (["artifacts"], Node Directory (Stat 493 7 7 97 true)) ].

Definition stage_a_hier : list (string * hier) :=
  [("artifacts",
    Hier dir [("b.txt", Hier (file "b") []); ("a.txt", Hier (file "a") [])])].

(** The same data with another mode on the directory. *)
Definition stage_c : tree :=
  [ (["artifacts"], Node Directory (Stat 509 1000 1000 11111 true));
    (["artifacts"; "b.txt"], file "b");
    (["artifacts"; "a.txt"], file "a") ].

(** A staging directory whose second file cannot be read. *)
Definition stage_unreadable : tree :=
  [ (["a.txt"], file "a");
    (["b.txt"], Node (Regular "b") (Stat 420 1000 1000 12345 false)) ].

Definition reg_member (name data : string) : member :=
  (mkTarInfo name 420 0 0 (N.of_nat (String.length data)) 0 REGTYPE "" "" "", data).

Definition sym_member (name target : string) : member :=
  (mkTarInfo name 511 0 0 0 0 SYMTYPE target "" "", "").

(** An archive with a symbolic link after a regular file. *)
Definition link_archive : list member :=
  [reg_member "artifacts/data.txt" "content"; sym_member "bad_link" "artifacts/data.txt"].

(** An extracted tree that verifies. *)
Definition good_tree_1 : tree :=
  [ (["a.txt"], file "hello") ].
Definition good_tree_2 : tree :=
  [ (["manifest"], dir);
    (["manifest"; "sha256sum.txt"],
     file ("2cf24dba5fb0a30e26e83b2ac5b9e29e1b161e5c1fa7425e73043362938b9824  a.txt"
           +:+ PyStr.LF)) ].

Definition manifest_dup : string :=
  "aa  x" +:+ PyStr.LF +:+ PyStr.LF +:+ "junk" +:+ PyStr.LF +:+ "bb  x" +:+ PyStr.CR +:+ PyStr.LF.

Definition not_utf8 : string := String (PyStr.chr 255) "".

(** A run of one character. *)
Fixpoint repeat_char (n : nat) (c : ascii) : string :=
  match n with
  | O => EmptyString
  | S n' => String c (repeat_char n' c)
  end.

(** The value of a call that returns. *)
Definition returned {A : Type} (d : A) (r : result A) : A :=
  match r with Ok a => a | Raise _ => d end.

(** A machine with the umask of [machine_022] and nothing else in common
    with it. *)
Definition machine_later : machine :=
  Machine 18 0 0 1900000000 (fun _ => None) (fun _ => None).

(** [stage_a] after [generate_manifest]. *)
Definition stage_a_hashed : tree :=
  Eval vm_compute in returned [] (generate_manifest machine_022 stage_a).

(** The staging directory and the bundle of the integration tests. *)
Definition repo_stage : tree :=
  Eval vm_compute in returned [] (stage_inputs env_1700 machine_022 repo_inputs).

Definition repo_bundle : bundle_file :=
  Eval vm_compute in
    from_option id (mkBundle "" 0 [] false)
      (create_bundle env_1700 machine_022 repo_inputs "out/bundle.tar.gz" None).1.

(** An archive with a member that points out of the destination. *)
Definition escaping_archive : list member :=
  [reg_member "a/b.txt" "x"; reg_member "../evil" "y"; reg_member "c.txt" "z"].

(** The same file twice, once as root with the set-uid bit. *)
Definition plain_archive : list member :=
  [(mkTarInfo "a.txt" 420 0 0 1 0 REGTYPE "" "" "", "x")].
Definition setuid_archive : list member :=
  [(mkTarInfo "a.txt" 2541 0 0 1 99 REGTYPE "elsewhere" "root" "root", "x")].

(** Hashes of two files, one with a space in its name. *)
Definition two_hashes : PyDict.t :=
  [("dir/b c.txt", Sha256.hexdigest "world"); ("a.txt", Sha256.hexdigest "hello")].

(** The staging directory of the integration tests with its manifest. *)
Definition repo_staged : tree :=
  Eval vm_compute in returned [] (stage_tree env_1700 machine_022 repo_inputs).

(** The member of [repo_bundle] that holds [file1.txt]. *)
Definition repo_file1 : TarInfo :=
  Eval vm_compute in (List.nth 1 (tar_members repo_bundle) (reg_member "" "")).1.

End Ex.

(** * Properties *)

(** ** The digest on test vectors *)

Example sha256_constants :
  List.hd 0%N Sha256.K = 0x428a2f98%N /\ List.last Sha256.K 0%N = 0xc67178f2%N
  /\ List.hd 0%N Sha256.H0 = 0x6a09e667%N /\ List.last Sha256.H0 0%N = 0x5be0cd19%N
  /\ List.length Sha256.K = 64.
Proof. vm_compute. repeat split; reflexivity. Qed.

Example sha256_empty :
  Sha256.hexdigest "" = "e3b0c44298fc1c149afbf4c8996fb92427ae41e4649b934ca495991b7852b855".
Proof. vm_compute. reflexivity. Qed.

Example sha256_abc :
  Sha256.hexdigest "abc" = "ba7816bf8f01cfea414140de5dae2223b00361a396177a9cb410ff61f20015ad".
Proof. vm_compute. reflexivity. Qed.

Example sha256_hello :
  Sha256.hexdigest "hello" = "2cf24dba5fb0a30e26e83b2ac5b9e29e1b161e5c1fa7425e73043362938b9824".
Proof. vm_compute. reflexivity. Qed.

Example sha256_two_blocks :
  Sha256.hexdigest "abcdbcdecdefdefgefghfghighijhijkijkljklmklmnlmnomnopnopq"
  = "248d6a61d20638b8e5c026930c3e6039a33ce45964ff2167f6ecedd419db06c1".
Proof. vm_compute. reflexivity. Qed.

(** ** The orders used by [sorted] *)

Section Orders.

Lemma ascii_compare_refl (c : ascii) : Ascii.compare c c = Eq.
Proof. unfold Ascii.compare. apply N.compare_refl. Qed.

Lemma ascii_compare_lt_trans (a b c : ascii) :
  Ascii.compare a b = Lt -> Ascii.compare b c = Lt -> Ascii.compare a c = Lt.
Proof.
  unfold Ascii.compare. rewrite !N.compare_lt_iff. lia.
Qed.

Lemma ascii_compare_gt_lt (a b : ascii) :
  Ascii.compare a b = Gt <-> Ascii.compare b a = Lt.
Proof.
  unfold Ascii.compare. rewrite N.compare_gt_iff, N.compare_lt_iff. tauto.
Qed.

Lemma str_compare_refl (s : string) : String.compare s s = Eq.
Proof.
  induction s as [|c s IH]; simpl; [reflexivity|].
  rewrite ascii_compare_refl. exact IH.
Qed.

Lemma str_compare_eq (s t : string) : String.compare s t = Eq <-> s = t.
Proof.
  split; [apply String.compare_eq_iff|]. intros ->. apply str_compare_refl.
Qed.

Lemma str_compare_gt_lt (s t : string) :
  String.compare s t = Gt <-> String.compare t s = Lt.
Proof.
  rewrite (String.compare_antisym t s).
  destruct (String.compare s t); simpl; split; congruence.
Qed.

Lemma str_compare_lt_trans (s t u : string) :
  String.compare s t = Lt -> String.compare t u = Lt -> String.compare s u = Lt.
Proof.
  revert t u. induction s as [|a s IH]; intros [|b t] [|c u]; simpl; try congruence.
  destruct (Ascii.compare a b) eqn:Hab; try discriminate.
  - apply Ascii.compare_eq_iff in Hab. subst b.
    destruct (Ascii.compare a c); try congruence. apply IH.
  - destruct (Ascii.compare b c) eqn:Hbc; try discriminate.
    + apply Ascii.compare_eq_iff in Hbc. subst c. rewrite Hab. reflexivity.
    + rewrite (ascii_compare_lt_trans _ _ _ Hab Hbc). reflexivity.
Qed.

#[global] Instance str_le_refl : Reflexive PyStr.le.
Proof. intros s. unfold PyStr.le, String.leb. rewrite str_compare_refl. reflexivity. Qed.

#[global] Instance str_le_total : Total PyStr.le.
Proof. intros s t. apply String.leb_total. Qed.

#[global] Instance str_le_antisym : AntiSymm (=) PyStr.le.
Proof. intros s t. apply String.leb_antisym. Qed.

#[global] Instance str_le_trans : Transitive PyStr.le.
Proof.
  intros s t u. unfold PyStr.le, String.leb.
  destruct (String.compare s t) eqn:Hst; try discriminate; intros _.
  - apply str_compare_eq in Hst. subst t. tauto.
  - destruct (String.compare t u) eqn:Htu; try discriminate; intros _.
    + apply str_compare_eq in Htu. subst u. rewrite Hst. reflexivity.
    + rewrite (str_compare_lt_trans _ _ _ Hst Htu). reflexivity.
Qed.

#[global] Instance path_le_refl : Reflexive path_le.
Proof.
  intros p. unfold path_le. induction p as [|a p IH]; simpl; [reflexivity|].
  rewrite str_compare_refl. exact IH.
Qed.

#[global] Instance path_le_total : Total path_le.
Proof.
  intros p. unfold path_le. induction p as [|a p IH]; intros [|b q]; simpl; auto.
  rewrite (String.compare_antisym b a).
  destruct (String.compare a b); simpl; auto.
Qed.

#[global] Instance path_le_antisym : AntiSymm (=) path_le.
Proof.
  intros p. unfold path_le. induction p as [|a p IH]; intros [|b q]; simpl;
    try congruence.
  rewrite (String.compare_antisym b a).
  destruct (String.compare a b) eqn:Hab; simpl; try congruence.
  apply str_compare_eq in Hab. subst b. intros H1 H2. f_equal. auto.
Qed.

#[global] Instance path_le_trans : Transitive path_le.
Proof.
  intros p. unfold path_le.
  induction p as [|a p IH]; intros [|b q] [|c r]; simpl; try congruence.
  destruct (String.compare a b) eqn:Hab; try discriminate.
  - apply str_compare_eq in Hab. subst b.
    destruct (String.compare a c); try congruence. apply IH.
  - intros _. destruct (String.compare b c) eqn:Hbc; try discriminate.
    + apply str_compare_eq in Hbc. subst c. rewrite Hab. reflexivity.
    + rewrite (str_compare_lt_trans _ _ _ Hab Hbc). reflexivity.
Qed.

(** A directory comes before everything below it. *)
Lemma path_le_prefix (p q : path) : path_le p (p ++ q).
Proof.
  unfold path_le. induction p as [|a p IH]; simpl; [reflexivity|].
  rewrite str_compare_refl. exact IH.
Qed.

Lemma sorted_paths_sorted (l : list path) : StronglySorted path_le (sorted_paths l).
Proof. apply StronglySorted_merge_sort; apply _. Qed.

Lemma sorted_paths_perm (l : list path) : sorted_paths l ≡ₚ l.
Proof. apply merge_sort_Permutation. Qed.

(** Sorting forgets the order of the listing. *)
Lemma sorted_paths_unique (l1 l2 : list path) :
  l1 ≡ₚ l2 -> sorted_paths l1 = sorted_paths l2.
Proof.
  intros H. apply (StronglySorted_unique path_le); try apply sorted_paths_sorted.
  rewrite !sorted_paths_perm. exact H.
Qed.

End Orders.

(** ** Sorted listings and depth-first walks *)

Section DepthFirst.

Lemma distinct_names_unfold (n : node) (children : list (string * hier)) :
  distinct_names (Hier n children) <-> distinct_forest children.
Proof.
  unfold distinct_forest. simpl. apply and_iff_compat_l.
  induction children as [|c cs IH]; simpl.
  - split; [constructor|tauto].
  - rewrite Forall_cons, IH. tauto.
Qed.

(** Induction on hierarchies with the hypothesis for every child. *)
Lemma hier_forall_ind (P : hier -> Prop) :
  (forall n children, Forall (fun c => P c.2) children -> P (Hier n children)) ->
  forall t, P t.
Proof.
  intros H. fix IH 1. intros [n children]. apply H.
  induction children as [|c cs IHcs]; constructor; [apply IH|exact IHcs].
Qed.

Lemma path_le_app (here p q : path) : path_le p q -> path_le (here ++ p) (here ++ q).
Proof.
  unfold path_le. induction here as [|a here IH]; simpl; [tauto|].
  rewrite str_compare_refl. exact IH.
Qed.

Lemma path_le_siblings (here r1 r2 : path) (a b : string) :
  PyStr.le a b -> a <> b -> path_le (here ++ a :: r1) (here ++ b :: r2).
Proof.
  intros Hle Hne. apply path_le_app. unfold path_le. simpl.
  unfold PyStr.le, String.leb in Hle.
  destruct (String.compare a b) eqn:E; try reflexivity; try discriminate.
  apply str_compare_eq in E. contradiction.
Qed.

(** Blocks of paths, each below its own child of [here], in the strict
    order of the children's names, concatenate to a sorted list. *)
Lemma blocks_sorted (here : path) (blocks : list (string * list path)) :
  StronglySorted block_le blocks ->
  NoDup (List.map fst blocks) ->
  Forall (fun b => StronglySorted path_le b.2
                   /\ Forall (fun p => exists r, p = here ++ b.1 :: r) b.2) blocks ->
  StronglySorted path_le (concat (List.map snd blocks)).
Proof.
  induction blocks as [|b blocks IH]; intros Hs Hnd Hb; simpl; [constructor|].
  apply StronglySorted_inv in Hs as [Hs Hle].
  simpl in Hnd. apply NoDup_cons in Hnd as [Hnotin Hnd].
  apply Forall_cons in Hb as [[Hbs Hbp] Hb].
  apply StronglySorted_app_2; [|exact Hbs|apply IH; assumption].
  intros p q Hp Hq.
  rewrite Forall_forall in Hbp. destruct (Hbp p Hp) as [r1 ->].
  apply list_elem_of_In, in_concat in Hq as (l & Hl & Hq).
  apply in_map_iff in Hl as (b' & <- & Hb').
  apply list_elem_of_In in Hb'.
  rewrite Forall_forall in Hb. destruct (Hb b' Hb') as [_ Hb'p].
  rewrite Forall_forall in Hb'p. apply list_elem_of_In in Hq.
  destruct (Hb'p q Hq) as [r2 ->].
  apply path_le_siblings.
  - rewrite Forall_forall in Hle. apply Hle. exact Hb'.
  - intros Heq. apply Hnotin. rewrite Heq. apply list_elem_of_fmap. exists b'. auto.
Qed.

Lemma dfs_below (here : path) (t : hier) :
  Forall (fun p => exists r, p = here ++ r) (dfs here t).
Proof.
  revert here. induction t as [n children IH] using hier_forall_ind. intros here.
  simpl. constructor; [exists []; rewrite app_nil_r; reflexivity|].
  apply Forall_forall. intros p Hp.
  apply list_elem_of_In, in_concat in Hp as (l & Hl & Hp).
  apply in_map_iff in Hl as (b & <- & Hb).
  apply list_elem_of_In in Hb. rewrite merge_sort_Permutation in Hb.
  apply list_elem_of_fmap in Hb as (c & -> & Hc).
  rewrite Forall_forall in IH. specialize (IH c Hc (here ++ [c.1])).
  rewrite Forall_forall in IH. apply list_elem_of_In in Hp. simpl in Hp.
  destruct (IH p Hp) as [r ->]. exists (c.1 :: r). rewrite <- app_assoc. reflexivity.
Qed.

Lemma dfs_sorted (here : path) (t : hier) :
  distinct_names t -> StronglySorted path_le (dfs here t).
Proof.
  revert here. induction t as [n children IH] using hier_forall_ind. intros here Hd.
  apply distinct_names_unfold in Hd as [Hnd Hd].
  simpl. constructor.
  - apply blocks_sorted with (here := here).
    + apply StronglySorted_merge_sort; try apply _.
      * intros a b c. unfold block_le. apply str_le_trans.
      * intros a b. unfold block_le. apply str_le_total.
    + rewrite merge_sort_Permutation, List.map_map. simpl. exact Hnd.
    + apply Forall_forall. intros b Hb. rewrite merge_sort_Permutation in Hb.
      apply list_elem_of_fmap in Hb as (c & -> & Hc). simpl.
      rewrite Forall_forall in IH, Hd. split; [apply IH; auto|].
      eapply Forall_impl; [apply dfs_below|]. simpl.
      intros p [r ->]. exists r. rewrite <- app_assoc. reflexivity.
  - apply Forall_forall. intros p Hp.
    apply list_elem_of_In, in_concat in Hp as (l & Hl & Hp).
    apply in_map_iff in Hl as (b & <- & Hb).
    apply list_elem_of_In in Hb. rewrite merge_sort_Permutation in Hb.
    apply list_elem_of_fmap in Hb as (c & -> & Hc). simpl in Hp.
    pose proof (dfs_below (here ++ [c.1]) c.2) as Hbelow.
    rewrite Forall_forall in Hbelow. apply list_elem_of_In in Hp.
    destruct (Hbelow p Hp) as [r ->]. rewrite <- app_assoc. apply path_le_prefix.
Qed.

Lemma dfs_entries (here : path) (t : hier) : dfs here t ≡ₚ entries here t.
Proof.
  revert here. induction t as [n children IH] using hier_forall_ind. intros here.
  simpl. constructor.
  rewrite merge_sort_Permutation, List.map_map. simpl.
  induction children as [|c cs IHcs]; simpl; [reflexivity|].
  apply Forall_cons in IH as [Hc Hcs]. rewrite Hc, (IHcs Hcs). reflexivity.
Qed.

End DepthFirst.

Section DepthFirstListing.

(** Sorting a listing of a directory, in whatever order the entries come,
    gives the depth-first walk that takes the children of each directory in
    the order of their names. *)
Lemma sorted_listing_is_depth_first (l : list path) (children : list (string * hier)) :
  distinct_forest children ->
  l ≡ₚ forest_entries [] children ->
  sorted_paths l = dfs_forest [] children.
Proof.
  intros Hd Hl.
  pose (root := Hier (Node Directory (Stat 0 0 0 0 true)) children).
  assert (distinct_names root) as Hroot by (apply distinct_names_unfold; exact Hd).
  pose proof (dfs_sorted [] root Hroot) as Hs.
  pose proof (dfs_entries [] root) as Hp.
  change (dfs [] root) with ([] :: dfs_forest [] children) in Hs, Hp.
  change (entries [] root) with ([] :: forest_entries [] children) in Hp.
  apply StronglySorted_inv in Hs as [Hs _].
  apply Permutation_cons_inv in Hp.
  apply (StronglySorted_unique path_le); [apply sorted_paths_sorted|exact Hs|].
  rewrite sorted_paths_perm, Hl, Hp. reflexivity.
Qed.

End DepthFirstListing.

(** ** The archive builder *)

Section Builder.

Context (env : environ) (m : machine).

(** A non-recursive [tar.add] writes the entry itself and nothing else. *)
Lemma tar_add_single (fs : tree) (f : TarInfo -> TarInfo) (p : path) (arc : string) :
  tar_add m fs f false p arc =
  match add_entry m fs f p arc with
  | Ok mb => ([mb], None)
  | Raise e => ([], Some e)
  end.
Proof.
  unfold tar_add. simpl. destruct (add_entry m fs f p arc); reflexivity.
Qed.

Lemma add_entry_normalized (fs : tree) (p : path) :
  add_entry m fs (normalize_tarinfo env) p (path_str p) =
  match fs_lookup fs p with
  | Some n => normalized_member env (path_str p) n
  | None => Raise (OSError ("FileNotFoundError: " +:+ path_str p))
  end.
Proof.
  unfold add_entry, gettarinfo, normalized_member.
  destruct (fs_lookup fs p) as [[k st]|]; simpl; [|reflexivity].
  destruct k; reflexivity.
Qed.

Lemma pack_loop_entries (stage_dir : tree) (all_files : list path) :
  pack_loop env m stage_dir all_files = pack_entries env m stage_dir (List.filter kept all_files).
Proof.
  induction all_files as [|p rest IH]; [reflexivity|].
  cbn [pack_loop List.filter]. unfold kept at 1.
  destruct (String.eqb (path_name p) ".DS_Store"); simpl negb; cbv iota; [exact IH|].
  rewrite tar_add_single. cbn [pack_entries].
  destruct (add_entry m stage_dir (normalize_tarinfo env) p (path_str p)); [|reflexivity].
  rewrite IH. destruct (pack_entries env m stage_dir (List.filter kept rest)). reflexivity.
Qed.

Lemma add_entry_fields (fs : tree) (p : path) (arc : string) (mb : member) :
  add_entry m fs (normalize_tarinfo env) p arc = Ok mb ->
  ti_name mb.1 = arc /\ ti_mtime mb.1 = get_source_date_epoch env
  /\ ti_uid mb.1 = 0%N /\ ti_gid mb.1 = 0%N
  /\ ti_uname mb.1 = "" /\ ti_gname mb.1 = "".
Proof.
  unfold add_entry, gettarinfo.
  destruct (fs_lookup fs p) as [[k st]|]; simpl; [|discriminate].
  destruct k; simpl; try (intros [= <-]; simpl; tauto).
  destruct (st_readable st); [|discriminate]. intros [= <-]; simpl; tauto.
Qed.

Lemma pack_entries_names (stage_dir : tree) (todo : list path) :
  let '(ms, err) := pack_entries env m stage_dir todo in
  List.map (fun mb : member => ti_name mb.1) ms `prefix_of` List.map path_str todo
  /\ (err = None -> List.map (fun mb : member => ti_name mb.1) ms = List.map path_str todo).
Proof.
  induction todo as [|p rest IH]; simpl.
  - split; [reflexivity|tauto].
  - destruct (add_entry m stage_dir (normalize_tarinfo env) p (path_str p)) as [mb|e] eqn:Hadd.
    + destruct (pack_entries env m stage_dir rest) as [ms err]. destruct IH as [IH1 IH2].
      apply add_entry_fields in Hadd as [Hname _]. simpl. rewrite Hname. split.
      * apply prefix_cons. exact IH1.
      * intros H. f_equal. auto.
    + simpl. split; [apply prefix_nil|discriminate].
Qed.

Lemma pack_entries_normalized (stage_dir : tree) (todo : list path) :
  Forall (fun mb : member =>
            ti_mtime mb.1 = get_source_date_epoch env
            /\ ti_uid mb.1 = 0%N /\ ti_gid mb.1 = 0%N
            /\ ti_uname mb.1 = "" /\ ti_gname mb.1 = "")
         (pack_entries env m stage_dir todo).1.
Proof.
  induction todo as [|p rest IH]; simpl; [constructor|].
  destruct (add_entry m stage_dir (normalize_tarinfo env) p (path_str p)) as [mb|e] eqn:Hadd;
    [|constructor].
  destruct (pack_entries env m stage_dir rest) as [ms err]. simpl in *.
  constructor; [|exact IH]. apply add_entry_fields in Hadd. tauto.
Qed.

(** The file [write_bundle] leaves, in terms of the loop. *)
Lemma write_bundle_eq (stage_dir : tree) :
  write_bundle env m stage_dir =
  let r := pack_entries env m stage_dir (List.filter kept (sorted_paths (rglob stage_dir))) in
  (mkBundle "" 0 r.1 (bool_decide (r.2 = None)), r.2).
Proof.
  unfold write_bundle. cbn [GzipFile]. rewrite pack_loop_entries.
  destruct (pack_entries _ _) as [ms err]. reflexivity.
Qed.

End Builder.

(** ** Lookups in a listing *)

Section Lookup.

Lemma path_eqb_eq (p q : path) : path_eqb p q = true <-> p = q.
Proof. unfold path_eqb. rewrite bool_decide_eq_true. tauto. Qed.

Lemma fs_lookup_Some_elem (fs : tree) (p : path) (n : node) :
  fs_lookup fs p = Some n -> (p, n) ∈ fs.
Proof.
  induction fs as [|[q n'] fs IH]; simpl; [discriminate|].
  destruct (path_eqb q p) eqn:E.
  - apply path_eqb_eq in E. subst q. intros [= ->]. left.
  - intros H. right. auto.
Qed.

Lemma fs_lookup_None (fs : tree) (p : path) :
  fs_lookup fs p = None <-> p ∉ rglob fs.
Proof.
  unfold rglob. induction fs as [|[q n'] fs IH]; simpl.
  - split; [intros _; apply not_elem_of_nil|reflexivity].
  - rewrite not_elem_of_cons. destruct (path_eqb q p) eqn:E.
    + apply path_eqb_eq in E. split; [discriminate|]. intros [H _]. congruence.
    + rewrite IH. split; [|tauto]. intros H. split; [|exact H].
      intros ->. rewrite <- not_true_iff_false in E. apply E, path_eqb_eq. reflexivity.
Qed.

Lemma fs_lookup_elem (fs : tree) (p : path) (n : node) :
  NoDup (rglob fs) -> (p, n) ∈ fs -> fs_lookup fs p = Some n.
Proof.
  unfold rglob. induction fs as [|[q n'] fs IH]; simpl; intros Hnd Hin.
  - apply elem_of_nil in Hin. contradiction.
  - apply NoDup_cons in Hnd as [Hq Hnd]. apply elem_of_cons in Hin as [[= <- <-]|Hin].
    + replace (path_eqb p p) with true; [reflexivity|].
      symmetry. apply path_eqb_eq. reflexivity.
    + destruct (path_eqb q p) eqn:E; [|auto].
      apply path_eqb_eq in E. subst q. exfalso. apply Hq.
      apply list_elem_of_fmap. exists (p, n). auto.
Qed.

End Lookup.

(** ** C2: what the archive depends on *)

Section Determinism.

Lemma rglob_staged_view (s : tree) : rglob s = List.map fst (staged_view s).
Proof.
  unfold rglob, staged_view. rewrite List.map_map. reflexivity.
Qed.

Lemma same_staged_rglob (s1 s2 : tree) : same_staged s1 s2 -> rglob s1 ≡ₚ rglob s2.
Proof.
  intros (_ & _ & H). rewrite !rglob_staged_view. apply fmap_Permutation. exact H.
Qed.

Lemma same_staged_lookup_1 (s1 s2 : tree) (p : path) :
  same_staged s1 s2 ->
  match fs_lookup s1 p with
  | Some n1 => exists n2, fs_lookup s2 p = Some n2 /\ view n2 = view n1
  | None => fs_lookup s2 p = None
  end.
Proof.
  intros Hs. pose proof (same_staged_rglob _ _ Hs) as Hperm.
  destruct Hs as (Hnd1 & Hnd2 & Hv).
  destruct (fs_lookup s1 p) as [n1|] eqn:H1.
  - apply fs_lookup_Some_elem in H1.
    assert ((p, view n1) ∈ staged_view s2) as Hin.
    { rewrite <- Hv. apply list_elem_of_fmap. exists (p, n1). auto. }
    apply list_elem_of_fmap in Hin as ([q n2] & Heq & Hin).
    simpl in Heq. assert (q = p /\ view n2 = view n1) as [-> Hview]
      by (split; congruence).
    exists n2. split; [|exact Hview]. apply fs_lookup_elem; assumption.
  - apply fs_lookup_None. rewrite <- Hperm. apply fs_lookup_None. exact H1.
Qed.

Lemma normalized_member_view (env1 env2 : environ) (arc : string) (n1 n2 : node) :
  get_source_date_epoch env1 = get_source_date_epoch env2 ->
  view n1 = view n2 ->
  normalized_member env1 arc n1 = normalized_member env2 arc n2.
Proof.
  unfold view, normalized_member. intros -> [= -> -> ->]. reflexivity.
Qed.

Lemma pack_entries_same (env1 env2 : environ) (m1 m2 : machine) (s1 s2 : tree)
    (todo : list path) :
  get_source_date_epoch env1 = get_source_date_epoch env2 ->
  same_staged s1 s2 ->
  pack_entries env1 m1 s1 todo = pack_entries env2 m2 s2 todo.
Proof.
  intros HE Hs. induction todo as [|p rest IH]; [reflexivity|].
  cbn [pack_entries]. rewrite !add_entry_normalized, IH.
  pose proof (same_staged_lookup_1 _ _ p Hs) as Hl.
  destruct (fs_lookup s1 p) as [n1|].
  - destruct Hl as (n2 & -> & Hview).
    rewrite (normalized_member_view env1 env2 _ n1 n2); [reflexivity|exact HE|congruence].
  - rewrite Hl. reflexivity.
Qed.

(** C2 (as amended).  For a fixed reproducibility timestamp, two runs of the
    archive step on staging directories with the same paths, types, data
    and permission bits write the same file, whatever the machines (clock,
    umask, user and group databases), the owners and times of the staged
    entries, and the order in which the entries are listed. *)
Theorem C2_archive_determined_by_content_mode_and_epoch
    (env1 env2 : environ) (m1 m2 : machine) (s1 s2 : tree) :
  get_source_date_epoch env1 = get_source_date_epoch env2 ->
  same_staged s1 s2 ->
  write_bundle env1 m1 s1 = write_bundle env2 m2 s2.
Proof.
  intros HE Hs. rewrite !write_bundle_eq.
  rewrite (sorted_paths_unique (rglob s1) (rglob s2)) by (apply same_staged_rglob; exact Hs).
  rewrite (pack_entries_same env1 env2 m1 m2 s1 s2); auto.
Qed.

End Determinism.

(** ** C6, C7, C8, C10: the archive step *)

Section ArchiveStep.

Context (env : environ) (m : machine).

(** The header of the file and the time of its members. *)
Lemma write_bundle_header (stage_dir : tree) :
  let b := (write_bundle env m stage_dir).1 in
  gz_fname b = ""
  /\ gz_mtime b = 0%Z
  /\ Forall (fun mb : member => ti_mtime mb.1 = get_source_date_epoch env)
            (tar_members b).
Proof.
  rewrite write_bundle_eq. cbn. repeat split.
  eapply Forall_impl; [apply pack_entries_normalized|]. cbn. tauto.
Qed.

(** C7 (as amended).  The gzip wrapper carries no file name and its time
    field is the constant 0, whatever the reproducibility timestamp and the
    clock; every member carries the reproducibility timestamp. *)
Theorem C7_gzip_header_is_constant (stage_dir : tree) :
  let b := (write_bundle env m stage_dir).1 in
  gz_fname b = ""
  /\ gz_mtime b = 0%Z
  /\ Forall (fun mb : member => ti_mtime mb.1 = get_source_date_epoch env)
            (tar_members b).
Proof. apply write_bundle_header. Qed.


(** The loop stops at the first entry that cannot be added and keeps what it
    wrote before. *)
Lemma pack_entries_stops (stage_dir : tree) (before after : list path) (p : path)
    (ms : list member) (e : exn) :
  pack_entries env m stage_dir before = (ms, None) ->
  add_entry m stage_dir (normalize_tarinfo env) p (path_str p) = Raise e ->
  pack_entries env m stage_dir (before ++ p :: after) = (ms, Some e).
Proof.
  revert ms. induction before as [|q before IH]; intros ms; simpl.
  - intros [= <-] ->. reflexivity.
  - destruct (add_entry m stage_dir (normalize_tarinfo env) q (path_str q)); [|discriminate].
    destruct (pack_entries env m stage_dir before) as [ms' err'] eqn:Hb.
    intros [= <- ->] Hp. rewrite (IH ms' eq_refl Hp). reflexivity.
Qed.

(** An entry that cannot be added splits the work list at the first such
    entry. *)
Lemma pack_entries_first_failure (stage_dir : tree) (todo : list path) (p : path) (e0 : exn) :
  p ∈ todo ->
  add_entry m stage_dir (normalize_tarinfo env) p (path_str p) = Raise e0 ->
  exists before q after ms e,
    todo = before ++ q :: after
    /\ pack_entries env m stage_dir before = (ms, None)
    /\ add_entry m stage_dir (normalize_tarinfo env) q (path_str q) = Raise e.
Proof.
  induction todo as [|q rest IH]; intros Hin Hp.
  - apply elem_of_nil in Hin. contradiction.
  - destruct (add_entry m stage_dir (normalize_tarinfo env) q (path_str q)) as [mb|e] eqn:Hq.
    + apply elem_of_cons in Hin as [->|Hin]; [congruence|].
      destruct (IH Hin Hp) as (before & q' & after & ms & e & -> & Hb & Hq').
      exists (q :: before), q', after, (mb :: ms), e. split; [reflexivity|].
      split; [|exact Hq']. simpl. rewrite Hq, Hb. reflexivity.
    + exists [], q, rest, [], e. auto.
Qed.

(** Entries that pass the filter are not filtered again. *)
Lemma filter_kept_prefix (l before rest : list path) :
  List.filter kept l = before ++ rest -> List.filter kept before = before.
Proof.
  intros H.
  assert (Forall (fun p => kept p = true) (List.filter kept l)) as Hall.
  { apply Forall_forall. intros p Hp. apply list_elem_of_In, List.filter_In in Hp. tauto. }
  rewrite H in Hall. apply Forall_app in Hall as [Hall _]. clear H.
  induction Hall as [|p before Hp _ IH]; simpl; [reflexivity|].
  rewrite Hp, IH. reflexivity.
Qed.


(** The archive step reads the environment for the timestamp only. *)
Lemma write_bundle_env (env' : environ) (stage_dir : tree) :
  get_source_date_epoch env = get_source_date_epoch env' ->
  write_bundle env m stage_dir = write_bundle env' m stage_dir.
Proof.
  intros HE. rewrite !write_bundle_eq.
  assert (forall todo, pack_entries env m stage_dir todo = pack_entries env' m stage_dir todo)
    as ->; [|reflexivity].
  induction todo as [|p rest IH]; [reflexivity|].
  cbn [pack_entries]. rewrite !add_entry_normalized, IH.
  unfold normalized_member. rewrite HE. reflexivity.
Qed.

(** So does staging, besides the variables that describe the run. *)
Lemma stage_tree_env (env' : environ) (i : inputs) :
  get_source_date_epoch env = get_source_date_epoch env' ->
  (forall k, k <> "SOURCE_DATE_EPOCH" -> env !! k = env' !! k) ->
  stage_tree env m i = stage_tree env' m i.
Proof.
  intros HE Hk. unfold stage_tree, stage_inputs, tool_meta, run_data. rewrite HE.
  cbn [List.flat_map snd].
  rewrite !Hk by discriminate. reflexivity.
Qed.

(** Names and times of the members, when every entry could be added. *)
Lemma write_bundle_names_times (stage_dir : tree) :
  (write_bundle env m stage_dir).2 = None ->
  List.map (fun mb : member => (ti_name mb.1, ti_mtime mb.1))
           (tar_members (write_bundle env m stage_dir).1)
  = List.map (fun p => (path_str p, get_source_date_epoch env))
             (List.filter kept (sorted_paths (rglob stage_dir))).
Proof.
  rewrite write_bundle_eq.
  pose proof (pack_entries_names env m stage_dir
                (List.filter kept (sorted_paths (rglob stage_dir)))) as Hn.
  pose proof (pack_entries_normalized env m stage_dir
                (List.filter kept (sorted_paths (rglob stage_dir)))) as Ht.
  destruct (pack_entries env m stage_dir (List.filter kept (sorted_paths (rglob stage_dir))))
    as [ms err]. cbn [fst snd tar_members] in *. intros ->.
  destruct Hn as [_ Hn]. specialize (Hn eq_refl).
  revert Hn Ht. generalize (List.filter kept (sorted_paths (rglob stage_dir))).
  induction ms as [|mb ms IH]; intros [|p todo] Hn Ht; try discriminate; [reflexivity|].
  cbn [List.map] in *. injection Hn as Hname Hn.
  apply Forall_cons in Ht as [(Htime & _) Ht].
  rewrite Hname, Htime, (IH todo Hn Ht). reflexivity.
Qed.


End ArchiveStep.

(** ** C9: loading the manifest *)

Section Parsing.

Lemma dict_get_set_eq (d : PyDict.t) (k v : string) :
  PyDict.get (PyDict.set d k v) k = Some v.
Proof.
  induction d as [|[k' v'] d IH]; simpl.
  - rewrite String.eqb_refl. reflexivity.
  - destruct (String.eqb k' k) eqn:E; simpl; rewrite E; [reflexivity|exact IH].
Qed.

Lemma dict_get_set_ne (d : PyDict.t) (k k' v : string) :
  k <> k' -> PyDict.get (PyDict.set d k v) k' = PyDict.get d k'.
Proof.
  intros Hne. induction d as [|[k0 v0] d IH]; simpl.
  - destruct (String.eqb k k') eqn:E; [|reflexivity].
    apply String.eqb_eq in E. contradiction.
  - destruct (String.eqb k0 k) eqn:E; simpl.
    + apply String.eqb_eq in E. subst k0.
      destruct (String.eqb k k') eqn:E'; [|reflexivity].
      apply String.eqb_eq in E'. contradiction.
    + destruct (String.eqb k0 k'); [reflexivity|exact IH].
Qed.

Lemma load_line_entry (expected : PyDict.t) (line : string) :
  load_line expected line =
  match line_entry line with
  | Some (h, p) => PyDict.set expected p h
  | None => expected
  end.
Proof.
  unfold load_line, line_entry.
  destruct (String.eqb (PyStr.strip line) ""); [reflexivity|].
  destruct (PyStr.split1 "  " (PyStr.strip line)) as [|a [|b [|c l]]]; reflexivity.
Qed.

(** A line that contributes no entry for [p] leaves the value at [p]. *)
Lemma load_line_other (expected : PyDict.t) (line p : string) :
  (forall h, line_entry line <> Some (h, p)) ->
  PyDict.get (load_line expected line) p = PyDict.get expected p.
Proof.
  intros H. rewrite load_line_entry.
  destruct (line_entry line) as [[h q]|]; [|reflexivity].
  apply dict_get_set_ne. intros ->. exact (H h eq_refl).
Qed.

Lemma load_lines_other (lines : list string) (expected : PyDict.t) (p : string) :
  (forall l h, l ∈ lines -> line_entry l <> Some (h, p)) ->
  PyDict.get (List.fold_left load_line lines expected) p = PyDict.get expected p.
Proof.
  revert expected. induction lines as [|l lines IH]; intros expected H; simpl.
  - reflexivity.
  - rewrite IH.
    + apply load_line_other. intros h. apply H. left.
    + intros l' h Hin. apply H. right. exact Hin.
Qed.

Lemma load_lines_last (before after : list string) (line h p : string)
    (expected : PyDict.t) :
  line_entry line = Some (h, p) ->
  (forall l h', l ∈ after -> line_entry l <> Some (h', p)) ->
  PyDict.get (List.fold_left load_line (before ++ line :: after) expected) p = Some h.
Proof.
  intros Hline Hafter. rewrite List.fold_left_app. simpl.
  rewrite load_lines_other by exact Hafter.
  rewrite load_line_entry, Hline. apply dict_get_set_eq.
Qed.

(** C9 (as amended).  On bytes that are valid UTF-8 loading the manifest
    raises nothing; blank lines and lines without the two-space separator
    add nothing, and a path has the digest of the last line that gives it
    one. *)
Theorem C9_parse_valid_utf8_last_line_wins (bytes : string) :
  PyStr.utf8_valid bytes = true ->
  exists expected,
    parse_manifest bytes = Ok expected
    /\ forall p,
        let lines := PyStr.readlines (PyStr.translate_newlines bytes) in
        (forall before line after h,
            lines = before ++ line :: after ->
            line_entry line = Some (h, p) ->
            (forall l h', l ∈ after -> line_entry l <> Some (h', p)) ->
            PyDict.get expected p = Some h)
        /\ ((forall l h, l ∈ lines -> line_entry l <> Some (h, p)) ->
            PyDict.get expected p = None).
Proof.
  intros Hvalid. unfold parse_manifest. rewrite Hvalid.
  eexists. split; [reflexivity|]. intros p. cbn zeta. split.
  - intros before line after h Heq Hline Hafter. rewrite Heq.
    apply load_lines_last; assumption.
  - intros H. rewrite load_lines_other by exact H. reflexivity.
Qed.

End Parsing.

(** ** C3: the safe extractor *)

Section Extraction.

Context (m : machine).

Lemma rejection_unsafe (t : TarInfo) : unsafe t <-> exists e, rejection t = Some e.
Proof.
  unfold unsafe, rejection, issym, islnk.
  destruct (is_absolute (ti_name t)); [split; eauto|].
  destruct (bool_decide (".." ∈ parts (ti_name t))) eqn:Hdd.
  - apply bool_decide_eq_true in Hdd. split; eauto.
  - apply bool_decide_eq_false in Hdd.
    destruct (ti_type t); simpl; split; eauto;
      try (intros [?|[?|[?|?]]]; try discriminate; contradiction);
      intros [e ?]; discriminate.
Qed.

(** The exception names the member and the rule. *)
Lemma rejection_names (t : TarInfo) (e : exn) :
  rejection t = Some e ->
  (e = UnsafeAbsolutePath (ti_name t) /\ is_absolute (ti_name t) = true)
  \/ (e = UnsafePathTraversal (ti_name t) /\ ".." ∈ parts (ti_name t))
  \/ (e = UnsafeLink (ti_name t) /\ (ti_type t = SYMTYPE \/ ti_type t = LNKTYPE)).
Proof.
  unfold rejection, issym, islnk.
  destruct (is_absolute (ti_name t)); [intros [= <-]; auto|].
  destruct (bool_decide (".." ∈ parts (ti_name t))) eqn:Hdd.
  - apply bool_decide_eq_true in Hdd. intros [= <-]. auto.
  - destruct (ti_type t); simpl; try discriminate; intros [= <-]; auto.
Qed.

Lemma safe_extract_app (before rest : list member) (dest : tree) :
  safe_extract m (before ++ rest) dest =
  match safe_extract m before dest with
  | (d, None) => safe_extract m rest d
  | (d, Some e) => (d, Some e)
  end.
Proof.
  revert dest. induction before as [|mb before IH]; intros dest; simpl; [reflexivity|].
  destruct (rejection mb.1); [reflexivity|].
  destruct (tar_extract m dest mb); [apply IH|reflexivity].
Qed.

Lemma first_unsafe (members : list member) :
  Exists (fun mb : member => unsafe mb.1) members ->
  exists before bad after e,
    members = before ++ bad :: after
    /\ Forall (fun mb : member => rejection mb.1 = None) before
    /\ rejection bad.1 = Some e.
Proof.
  induction members as [|mb members IH]; intros H.
  - apply Exists_nil in H. contradiction.
  - destruct (rejection mb.1) as [e|] eqn:Hr.
    + exists [], mb, members, e. auto.
    + apply Exists_cons in H as [H|H].
      * apply rejection_unsafe in H as [e He]. congruence.
      * destruct (IH H) as (before & bad & after & e & -> & Hb & Hbad).
        exists (mb :: before), bad, after, e. auto.
Qed.

(** C3 (as amended).  When an archive holds an unsafe member, extraction
    ends with an exception.  Nothing of the first unsafe member or of any
    member after it is written: the destination is left as the members
    before it made it, and these have been written.  Unless one of those
    earlier members failed to extract, the exception is the one that names
    the first unsafe member and the rule it broke. *)
Theorem C3_unsafe_member_stops_extraction (members : list member) (dest : tree) :
  Exists (fun mb : member => unsafe mb.1) members ->
  exists before bad after e,
    members = before ++ bad :: after
    /\ Forall (fun mb : member => ~ unsafe mb.1) before
    /\ unsafe bad.1
    /\ ((e = UnsafeAbsolutePath (ti_name bad.1) /\ is_absolute (ti_name bad.1) = true)
        \/ (e = UnsafePathTraversal (ti_name bad.1) /\ ".." ∈ parts (ti_name bad.1))
        \/ (e = UnsafeLink (ti_name bad.1)
            /\ (ti_type bad.1 = SYMTYPE \/ ti_type bad.1 = LNKTYPE)))
    /\ (safe_extract m members dest).2 <> None
    /\ (safe_extract m members dest).1 = (safe_extract m before dest).1
    /\ ((safe_extract m before dest).2 = None ->
        (safe_extract m members dest).2 = Some e).
Proof.
  intros H. destruct (first_unsafe members H) as (before & bad & after & e & -> & Hb & Hbad).
  exists before, bad, after, e. split; [reflexivity|]. split.
  { eapply Forall_impl; [exact Hb|]. cbn. intros mb Hr Hu.
    apply rejection_unsafe in Hu as [e' He']. congruence. }
  split; [apply rejection_unsafe; eauto|].
  split; [apply rejection_names; exact Hbad|].
  rewrite safe_extract_app.
  destruct (safe_extract m before dest) as [d [e'|]]; simpl.
  - split; [discriminate|]. split; [reflexivity|discriminate].
  - rewrite Hbad. simpl. split; [discriminate|]. split; reflexivity.
Qed.

End Extraction.

(** ** C4: files the manifest does not list *)

Section ExtraFile.

Lemma verify_walk_app (fs : tree) (expected : PyDict.t) (a b : list path)
    (found : gset string) :
  verify_walk fs expected (a ++ b) found =
  (found' <-! verify_walk fs expected a found; verify_walk fs expected b found').
Proof.
  revert found. induction a as [|p a IH]; intros found; cbn [verify_walk app bind];
    [destruct (verify_walk fs expected b found); reflexivity|].
  destruct (negb (is_file fs p)); [apply IH|].
  destruct (String.eqb (path_name p) ".DS_Store"); [apply IH|].
  destruct (String.eqb (path_str p) (path_str manifest_rel)); [apply IH|].
  destruct (PyDict.get expected (path_str p)); [|reflexivity].
  destruct (calculate_file_hash fs p) as [curr|]; cbn [bind]; [|reflexivity].
  destruct (negb (String.eqb curr s)); [reflexivity|apply IH].
Qed.

(** The walk consults the tree only at the paths it visits. *)
Lemma verify_walk_ext (fs fs' : tree) (expected : PyDict.t) (todo : list path)
    (found : gset string) :
  (forall q, q ∈ todo -> fs_lookup fs' q = fs_lookup fs q) ->
  verify_walk fs' expected todo found = verify_walk fs expected todo found.
Proof.
  revert found. induction todo as [|p todo IH]; intros found H; cbn [verify_walk];
    [reflexivity|].
  assert (fs_lookup fs' p = fs_lookup fs p) as Hp by (apply H; left).
  assert (forall f, verify_walk fs' expected todo f = verify_walk fs expected todo f) as IH'.
  { intros f. apply IH. intros q Hq. apply H. right. exact Hq. }
  unfold is_file, calculate_file_hash. rewrite Hp.
  destruct (fs_lookup fs p) as [[[data| |] st]|]; cbn [negb bind]; rewrite ?IH';
    reflexivity.
Qed.

(** A regular file that the walk does not skip and the manifest does not
    list stops the walk. *)
Lemma verify_walk_unlisted (fs : tree) (expected : PyDict.t) (todo : list path)
    (found : gset string) (p : path) :
  p ∈ todo ->
  is_file fs p = true ->
  path_name p <> ".DS_Store" ->
  path_str p <> path_str manifest_rel ->
  PyDict.get expected (path_str p) = None ->
  exists e, verify_walk fs expected todo found = Raise e.
Proof.
  intros Hin Hfile Hname Hman Hget. revert found.
  induction todo as [|q todo IH]; intros found.
  - apply elem_of_nil in Hin. contradiction.
  - apply elem_of_cons in Hin as [<-|Hin].
    + cbn [verify_walk]. rewrite Hfile. cbn [negb].
      apply String.eqb_neq in Hname. rewrite Hname.
      apply String.eqb_neq in Hman. rewrite Hman. rewrite Hget. eauto.
    + cbn [verify_walk].
      destruct (negb (is_file fs q)); [auto|].
      destruct (String.eqb (path_name q) ".DS_Store"); [auto|].
      destruct (String.eqb (path_str q) (path_str manifest_rel)); [auto|].
      destruct (PyDict.get expected (path_str q)); [|eauto].
      destruct (calculate_file_hash fs q) as [curr|]; cbn [bind]; [|eauto].
      destruct (negb (String.eqb curr s)); [eauto|auto].
Qed.

Lemma fs_lookup_insert_ne (l1 l2 : tree) (p q : path) (n : node) :
  q <> p -> fs_lookup (l1 ++ (p, n) :: l2) q = fs_lookup (l1 ++ l2) q.
Proof.
  intros Hne. induction l1 as [|[r n'] l1 IH]; simpl.
  - destruct (path_eqb p q) eqn:E; [|reflexivity].
    apply path_eqb_eq in E. congruence.
  - destruct (path_eqb r q); [reflexivity|exact IH].
Qed.

Lemma fs_lookup_insert_fresh (l1 l2 : tree) (p : path) (n : node) :
  p ∉ rglob (l1 ++ l2) -> fs_lookup (l1 ++ (p, n) :: l2) p = Some n.
Proof.
  unfold rglob. rewrite fmap_app, not_elem_of_app. intros [H1 _].
  induction l1 as [|[r n'] l1 IH]; simpl.
  - replace (path_eqb p p) with true; [reflexivity|].
    symmetry. apply path_eqb_eq. reflexivity.
  - simpl in H1. apply not_elem_of_cons in H1 as [Hne H1].
    destruct (path_eqb r p) eqn:E; [|auto].
    apply path_eqb_eq in E. congruence.
Qed.

(** C4 (as amended).  Injecting into a tree, at any place of its listing, a
    regular file that is not named [.DS_Store], is not the manifest and is
    not listed by the manifest makes verification fail; when the tree
    verified before, the cause is the unexpected file, by its path. *)
Theorem C4_unlisted_file_fails_verification
    (l1 l2 : tree) (p : path) (data : string) (st : stat) :
  let fs := l1 ++ l2 in
  let fs' := l1 ++ (p, Node (Regular data) st) :: l2 in
  p ∉ rglob fs ->
  path_name p <> ".DS_Store" ->
  path_str p <> path_str manifest_rel ->
  listed fs (path_str p) = false ->
  (forall b, verify_manifest fs' <> Ok b)
  /\ (forall b, verify_manifest fs = Ok b ->
      verify_manifest fs' = Raise (UnexpectedFile (path_str p))).
Proof.
  intros fs fs' Hfresh Hname Hman Hlisted.
  assert (p <> manifest_rel) as Hne by (intros ->; apply Hman; reflexivity).
  assert (forall q, q <> p -> fs_lookup fs' q = fs_lookup fs q) as Hother.
  { intros q Hq. apply fs_lookup_insert_ne. exact Hq. }
  assert (fs_lookup fs' p = Some (Node (Regular data) st)) as Hp
    by (apply fs_lookup_insert_fresh; exact Hfresh).
  assert (is_file fs' p = true) as Hfile by (unfold is_file; rewrite Hp; reflexivity).
  assert (rglob fs' = rglob l1 ++ p :: rglob l2) as Hrglob.
  { unfold fs', rglob. rewrite List.map_app. reflexivity. }
  unfold verify_manifest. rewrite (Hother manifest_rel) by congruence.
  unfold listed, expected_of in Hlisted.
  destruct (fs_lookup fs manifest_rel) as [[[bytes| |] mst]|]; try (split; intros; discriminate).
  destruct (st_readable mst); try (split; intros; discriminate).
  destruct (parse_manifest bytes) as [expected|]; cbn [bind]; try (split; intros; discriminate).
  assert (PyDict.get expected (path_str p) = None) as Hget.
  { unfold PyDict.mem in Hlisted. destruct (PyDict.get expected (path_str p)); congruence. }
  split.
  - intros b.
    destruct (verify_walk_unlisted fs' expected (rglob fs') ∅ p) as [e He]; auto.
    { rewrite Hrglob. apply elem_of_app. right. left. }
    rewrite He. discriminate.
  - intros b Hok. rewrite Hrglob, verify_walk_app.
    assert (rglob fs = rglob l1 ++ rglob l2) as Hrg.
    { unfold fs, rglob. rewrite List.map_app. reflexivity. }
    rewrite Hrg, verify_walk_app in Hok.
    assert (verify_walk fs' expected (rglob l1) ∅ = verify_walk fs expected (rglob l1) ∅) as ->.
    { apply verify_walk_ext. intros q Hq. apply Hother. intros ->. apply Hfresh.
      rewrite Hrg. apply elem_of_app. left. exact Hq. }
    destruct (verify_walk fs expected (rglob l1) ∅) as [found|]; cbn [bind] in *;
      [|discriminate].
    cbn [verify_walk]. rewrite Hfile. cbn [negb].
    apply String.eqb_neq in Hname. rewrite Hname.
    apply String.eqb_neq in Hman. rewrite Hman. rewrite Hget. reflexivity.
Qed.

End ExtraFile.

(** ** The round trip on clean staging directories *)

Section CleanStage.

Lemma clean_stage_NoDup (stage : tree) : clean_stage stage = true -> NoDup (rglob stage).
Proof.
  unfold clean_stage. intros H. apply andb_true_iff in H as [H _].
  apply bool_decide_eq_true in H. exact H.
Qed.

Lemma clean_stage_entry (stage : tree) (p : path) (n : node) :
  clean_stage stage = true -> (p, n) ∈ stage ->
  wf_path p = true /\ path_name p <> ".DS_Store" /\ clean_node n = true
  /\ Forall (fun d => is_dir stage d = true) (proper_prefixes p).
Proof.
  unfold clean_stage. intros H Hin. apply andb_true_iff in H as [_ H].
  rewrite List.forallb_forall in H. apply list_elem_of_In in Hin.
  specialize (H _ Hin). cbv beta in H. cbn [fst snd] in H.
  apply andb_true_iff in H as [H Hpre].
  apply andb_true_iff in H as [H Hnode].
  apply andb_true_iff in H as [Hwf Hname].
  repeat split; try assumption.
  - apply String.eqb_neq. apply negb_true_iff. assumption.
  - apply Forall_forall. intros d Hd. apply list_elem_of_In in Hd.
    rewrite List.forallb_forall in Hpre. apply Hpre. exact Hd.
Qed.

Lemma wf_path_facts (p : path) :
  wf_path p = true ->
  p <> [] /\ is_absolute (path_str p) = false /\ (".." ∉ p) /\ parts (path_str p) = p.
Proof.
  unfold wf_path. intros H.
  apply andb_true_iff in H as [H Hparts].
  apply andb_true_iff in H as [H Hdd].
  apply andb_true_iff in H as [Hnil Habs].
  repeat split.
  - apply negb_true_iff, bool_decide_eq_false in Hnil. exact Hnil.
  - apply negb_true_iff. assumption.
  - apply negb_true_iff, bool_decide_eq_false in Hdd. exact Hdd.
  - apply bool_decide_eq_true in Hparts. exact Hparts.
Qed.

(** On such paths [str] is injective. *)
Lemma path_str_inj (p q : path) :
  wf_path p = true -> wf_path q = true -> path_str p = path_str q -> p = q.
Proof.
  intros Hp Hq Heq. apply wf_path_facts in Hp as (_ & _ & _ & Hp).
  apply wf_path_facts in Hq as (_ & _ & _ & Hq). congruence.
Qed.

Lemma proper_prefixes_spec (p d : path) :
  d ∈ proper_prefixes p -> d <> [] /\ exists r, r <> [] /\ p = d ++ r.
Proof.
  unfold proper_prefixes. intros H.
  apply list_elem_of_fmap in H as (n & -> & Hn).
  apply list_elem_of_In, List.in_seq in Hn.
  split.
  - intros Hnil. apply (f_equal (@List.length _)) in Hnil.
    rewrite List.length_firstn in Hnil. simpl in Hnil. lia.
  - exists (List.skipn n p). split.
    + intros Hnil. apply (f_equal (@List.length _)) in Hnil.
      rewrite List.length_skipn in Hnil. simpl in Hnil. lia.
    + symmetry. apply List.firstn_skipn.
Qed.

End CleanStage.

Section CleanPack.

Context (env : environ) (m : machine).

Lemma node_at_lookup (fs : tree) (p : path) :
  p ∈ rglob fs -> fs_lookup fs p = Some (node_at fs p).
Proof.
  intros Hin. unfold node_at. destruct (fs_lookup fs p) eqn:E; [reflexivity|].
  apply fs_lookup_None in E. contradiction.
Qed.

Lemma clean_stage_at (stage : tree) (p : path) :
  clean_stage stage = true -> p ∈ rglob stage ->
  wf_path p = true /\ path_name p <> ".DS_Store" /\ clean_node (node_at stage p) = true
  /\ Forall (fun d => is_dir stage d = true) (proper_prefixes p).
Proof.
  intros Hc Hin. apply (clean_stage_entry stage p (node_at stage p) Hc).
  apply fs_lookup_Some_elem, node_at_lookup. exact Hin.
Qed.

Lemma normalized_member_clean (p : path) (n : node) :
  clean_node n = true ->
  normalized_member env (path_str p) n = Ok (member_of env p n).
Proof.
  unfold clean_node, normalized_member, member_of.
  destruct n as [[data| |] st]; simpl; try discriminate; try reflexivity.
  intros ->. reflexivity.
Qed.

Lemma pack_entries_clean (stage : tree) (todo : list path) :
  clean_stage stage = true ->
  Forall (fun p => p ∈ rglob stage) todo ->
  pack_entries env m stage todo
  = (List.map (fun p => member_of env p (node_at stage p)) todo, None).
Proof.
  intros Hc Hall. induction Hall as [|p todo Hp _ IH]; [reflexivity|].
  cbn [pack_entries List.map]. rewrite add_entry_normalized, (node_at_lookup _ _ Hp).
  destruct (clean_stage_at stage p Hc Hp) as (_ & _ & Hn & _).
  rewrite (normalized_member_clean p _ Hn), IH. reflexivity.
Qed.

Lemma filter_kept_clean (stage : tree) (l : list path) :
  clean_stage stage = true ->
  Forall (fun p => p ∈ rglob stage) l ->
  List.filter kept l = l.
Proof.
  intros Hc Hall. induction Hall as [|p l Hp _ IH]; [reflexivity|].
  simpl. destruct (clean_stage_at stage p Hc Hp) as (_ & Hname & _).
  unfold kept at 1. apply String.eqb_neq in Hname. rewrite Hname. simpl.
  rewrite IH. reflexivity.
Qed.

Lemma sorted_in_stage (stage : tree) :
  Forall (fun p => p ∈ rglob stage) (sorted_paths (rglob stage)).
Proof.
  apply Forall_forall. intros p Hp. rewrite sorted_paths_perm in Hp. exact Hp.
Qed.

(** The archive of a clean staging directory: a member for every entry, in
    sorted order, and the end-of-archive marker. *)
Lemma write_bundle_clean (stage : tree) :
  clean_stage stage = true ->
  write_bundle env m stage
  = (mkBundle "" 0
       (List.map (fun p => member_of env p (node_at stage p))
                 (sorted_paths (rglob stage))) true,
     None).
Proof.
  intros Hc. rewrite write_bundle_eq.
  rewrite (filter_kept_clean stage _ Hc (sorted_in_stage stage)).
  rewrite (pack_entries_clean stage _ Hc (sorted_in_stage stage)). reflexivity.
Qed.

End CleanPack.

Section CleanExtract.

Context (env : environ) (m : machine) (stage : tree).

Lemma make_upperdirs_ready (fs : tree) (done : path) (todo : list string) :
  (forall n, 1 <= n < List.length todo ->
             is_dir fs (done ++ List.firstn n todo) = true) ->
  make_upperdirs m fs done todo = Ok fs.
Proof.
  revert done. induction todo as [|x rest IH]; intros done H; [reflexivity|].
  cbn [make_upperdirs]. destruct rest as [|y rest]; [reflexivity|].
  assert (is_dir fs (done ++ [x]) = true) as Hd.
  { apply (H 1). simpl. lia. }
  unfold is_dir in Hd.
  destruct (fs_lookup fs (done ++ [x])) as [[[data| |] st]|]; try discriminate.
  apply IH. intros n Hn. rewrite <- app_assoc. apply (H (S n)). simpl in *. lia.
Qed.

Lemma lookup_extracted_in (l : list path) (d : path) :
  d ∈ l -> fs_lookup (List.map (extracted_entry m stage) l) d = Some (extracted_node m (node_at stage d)).
Proof.
  induction l as [|q l IH]; intros Hin.
  - apply elem_of_nil in Hin. contradiction.
  - simpl. destruct (path_eqb q d) eqn:E.
    + apply path_eqb_eq in E. subst q. reflexivity.
    + apply elem_of_cons in Hin as [->|Hin]; [|auto].
      rewrite <- not_true_iff_false in E. exfalso. apply E, path_eqb_eq. reflexivity.
Qed.

Lemma lookup_extracted_out (l : list path) (d : path) :
  d ∉ l -> fs_lookup (List.map (extracted_entry m stage) l) d = None.
Proof.
  intros Hout. apply fs_lookup_None. unfold rglob. rewrite List.map_map. simpl.
  rewrite List.map_id. exact Hout.
Qed.

Lemma is_dir_extracted (l : list path) (d : path) :
  d ∈ l -> is_dir stage d = true -> is_dir (List.map (extracted_entry m stage) l) d = true.
Proof.
  intros Hin Hd. unfold is_dir. rewrite (lookup_extracted_in l d Hin).
  unfold is_dir in Hd. unfold node_at, extracted_node.
  destruct (fs_lookup stage d) as [[[data| |] st]|]; try discriminate. reflexivity.
Qed.

Lemma member_of_rejection (p : path) (n : node) :
  wf_path p = true -> clean_node n = true -> rejection (member_of env p n).1 = None.
Proof.
  intros Hwf Hn. apply wf_path_facts in Hwf as (_ & Habs & Hdd & Hparts).
  unfold rejection, member_of. cbn [fst ti_name]. rewrite Habs, Hparts.
  rewrite bool_decide_eq_false_2 by exact Hdd.
  unfold clean_node in Hn. unfold issym, islnk. cbn [ti_type].
  destruct (n_kind n); try discriminate; reflexivity.
Qed.

Lemma proper_prefixes_firstn (p : path) (n : nat) :
  1 <= n < List.length p -> List.firstn n p ∈ proper_prefixes p.
Proof.
  intros Hn. unfold proper_prefixes. apply list_elem_of_fmap. exists n.
  split; [reflexivity|]. apply list_elem_of_In, List.in_seq. lia.
Qed.

Lemma tar_extract_clean (done : list path) (p : path) :
  wf_path p = true ->
  clean_node (node_at stage p) = true ->
  p ∉ done ->
  (forall d, d ∈ proper_prefixes p -> d ∈ done /\ is_dir stage d = true) ->
  tar_extract m (List.map (extracted_entry m stage) done) (member_of env p (node_at stage p))
  = Ok (List.map (extracted_entry m stage) (done ++ [p])).
Proof.
  intros Hwf Hn Hout Hpre.
  pose proof (wf_path_facts p Hwf) as (Hnil & _ & _ & Hparts).
  unfold tar_extract. cbn [fst snd member_of ti_name ti_type]. rewrite Hparts.
  rewrite make_upperdirs_ready.
  2:{ intros n Hlen. simpl. destruct (Hpre _ (proper_prefixes_firstn p n Hlen)) as [Hin Hd].
      apply is_dir_extracted; assumption. }
  cbn [bind]. rewrite List.map_app. cbn [List.map].
  assert (extracted_entry m stage p = (p, extracted_node m (node_at stage p))) as -> by reflexivity.
  unfold clean_node in Hn. unfold extracted_node.
  destruct (n_kind (node_at stage p)) as [data| |]; try discriminate.
  - destruct p as [|x p']; [congruence|].
    unfold write_file. rewrite (lookup_extracted_out done _ Hout). reflexivity.
  - destruct p as [|x p']; [congruence|].
    rewrite (lookup_extracted_out done _ Hout). reflexivity.
Qed.

Lemma safe_extract_clean (l done : list path) :
  NoDup (done ++ l) ->
  Forall (fun p => wf_path p = true /\ clean_node (node_at stage p) = true) l ->
  parents_ready stage done l ->
  safe_extract m (List.map (fun p => member_of env p (node_at stage p)) l)
               (List.map (extracted_entry m stage) done)
  = (List.map (extracted_entry m stage) (done ++ l), None).
Proof.
  revert done. induction l as [|p l IH]; intros done Hnd Hall Hready.
  - rewrite app_nil_r. reflexivity.
  - apply Forall_cons in Hall as [[Hwf Hn] Hall].
    cbn [List.map safe_extract]. rewrite (member_of_rejection p _ Hwf Hn).
    assert (p ∉ done) as Hout.
    { apply NoDup_app in Hnd as (_ & Hdisj & _). intros Hin. apply (Hdisj p Hin). left. }
    rewrite (tar_extract_clean done p Hwf Hn Hout).
    2:{ intros d Hd. destruct (Hready [] p l eq_refl d Hd) as [Hin Hdir].
        rewrite app_nil_r in Hin. auto. }
    rewrite (IH (done ++ [p])).
    + rewrite <- app_assoc. reflexivity.
    + rewrite <- app_assoc. exact Hnd.
    + exact Hall.
    + intros l1 q l2 Heq d Hd.
      destruct (Hready (p :: l1) q l2 (f_equal (cons p) Heq) d Hd) as [Hin Hdir].
      split; [|exact Hdir]. rewrite <- app_assoc. exact Hin.
Qed.

End CleanExtract.

Section CleanVerify.

Context (env : environ) (m : machine) (stage : tree).
Hypothesis Hclean : clean_stage stage = true.

Lemma parents_ready_sorted : parents_ready stage [] (sorted_paths (rglob stage)).
Proof.
  intros l1 p l2 Heq d Hd. simpl.
  assert (p ∈ rglob stage) as Hp.
  { rewrite <- sorted_paths_perm, Heq. apply elem_of_app. right. left. }
  destruct (clean_stage_at stage p Hclean Hp) as (_ & _ & _ & Hpre).
  rewrite Forall_forall in Hpre. pose proof (Hpre d Hd) as Hdir.
  split; [|exact Hdir].
  assert (d ∈ rglob stage) as Hdin.
  { destruct (decide (d ∈ rglob stage)) as [|Hout]; [assumption|].
    apply fs_lookup_None in Hout. unfold is_dir in Hdir. rewrite Hout in Hdir.
    discriminate. }
  apply proper_prefixes_spec in Hd as (_ & r & Hr & Hpd).
  assert (d <> p) as Hne.
  { intros ->. apply Hr. apply (f_equal (@List.length _)) in Hpd.
    rewrite List.length_app in Hpd. destruct r; [reflexivity|simpl in Hpd; lia]. }
  rewrite <- sorted_paths_perm, Heq in Hdin.
  apply elem_of_app in Hdin as [Hdin|Hdin]; [exact Hdin|].
  apply elem_of_cons in Hdin as [->|Hdin]; [contradiction|].
  exfalso. apply Hne. apply (anti_symm path_le).
  - rewrite Hpd. apply path_le_prefix.
  - pose proof (sorted_paths_sorted (rglob stage)) as Hs. rewrite Heq in Hs.
    apply StronglySorted_app_1_r, StronglySorted_inv in Hs as [_ Hs].
    rewrite Forall_forall in Hs. apply Hs. exact Hdin.
Qed.

(** Extraction of the archive of a clean staging directory rebuilds its
    entries, in sorted order. *)
Lemma extract_bundle_clean (m' : machine) :
  safe_extract m' (tar_members (write_bundle env m stage).1) []
  = (List.map (extracted_entry m' stage) (sorted_paths (rglob stage)), None).
Proof.
  rewrite (write_bundle_clean env m stage Hclean). cbn [fst tar_members].
  apply (safe_extract_clean env m' stage (sorted_paths (rglob stage)) []).
  - simpl. rewrite sorted_paths_perm. apply clean_stage_NoDup. exact Hclean.
  - apply Forall_forall. intros p Hp. rewrite sorted_paths_perm in Hp.
    destruct (clean_stage_at stage p Hclean Hp) as (Hwf & _ & Hn & _). auto.
  - apply parents_ready_sorted.
Qed.

Lemma extracted_lookup (m' : machine) (p : path) :
  fs_lookup (extracted stage m') p = extracted_node m' <$> fs_lookup stage p.
Proof.
  unfold extracted. destruct (decide (p ∈ rglob stage)) as [Hin|Hout].
  - rewrite lookup_extracted_in by (rewrite sorted_paths_perm; exact Hin).
    rewrite (node_at_lookup _ _ Hin). reflexivity.
  - rewrite lookup_extracted_out by (rewrite sorted_paths_perm; exact Hout).
    apply fs_lookup_None in Hout. rewrite Hout. reflexivity.
Qed.

Lemma extracted_is_file (m' : machine) (p : path) :
  is_file (extracted stage m') p = is_file stage p.
Proof.
  unfold is_file. rewrite extracted_lookup.
  destruct (fs_lookup stage p) as [[[data| |] st]|]; reflexivity.
Qed.

Lemma extracted_hash (m' : machine) (p : path) (data : string) (st : stat) :
  fs_lookup stage p = Some (Node (Regular data) st) ->
  calculate_file_hash (extracted stage m') p = Ok (Sha256.hexdigest data).
Proof.
  intros H. unfold calculate_file_hash. rewrite extracted_lookup, H. reflexivity.
Qed.

Section Walk.

Context (m' : machine) (expected : PyDict.t).
Hypothesis Hlisted :
  forall p data st, fs_lookup stage p = Some (Node (Regular data) st) ->
    p <> manifest_rel -> PyDict.get expected (path_str p) = Some (Sha256.hexdigest data).

Lemma verify_walk_clean (todo : list path) (found : gset string) :
  Forall (fun p => p ∈ rglob stage) todo ->
  exists found',
    verify_walk (extracted stage m') expected todo found = Ok found'
    /\ forall p, p ∈ todo -> is_file stage p = true -> p <> manifest_rel ->
                 path_str p ∈ found'.
Proof.
  intros Hall. revert found.
  assert (forall todo found, Forall (fun p => p ∈ rglob stage) todo ->
            exists found', verify_walk (extracted stage m') expected todo found = Ok found'
                           /\ found ⊆ found'
                           /\ forall p, p ∈ todo -> is_file stage p = true ->
                                        p <> manifest_rel -> path_str p ∈ found') as Hgen.
  { clear todo Hall. intros todo found Hall. revert found.
    induction Hall as [|p todo Hp _ IH]; intros found.
    - exists found. split; [reflexivity|]. split; [reflexivity|].
      intros p Hin. apply elem_of_nil in Hin. contradiction.
    - cbn [verify_walk]. rewrite extracted_is_file.
      destruct (is_file stage p) eqn:Hfile; cbn [negb].
      + destruct (clean_stage_at stage p Hclean Hp) as (Hwf & Hname & _ & _).
        apply String.eqb_neq in Hname. rewrite Hname.
        destruct (String.eqb (path_str p) (path_str manifest_rel)) eqn:Hman.
        * apply String.eqb_eq in Hman.
          destruct (IH found) as (found' & Hw & Hsub & Hin). exists found'.
          split; [exact Hw|]. split; [exact Hsub|].
          intros q Hq Hqf Hqm. apply elem_of_cons in Hq as [->|Hq]; [|auto].
          exfalso. apply Hqm. apply path_str_inj; [exact Hwf|reflexivity|exact Hman].
        * apply String.eqb_neq in Hman.
          assert (p <> manifest_rel) as Hne by (intros ->; apply Hman; reflexivity).
          unfold is_file in Hfile.
          destruct (fs_lookup stage p) as [[[data| |] st]|] eqn:Hl; try discriminate.
          rewrite (Hlisted p data st Hl Hne), (extracted_hash m' p data st Hl).
          cbn [bind]. rewrite String.eqb_refl. cbn [negb].
          destruct (IH ({[path_str p]} ∪ found)) as (found' & Hw & Hsub & Hin).
          exists found'. split; [exact Hw|].
          split; [intros x Hx; apply Hsub, elem_of_union; right; exact Hx|].
          intros q Hq Hqf Hqm. apply elem_of_cons in Hq as [->|Hq]; [|auto].
          apply Hsub, elem_of_union. left. apply elem_of_singleton. reflexivity.
      + destruct (IH found) as (found' & Hw & Hsub & Hin). exists found'.
        split; [exact Hw|]. split; [exact Hsub|].
        intros q Hq Hqf Hqm. apply elem_of_cons in Hq as [->|Hq]; [congruence|auto]. }
  intros found. destruct (Hgen todo found Hall) as (found' & Hw & _ & Hin). eauto.
Qed.

Lemma check_missing_ok (keys : list string) (found : gset string) :
  Forall (fun k => k ∈ found) keys -> check_missing keys found = Ok true.
Proof.
  induction 1 as [|k keys Hk _ IH]; [reflexivity|].
  cbn [check_missing]. rewrite bool_decide_eq_true_2 by exact Hk. exact IH.
Qed.

End Walk.

(** A clean staging directory whose manifest lists its other regular files,
    each with its digest, and nothing else, verifies after the archive has
    been written and extracted. *)
Lemma verify_extracted_clean (m' : machine) (text : string) (st : stat)
    (expected : PyDict.t) :
  fs_lookup stage manifest_rel = Some (Node (Regular text) st) ->
  parse_manifest text = Ok expected ->
  (forall p data st', fs_lookup stage p = Some (Node (Regular data) st') ->
     p <> manifest_rel -> PyDict.get expected (path_str p) = Some (Sha256.hexdigest data)) ->
  (forall k, k ∈ PyDict.keys expected ->
     exists p, is_file stage p = true /\ p <> manifest_rel /\ k = path_str p) ->
  verify_manifest (extracted stage m') = Ok true.
Proof.
  intros Hman Hparse Hlisted Hkeys. unfold verify_manifest.
  rewrite extracted_lookup, Hman. cbn. rewrite Hparse. cbn [bind].
  destruct (verify_walk_clean m' expected Hlisted (rglob (extracted stage m')) ∅)
    as (found & Hw & Hin).
  { apply Forall_forall. intros p Hp. unfold extracted, rglob in Hp.
    rewrite List.map_map in Hp. simpl in Hp. rewrite List.map_id in Hp.
    rewrite sorted_paths_perm in Hp. exact Hp. }
  rewrite Hw. cbn [bind]. apply check_missing_ok. apply Forall_forall.
  intros k Hk. destruct (Hkeys k Hk) as (p & Hfile & Hne & ->).
  apply Hin; [|exact Hfile|exact Hne].
  unfold extracted, rglob. rewrite List.map_map. simpl. rewrite List.map_id.
  rewrite sorted_paths_perm.
  destruct (decide (p ∈ rglob stage)) as [|Hout]; [assumption|].
  apply fs_lookup_None in Hout. unfold is_file in Hfile. rewrite Hout in Hfile.
  discriminate.
Qed.

End CleanVerify.

Section RoundTrip.

Lemma dict_get_None (d : PyDict.t) (k : string) :
  k ∉ PyDict.keys d -> PyDict.get d k = None.
Proof.
  unfold PyDict.keys. induction d as [|[k' v] d IH]; simpl; [reflexivity|].
  rewrite not_elem_of_cons. intros [Hne Hout].
  destruct (String.eqb k' k) eqn:E; [|auto].
  apply String.eqb_eq in E. congruence.
Qed.

Lemma dict_get_keys (d : PyDict.t) (k : string) :
  k ∈ PyDict.keys d -> exists v, PyDict.get d k = Some v.
Proof.
  unfold PyDict.keys. induction d as [|[k' v] d IH]; simpl; intros Hin.
  - apply elem_of_nil in Hin. contradiction.
  - destruct (String.eqb k' k) eqn:E; [eauto|].
    apply elem_of_cons in Hin as [->|Hin]; [|auto].
    rewrite String.eqb_refl in E. discriminate.
Qed.

Lemma reads_back_spec (hashes : PyDict.t) :
  reads_back hashes = true ->
  exists text expected,
    manifest_text hashes = Ok text
    /\ parse_manifest text = Ok expected
    /\ forall k, PyDict.get expected k = PyDict.get hashes k.
Proof.
  unfold reads_back. destruct (manifest_text hashes) as [text|]; [|discriminate].
  destruct (parse_manifest text) as [expected|] eqn:Hparse; [|discriminate].
  intros H. exists text, expected. split; [reflexivity|]. split; [exact Hparse|].
  intros k. rewrite List.forallb_forall in H.
  destruct (decide (k ∈ PyDict.keys hashes ++ PyDict.keys expected)) as [Hin|Hout].
  - apply list_elem_of_In in Hin. apply H in Hin. apply bool_decide_eq_true in Hin. exact Hin.
  - apply not_elem_of_app in Hout as [H1 H2].
    rewrite (dict_get_None _ _ H1), (dict_get_None _ _ H2). reflexivity.
Qed.

Section Hashes.

Context (stage : tree).
Hypothesis Hclean : clean_stage stage = true.
Hypothesis Hskip :
  forall p, p ∈ rglob stage -> is_file stage p = true -> skipped_by_generate p = false.

(** The mapping [generate_manifest] builds: the digest of every regular
    file, under its path, and nothing else. *)
Lemma hash_files_clean (todo : list path) (hashes0 : PyDict.t) :
  Forall (fun p => p ∈ rglob stage) todo ->
  NoDup todo ->
  exists hashes,
    hash_files stage todo hashes0 = Ok hashes
    /\ (forall p data st, p ∈ todo -> fs_lookup stage p = Some (Node (Regular data) st) ->
          PyDict.get hashes (path_str p) = Some (Sha256.hexdigest data))
    /\ (forall k, (forall p, p ∈ todo -> is_file stage p = true -> path_str p <> k) ->
          PyDict.get hashes k = PyDict.get hashes0 k).
Proof.
  intros Hall. revert hashes0. induction Hall as [|q todo Hq Hall IH]; intros hashes0 Hnd.
  - exists hashes0. split; [reflexivity|]. split; [|reflexivity].
    intros p data st Hin. apply elem_of_nil in Hin. contradiction.
  - apply NoDup_cons in Hnd as [Hqout Hnd]. cbn [hash_files].
    destruct (is_file stage q) eqn:Hfile; cbn [negb].
    + rewrite (Hskip q Hq Hfile).
      destruct (clean_stage_at stage q Hclean Hq) as (Hwf & _ & Hn & _).
      unfold is_file in Hfile. unfold calculate_file_hash.
      rewrite (node_at_lookup _ _ Hq) in Hfile |- *.
      unfold clean_node in Hn.
      destruct (node_at stage q) as [[data| |] st] eqn:Hnq; try discriminate.
      simpl in Hn. rewrite Hn. cbn [bind].
      destruct (IH (PyDict.set hashes0 (path_str q) (Sha256.hexdigest data)) Hnd)
        as (hashes & Hh & Ha & Hb).
      assert (forall p, p ∈ todo -> is_file stage p = true -> path_str p <> path_str q)
        as Hother.
      { intros p Hp _ Heq. apply Hqout.
        rewrite Forall_forall in Hall.
        destruct (clean_stage_at stage p Hclean (Hall p Hp)) as (Hwfp & _).
        rewrite <- (path_str_inj p q Hwfp Hwf Heq). exact Hp. }
      exists hashes. split; [exact Hh|]. split.
      * intros p data' st' Hin Hl. apply elem_of_cons in Hin as [->|Hin]; [|eauto].
        rewrite (node_at_lookup _ _ Hq), Hnq in Hl.
        assert (data' = data) as -> by congruence.
        rewrite (Hb _ Hother). apply dict_get_set_eq.
      * intros k Hk. rewrite Hb.
        -- apply dict_get_set_ne. apply Hk; [left|].
           unfold is_file. rewrite (node_at_lookup _ _ Hq), Hnq. reflexivity.
        -- intros p Hp. apply Hk. right. exact Hp.
    + destruct (IH hashes0 Hnd) as (hashes & Hh & Ha & Hb).
      exists hashes. split; [exact Hh|]. split.
      * intros p data st Hin Hl. apply elem_of_cons in Hin as [->|Hin]; [|eauto].
        unfold is_file in Hfile. rewrite Hl in Hfile. discriminate.
      * intros k Hk. apply Hb. intros p Hp. apply Hk. right. exact Hp.
Qed.

End Hashes.

End RoundTrip.

Section RoundTripTheorem.

Lemma fs_lookup_snoc (fs : tree) (q p : path) (n : node) :
  fs_lookup (fs ++ [(q, n)]) p =
  match fs_lookup fs p with
  | Some x => Some x
  | None => if path_eqb q p then Some n else None
  end.
Proof.
  induction fs as [|[r n'] fs IH]; simpl; [reflexivity|].
  destruct (path_eqb r p); [reflexivity|exact IH].
Qed.

Lemma is_dir_snoc (fs : tree) (q d : path) (n : node) :
  is_dir fs d = true -> is_dir (fs ++ [(q, n)]) d = true.
Proof.
  unfold is_dir. rewrite fs_lookup_snoc.
  destruct (fs_lookup fs d) as [[[data| |] st]|]; try discriminate. reflexivity.
Qed.

(** Writing the manifest into a clean staging directory that has its
    [manifest] directory keeps it clean. *)
Lemma clean_stage_with_manifest (m : machine) (stage : tree) (text : string) :
  clean_stage stage = true ->
  is_dir stage ["manifest"] = true ->
  fs_lookup stage manifest_rel = None ->
  clean_stage (stage ++ [(manifest_rel, Node (Regular text) (new_stat m 438))]) = true.
Proof.
  intros Hc Hdir Hnew. unfold clean_stage. apply andb_true_iff. split.
  - apply bool_decide_eq_true. unfold rglob. rewrite List.map_app. simpl.
    apply NoDup_app. split; [apply clean_stage_NoDup; exact Hc|]. split.
    + intros p Hp Hq. apply list_elem_of_singleton in Hq. subst p.
      apply fs_lookup_None in Hnew. contradiction.
    + apply NoDup_singleton.
  - rewrite List.forallb_app. apply andb_true_iff. split.
    + apply List.forallb_forall. intros [p n] Hin. apply list_elem_of_In in Hin.
      destruct (clean_stage_entry stage p n Hc Hin) as (Hwf & Hname & Hn & Hpre).
      cbn [fst snd]. rewrite Hwf, Hn. apply String.eqb_neq in Hname. rewrite Hname.
      simpl. apply List.forallb_forall. intros d Hd. apply list_elem_of_In in Hd.
      rewrite Forall_forall in Hpre. apply is_dir_snoc. auto.
    + cbn [List.forallb fst snd]. rewrite andb_true_r.
      apply andb_true_iff. split; [reflexivity|].
      cbn [proper_prefixes manifest_rel List.length Nat.sub List.seq List.map List.firstn
           List.forallb].
      rewrite andb_true_r. apply is_dir_snoc. exact Hdir.
Qed.

Lemma ready_stage_facts (stage : tree) :
  ready_stage stage = true ->
  clean_stage stage = true
  /\ is_dir stage ["manifest"] = true
  /\ fs_lookup stage manifest_rel = None
  /\ (forall p, p ∈ rglob stage -> is_file stage p = true -> skipped_by_generate p = false)
  /\ manifest_reads_back stage = true.
Proof.
  unfold ready_stage. intros H.
  apply andb_true_iff in H as [H Hback].
  apply andb_true_iff in H as [H Hskip].
  apply andb_true_iff in H as [H Hnew].
  apply andb_true_iff in H as [Hc Hdir].
  repeat split; try assumption.
  - unfold exists_ in Hnew. destruct (fs_lookup stage manifest_rel); [discriminate|reflexivity].
  - intros p Hp Hfile. rewrite List.forallb_forall in Hskip.
    apply list_elem_of_In in Hp. specialize (Hskip p Hp). rewrite Hfile in Hskip.
    simpl in Hskip. apply negb_true_iff in Hskip. exact Hskip.
Qed.

(** Round trip.  A staging directory of readable regular files and
    directories, complete with parent directories, with no entry named
    [.DS_Store], no second [sha256sum.txt] below [manifest], and names that
    survive the line format of the manifest, is bundled without error, and
    the bundle verifies, on any machine. *)
Theorem round_trip_ready_stage (env : environ) (m m' : machine) (stage : tree)
    (bundle_path : string) :
  ready_stage stage = true ->
  exists staged b,
    generate_manifest m stage = Ok staged
    /\ write_bundle env m staged = (b, None)
    /\ verify_bundle m' bundle_path (Some b) None None None
       = Ok (mkVerifyResult bundle_path None true true None).
Proof.
  intros Hready.
  destruct (ready_stage_facts stage Hready) as (Hc & Hdir & Hnew & Hskip & Hback).
  unfold manifest_reads_back in Hback.
  destruct (hash_files_clean stage Hc Hskip (sorted_paths (rglob stage)) [])
    as (hashes & Hh & Ha & Hb).
  { apply sorted_in_stage. }
  { rewrite sorted_paths_perm. apply clean_stage_NoDup. exact Hc. }
  rewrite Hh in Hback.
  destruct (reads_back_spec hashes Hback) as (text & expected & Htext & Hparse & Hsame).
  set (staged := stage ++ [(manifest_rel, Node (Regular text) (new_stat m 438))]).
  assert (generate_manifest m stage = Ok staged) as Hgen.
  { unfold generate_manifest, mkdir_exist_ok. unfold is_dir in Hdir.
    destruct (fs_lookup stage ["manifest"]) as [[[data| |] st]|]; try discriminate.
    cbn [bind]. rewrite Hh. cbn [bind]. rewrite Htext. cbn [bind].
    unfold write_file. rewrite Hnew. reflexivity. }
  assert (clean_stage staged = true) as Hcs
    by (apply clean_stage_with_manifest; assumption).
  exists staged, (write_bundle env m staged).1.
  split; [exact Hgen|]. split.
  { rewrite (write_bundle_clean env m staged Hcs). reflexivity. }
  assert (fs_lookup staged manifest_rel = Some (Node (Regular text) (new_stat m 438)))
    as Hman.
  { unfold staged. rewrite fs_lookup_snoc, Hnew. reflexivity. }
  assert (forall p, p <> manifest_rel -> fs_lookup staged p = fs_lookup stage p) as Hsame_l.
  { intros p Hp. unfold staged. rewrite fs_lookup_snoc.
    destruct (fs_lookup stage p); [reflexivity|].
    destruct (path_eqb manifest_rel p) eqn:E; [|reflexivity].
    apply path_eqb_eq in E. congruence. }
  assert (forall p, p <> manifest_rel -> fs_lookup stage p <> None -> p ∈ rglob stage)
    as Hin_stage.
  { intros p _ Hl. destruct (decide (p ∈ rglob stage)) as [|Hout]; [assumption|].
    apply fs_lookup_None in Hout. contradiction. }
  unfold verify_bundle.
  assert (getmembers (write_bundle env m staged).1
          = Ok (tar_members (write_bundle env m staged).1)) as ->.
  { rewrite (write_bundle_clean env m staged Hcs). unfold getmembers. cbn.
    destruct (List.map _ _); reflexivity. }
  rewrite (extract_bundle_clean env m staged Hcs m').
  assert (verify_manifest (extracted staged m') = Ok true) as Hv;
    [|unfold extracted in Hv; rewrite Hv; reflexivity].
  apply (verify_extracted_clean staged Hcs m' text (new_stat m 438) expected Hman Hparse).
  - intros p data st' Hl Hne. rewrite Hsame. rewrite (Hsame_l p Hne) in Hl.
    apply (Ha p data st'); [|exact Hl].
    rewrite sorted_paths_perm. apply Hin_stage; [exact Hne|congruence].
  - intros k Hk. apply dict_get_keys in Hk as [v Hv]. rewrite Hsame in Hv.
    destruct (decide (Exists (fun p => is_file stage p = true /\ path_str p = k)
                             (sorted_paths (rglob stage)))) as [Hex|Hnone].
    + apply Exists_exists in Hex as (p & Hp & Hfile & <-).
      rewrite sorted_paths_perm in Hp.
      assert (p <> manifest_rel) as Hne.
      { intros ->. unfold is_file in Hfile. rewrite Hnew in Hfile. discriminate. }
      exists p. split; [|auto]. unfold is_file. rewrite (Hsame_l p Hne). exact Hfile.
    + rewrite Hb in Hv; [discriminate|].
      intros p Hp Hfile Heq. apply Hnone. apply Exists_exists. eauto.
Qed.

End RoundTripTheorem.

(** Round trip of a build.  When the staging directory that [create_bundle]
    assembles is such a directory, the bundle is written and verifies. *)
Theorem round_trip_create_bundle (env : environ) (m m' : machine) (i : inputs)
    (bundle_path : string) (previous : option bundle_file) (stage : tree) :
  stage_inputs env m i = Ok stage ->
  ready_stage stage = true ->
  exists b payload,
    create_bundle env m i bundle_path previous = (Some b, Ok payload)
    /\ verify_bundle m' bundle_path (Some b) None None None
       = Ok (mkVerifyResult bundle_path None true true None).
Proof.
  intros Hstage Hready.
  destruct (round_trip_ready_stage env m m' stage bundle_path Hready)
    as (staged & b & Hgen & Hwrite & Hverify).
  unfold create_bundle, stage_tree. rewrite Hstage. cbn [bind]. rewrite Hgen, Hwrite.
  eauto.
Qed.

(** ** [verify_manifest]: soundness and the detection of changes *)

Section Verifier.

Lemma verify_walk_skip (fs : tree) (expected : PyDict.t) (p : path) (rest : list path)
    (found : gset string) :
  checked fs p = false ->
  verify_walk fs expected (p :: rest) found = verify_walk fs expected rest found.
Proof.
  unfold checked. intros H. cbn [verify_walk].
  destruct (is_file fs p); cbn [negb andb] in *; [|reflexivity].
  destruct (String.eqb (path_name p) ".DS_Store"); cbn [negb andb] in *; [reflexivity|].
  destruct (String.eqb (path_str p) (path_str manifest_rel)); [reflexivity|discriminate].
Qed.

Lemma verify_walk_check (fs : tree) (expected : PyDict.t) (p : path) (rest : list path)
    (found : gset string) :
  checked fs p = true ->
  verify_walk fs expected (p :: rest) found =
  match PyDict.get expected (path_str p) with
  | None => Raise (UnexpectedFile (path_str p))
  | Some want =>
    curr <-! calculate_file_hash fs p;
    if negb (String.eqb curr want)
    then Raise (HashMismatch (path_str p) want curr)
    else verify_walk fs expected rest ({[path_str p]} ∪ found)
  end.
Proof.
  unfold checked. intros H. cbn [verify_walk].
  destruct (is_file fs p); cbn [negb andb] in *; [|discriminate].
  destruct (String.eqb (path_name p) ".DS_Store"); cbn [negb andb] in *; [discriminate|].
  destruct (String.eqb (path_str p) (path_str manifest_rel)); [discriminate|reflexivity].
Qed.

(** What a walk that ends without exception has established. *)
Lemma verify_walk_inv (fs : tree) (expected : PyDict.t) (todo : list path)
    (found found' : gset string) :
  verify_walk fs expected todo found = Ok found' ->
  (forall k, k ∈ found' <-> k ∈ found \/ exists p, p ∈ todo /\ checked fs p = true /\ path_str p = k)
  /\ (forall p, p ∈ todo -> checked fs p = true ->
        exists h, calculate_file_hash fs p = Ok h /\ PyDict.get expected (path_str p) = Some h).
Proof.
  revert found. induction todo as [|p rest IH]; intros found H.
  - cbn in H. injection H as <-. split.
    + intros k. split; [auto|]. intros [Hk|(p & Hp & _)]; [exact Hk|].
      apply elem_of_nil in Hp. contradiction.
    + intros p Hp. apply elem_of_nil in Hp. contradiction.
  - destruct (checked fs p) eqn:Hc.
    + rewrite verify_walk_check in H by exact Hc.
      destruct (PyDict.get expected (path_str p)) as [want|] eqn:Hget; [|discriminate].
      destruct (calculate_file_hash fs p) as [curr|e] eqn:Hh; [|discriminate].
      cbn [bind] in H.
      destruct (String.eqb curr want) eqn:Heq; cbn [negb] in H; [|discriminate].
      apply String.eqb_eq in Heq. subst want.
      destruct (IH _ H) as [Hfound Hall]. split.
      * intros k. rewrite Hfound. rewrite elem_of_union, elem_of_singleton. split.
        -- intros [[->|Hk]|(q & Hq & Hqc & Hqs)].
           ++ right. exists p. split; [left|auto].
           ++ left. exact Hk.
           ++ right. exists q. split; [right; exact Hq|auto].
        -- intros [Hk|(q & Hq & Hqc & Hqs)]; [left; right; exact Hk|].
           apply elem_of_cons in Hq as [->|Hq]; [left; left; auto|].
           right. exists q. auto.
      * intros q Hq Hqc. apply elem_of_cons in Hq as [->|Hq]; [eauto|auto].
    + rewrite verify_walk_skip in H by exact Hc.
      destruct (IH _ H) as [Hfound Hall]. split.
      * intros k. rewrite Hfound. split.
        -- intros [Hk|(q & Hq & Hqc & Hqs)]; [left; exact Hk|].
           right. exists q. split; [right; exact Hq|auto].
        -- intros [Hk|(q & Hq & Hqc & Hqs)]; [left; exact Hk|].
           apply elem_of_cons in Hq as [->|Hq]; [congruence|].
           right. exists q. auto.
      * intros q Hq Hqc. apply elem_of_cons in Hq as [->|Hq]; [congruence|auto].
Qed.

(** A walk over entries that all match the manifest ends without exception. *)
Lemma verify_walk_total (fs : tree) (expected : PyDict.t) (todo : list path)
    (found : gset string) :
  (forall p, p ∈ todo -> checked fs p = true ->
     exists h, calculate_file_hash fs p = Ok h /\ PyDict.get expected (path_str p) = Some h) ->
  exists found', verify_walk fs expected todo found = Ok found'.
Proof.
  revert found. induction todo as [|p rest IH]; intros found Hall.
  - exists found. reflexivity.
  - assert (forall q, q ∈ rest -> checked fs q = true ->
              exists h, calculate_file_hash fs q = Ok h
                        /\ PyDict.get expected (path_str q) = Some h) as Hrest.
    { intros q Hq. apply Hall. right. exact Hq. }
    destruct (checked fs p) eqn:Hc.
    + rewrite verify_walk_check by exact Hc.
      destruct (Hall p) as (h & Hh & Hget); [left|exact Hc|].
      rewrite Hget, Hh. cbn [bind]. rewrite String.eqb_refl. cbn [negb].
      apply IH. exact Hrest.
    + rewrite verify_walk_skip by exact Hc. apply IH. exact Hrest.
Qed.

Lemma checked_ext (fs fs' : tree) (p : path) :
  fs_lookup fs' p = fs_lookup fs p -> checked fs' p = checked fs p.
Proof. unfold checked, is_file. intros ->. reflexivity. Qed.

Lemma hash_ext (fs fs' : tree) (p : path) :
  fs_lookup fs' p = fs_lookup fs p -> calculate_file_hash fs' p = calculate_file_hash fs p.
Proof. unfold calculate_file_hash. intros ->. reflexivity. Qed.

Lemma check_missing_inv (keys : list string) (found : gset string) (b : bool) :
  check_missing keys found = Ok b -> b = true /\ forall k, k ∈ keys -> k ∈ found.
Proof.
  induction keys as [|k keys IH]; cbn [check_missing].
  - intros [= <-]. split; [reflexivity|]. intros k Hk. apply elem_of_nil in Hk. contradiction.
  - destruct (bool_decide (k ∈ found)) eqn:Hk; [|discriminate].
    apply bool_decide_eq_true in Hk. intros H. destruct (IH H) as [-> Hall].
    split; [reflexivity|]. intros k' Hk'. apply elem_of_cons in Hk' as [->|Hk']; auto.
Qed.

Lemma check_missing_first (keys : list string) (found : gset string) (x : string) :
  x ∈ keys -> x ∉ found -> (forall k, k ∈ keys -> k <> x -> k ∈ found) ->
  check_missing keys found = Raise (MissingFile x).
Proof.
  induction keys as [|k keys IH]; intros Hx Hout Hall.
  - apply elem_of_nil in Hx. contradiction.
  - cbn [check_missing]. destruct (decide (k = x)) as [->|Hne].
    + rewrite bool_decide_eq_false_2 by exact Hout. reflexivity.
    + rewrite bool_decide_eq_true_2 by (apply Hall; [left|exact Hne]).
      apply IH; [|exact Hout|].
      * apply elem_of_cons in Hx as [->|Hx]; [contradiction|exact Hx].
      * intros k' Hk'. apply Hall. right. exact Hk'.
Qed.

Lemma dict_keys_get (d : PyDict.t) (k v : string) :
  PyDict.get d k = Some v -> k ∈ PyDict.keys d.
Proof.
  induction d as [|[k' v'] d IH]; cbn; [discriminate|].
  destruct (String.eqb k' k) eqn:E.
  - apply String.eqb_eq in E. subst. intros _. left.
  - intros H. right. apply IH. exact H.
Qed.

(** The shape of a successful verification. *)
Lemma verify_manifest_Ok (fs : tree) (b : bool) :
  verify_manifest fs = Ok b ->
  exists expected found,
    expected_of fs = Some expected
    /\ verify_walk fs expected (rglob fs) ∅ = Ok found
    /\ check_missing (PyDict.keys expected) found = Ok b.
Proof.
  unfold verify_manifest, expected_of.
  destruct (fs_lookup fs manifest_rel) as [[[bytes| |] st]|]; try discriminate.
  destruct (st_readable st); [|discriminate].
  destruct (parse_manifest bytes) as [expected|e]; [|discriminate]. cbn [bind].
  destruct (verify_walk fs expected (rglob fs) ∅) as [found|e] eqn:Hw; [|discriminate].
  cbn [bind]. intros H. eauto.
Qed.

Lemma verify_manifest_expected (fs : tree) (expected : PyDict.t) :
  expected_of fs = Some expected ->
  verify_manifest fs =
  (found <-! verify_walk fs expected (rglob fs) ∅; check_missing (PyDict.keys expected) found).
Proof.
  unfold verify_manifest, expected_of.
  destruct (fs_lookup fs manifest_rel) as [[[bytes| |] st]|]; try discriminate.
  destruct (st_readable st); [|discriminate].
  destruct (parse_manifest bytes) as [e|e]; [|discriminate]. intros [= ->]. reflexivity.
Qed.

Lemma checked_file (fs : tree) (p : path) (h : string) :
  checked fs p = true -> calculate_file_hash fs p = Ok h ->
  exists data st, fs_lookup fs p = Some (Node (Regular data) st)
                  /\ st_readable st = true /\ h = Sha256.hexdigest data.
Proof.
  unfold checked, is_file, calculate_file_hash.
  destruct (fs_lookup fs p) as [[[data| |] st]|]; try discriminate.
  intros _. destruct (st_readable st) eqn:Hr; [|discriminate]. intros [= <-]. eauto.
Qed.

End Verifier.

(** X1.  When [verify_manifest] returns, it returns [True], the manifest
    could be read, and the manifest and the tree agree in both directions:
    every regular file of the tree other than a [.DS_Store] file and the
    manifest itself is listed with the SHA-256 digest of its content, and
    every path the manifest lists is such a file. *)
Theorem verify_manifest_sound (fs : tree) (b : bool) :
  verify_manifest fs = Ok b ->
  b = true
  /\ exists expected,
       expected_of fs = Some expected
       /\ (forall p, p ∈ rglob fs -> checked fs p = true ->
             exists data st, fs_lookup fs p = Some (Node (Regular data) st)
               /\ PyDict.get expected (path_str p) = Some (Sha256.hexdigest data))
       /\ (forall k, k ∈ PyDict.keys expected ->
             exists p, p ∈ rglob fs /\ checked fs p = true /\ path_str p = k).
Proof.
  intros H. apply verify_manifest_Ok in H as (expected & found & He & Hw & Hm).
  apply check_missing_inv in Hm as [-> Hkeys]. split; [reflexivity|].
  exists expected. split; [exact He|].
  apply verify_walk_inv in Hw as [Hfound Hall]. split.
  - intros p Hp Hc. destruct (Hall p Hp Hc) as (h & Hh & Hget).
    destruct (checked_file fs p h Hc Hh) as (data & st & Hl & _ & ->). eauto.
  - intros k Hk. apply Hkeys, Hfound in Hk as [Hk|Hk]; [|exact Hk].
    apply elem_of_empty in Hk. contradiction.
Qed.

Section Tamper.

Context (l1 l2 : tree) (p : path).
Hypothesis Hfresh : p ∉ rglob (l1 ++ l2).

Lemma lookup_other (n : node) (q : path) :
  q ∈ rglob (l1 ++ l2) -> fs_lookup (l1 ++ (p, n) :: l2) q = fs_lookup (l1 ++ l2) q.
Proof.
  intros Hq. apply fs_lookup_insert_ne. intros ->. contradiction.
Qed.

Lemma rglob_insert (n : node) :
  rglob (l1 ++ (p, n) :: l2) = rglob l1 ++ p :: rglob l2.
Proof. unfold rglob. rewrite List.map_app. reflexivity. Qed.

Lemma expected_of_insert (n : node) :
  p <> manifest_rel ->
  expected_of (l1 ++ (p, n) :: l2) = expected_of (l1 ++ l2).
Proof.
  intros Hne. unfold expected_of. rewrite fs_lookup_insert_ne by congruence. reflexivity.
Qed.

Lemma walk_part (n : node) (expected : PyDict.t) (todo : list path) (found : gset string) :
  (forall q, q ∈ todo -> q ∈ rglob (l1 ++ l2)) ->
  verify_walk (l1 ++ (p, n) :: l2) expected todo found
  = verify_walk (l1 ++ l2) expected todo found.
Proof.
  intros Hin. apply verify_walk_ext. intros q Hq. apply lookup_other. auto.
Qed.

Lemma rglob_app_l (q : path) : q ∈ rglob l1 -> q ∈ rglob (l1 ++ l2).
Proof. unfold rglob. rewrite List.map_app, elem_of_app. auto. Qed.

Lemma rglob_app_r (q : path) : q ∈ rglob l2 -> q ∈ rglob (l1 ++ l2).
Proof. unfold rglob. rewrite List.map_app, elem_of_app. auto. Qed.

Lemma rglob_app : rglob (l1 ++ l2) = rglob l1 ++ rglob l2.
Proof. unfold rglob. apply List.map_app. Qed.

End Tamper.

Lemma changed_content_raises
    (l1 l2 : tree) (p : path) (data data' : string) (st st' : stat) :
  p ∉ rglob (l1 ++ l2) ->
  path_name p <> ".DS_Store" ->
  path_str p <> path_str manifest_rel ->
  Sha256.hexdigest data' <> Sha256.hexdigest data ->
  st_readable st' = true ->
  verify_manifest (l1 ++ (p, Node (Regular data) st) :: l2) = Ok true ->
  verify_manifest (l1 ++ (p, Node (Regular data') st') :: l2)
  = Raise (HashMismatch (path_str p) (Sha256.hexdigest data) (Sha256.hexdigest data')).
Proof.
  intros Hfresh Hname Hstr Hdiff Hread Hok.
  assert (p <> manifest_rel) as Hne by (intros ->; apply Hstr; reflexivity).
  apply verify_manifest_Ok in Hok as (expected & found & He & Hw & _).
  rewrite (expected_of_insert l1 l2 p _ Hne) in He.
  rewrite (verify_manifest_expected _ expected)
    by (rewrite (expected_of_insert l1 l2 p _ Hne); exact He).
  rewrite rglob_insert in Hw |- *.
  rewrite verify_walk_app in Hw |- *.
  rewrite (walk_part l1 l2 p Hfresh) in Hw |- * by (apply rglob_app_l).
  destruct (verify_walk (l1 ++ l2) expected (rglob l1) ∅) as [f1|e]; [|discriminate].
  cbn [bind] in Hw |- *.
  assert (forall d s, checked (l1 ++ (p, Node (Regular d) s) :: l2) p = true) as Hc.
  { intros d s. unfold checked, is_file.
    rewrite (fs_lookup_insert_fresh l1 l2 p _ Hfresh).
    apply String.eqb_neq in Hname, Hstr. rewrite Hname, Hstr. reflexivity. }
  rewrite verify_walk_check in Hw |- * by apply Hc.
  destruct (PyDict.get expected (path_str p)) as [want|]; [|discriminate].
  unfold calculate_file_hash in Hw |- *.
  rewrite (fs_lookup_insert_fresh l1 l2 p (Node (Regular data) st) Hfresh) in Hw.
  rewrite (fs_lookup_insert_fresh l1 l2 p (Node (Regular data') st') Hfresh).
  rewrite Hread. destruct (st_readable st); [|discriminate]. cbn [bind] in Hw |- *.
  destruct (String.eqb (Sha256.hexdigest data) want) eqn:E; [|discriminate].
  apply String.eqb_eq in E. subst want.
  apply String.eqb_neq in Hdiff. rewrite Hdiff. reflexivity.
Qed.

(** X2.  If a tree verifies and a regular file that is checked is then
    removed from it, no other entry having its relative path, then
    [verify_manifest] raises the missing-file error that names this path. *)
Theorem verify_manifest_detects_removed_file
    (l1 l2 : tree) (p : path) (data : string) (st : stat) :
  Forall (fun q => path_str q <> path_str p) (rglob (l1 ++ l2)) ->
  path_name p <> ".DS_Store" ->
  path_str p <> path_str manifest_rel ->
  verify_manifest (l1 ++ (p, Node (Regular data) st) :: l2) = Ok true ->
  verify_manifest (l1 ++ l2) = Raise (MissingFile (path_str p)).
Proof.
  intros Hothers Hname Hstr Hok. rewrite Forall_forall in Hothers.
  assert (p ∉ rglob (l1 ++ l2)) as Hfresh.
  { intros Hin. apply (Hothers p Hin). reflexivity. }
  assert (p <> manifest_rel) as Hne by (intros ->; apply Hstr; reflexivity).
  set (n := Node (Regular data) st) in *.
  apply verify_manifest_Ok in Hok as (expected & found & He & Hw & Hm).
  rewrite (expected_of_insert l1 l2 p _ Hne) in He.
  rewrite (verify_manifest_expected _ expected He).
  apply check_missing_inv in Hm as [_ Hkeys].
  pose proof (verify_walk_inv _ _ _ _ _ Hw) as [Hfound Hall].
  assert (checked (l1 ++ (p, n) :: l2) p = true) as Hc.
  { unfold checked, is_file. rewrite (fs_lookup_insert_fresh l1 l2 p _ Hfresh).
    apply String.eqb_neq in Hname, Hstr. subst n. rewrite Hname, Hstr. reflexivity. }
  destruct (verify_walk_total (l1 ++ l2) expected (rglob (l1 ++ l2)) ∅) as [found' Hw'].
  { intros q Hq Hqc.
    rewrite <- (checked_ext _ _ q (lookup_other l1 l2 p Hfresh n q Hq)) in Hqc.
    destruct (Hall q) as (h & Hh & Hget); [|exact Hqc|].
    - rewrite rglob_insert. rewrite rglob_app in Hq.
      apply elem_of_app in Hq as [Hq|Hq]; apply elem_of_app; [left|right; right]; exact Hq.
    - exists h. split; [|exact Hget].
      rewrite <- Hh. symmetry. apply hash_ext. apply lookup_other; assumption. }
  rewrite Hw'. cbn [bind].
  pose proof (verify_walk_inv _ _ _ _ _ Hw') as [Hfound' _].
  apply check_missing_first.
  - destruct (Hall p) as (h & _ & Hget); [|exact Hc|].
    + rewrite rglob_insert. apply elem_of_app. right. left.
    + apply dict_keys_get in Hget. exact Hget.
  - intros Hin. apply Hfound' in Hin as [Hin|(q & Hq & _ & Hqs)].
    + apply elem_of_empty in Hin. contradiction.
    + apply (Hothers q Hq Hqs).
  - intros k Hk Hkp. apply Hfound'. right.
    apply Hkeys, Hfound in Hk as [Hk|(q & Hq & Hqc & Hqs)].
    + apply elem_of_empty in Hk. contradiction.
    + rewrite rglob_insert in Hq.
      assert (q ∈ rglob (l1 ++ l2)) as Hq'.
      { rewrite rglob_app. apply elem_of_app in Hq as [Hq|Hq]; apply elem_of_app; [left; exact Hq|].
        apply elem_of_cons in Hq as [->|Hq]; [congruence|right; exact Hq]. }
      exists q. split; [exact Hq'|]. split; [|exact Hqs].
      rewrite <- Hqc. symmetry. apply checked_ext. apply lookup_other; assumption.
Qed.

(** X3.  An entry that is a [.DS_Store] file, or that is not a regular
    file, has no influence on [verify_manifest]: with the entry added
    anywhere in the listing (at a path not yet present and other than the
    manifest's), the call returns or raises what it did without it. *)
Theorem verify_manifest_ignores_unchecked_entries (l1 l2 : tree) (p : path) (n : node) :
  p ∉ rglob (l1 ++ l2) ->
  p <> manifest_rel ->
  path_name p = ".DS_Store" \/ (forall data, n_kind n <> Regular data) ->
  verify_manifest (l1 ++ (p, n) :: l2) = verify_manifest (l1 ++ l2).
Proof.
  intros Hfresh Hne Hskip.
  assert (checked (l1 ++ (p, n) :: l2) p = false) as Hc.
  { unfold checked, is_file. rewrite (fs_lookup_insert_fresh l1 l2 p _ Hfresh).
    destruct Hskip as [->|Hk].
    - cbn. apply andb_false_iff. left. apply andb_false_r.
    - destruct n as [[data| |] st]; [exfalso; apply (Hk data); reflexivity|reflexivity..]. }
  unfold verify_manifest. rewrite fs_lookup_insert_ne by congruence.
  destruct (fs_lookup (l1 ++ l2) manifest_rel) as [[[bytes| |] st]|]; try reflexivity.
  destruct (st_readable st); [|reflexivity].
  destruct (parse_manifest bytes) as [expected|e]; [|reflexivity]. cbn [bind].
  rewrite rglob_insert, rglob_app, !verify_walk_app.
  rewrite (walk_part l1 l2 p Hfresh) by (apply rglob_app_l).
  destruct (verify_walk (l1 ++ l2) expected (rglob l1) ∅) as [f1|e]; [|reflexivity].
  cbn [bind]. rewrite verify_walk_skip by exact Hc.
  rewrite (walk_part l1 l2 p Hfresh) by (apply rglob_app_r). reflexivity.
Qed.

(** X4.  If a tree verifies and the content of a checked regular file is
    then replaced by content with another digest, the file staying
    readable, then [verify_manifest] raises the hash-mismatch error with the
    path, the digest the manifest holds and the digest of the new content. *)
Theorem verify_manifest_detects_changed_content
    (l1 l2 : tree) (p : path) (data data' : string) (st st' : stat) :
  p ∉ rglob (l1 ++ l2) ->
  path_name p <> ".DS_Store" ->
  path_str p <> path_str manifest_rel ->
  Sha256.hexdigest data' <> Sha256.hexdigest data ->
  st_readable st' = true ->
  verify_manifest (l1 ++ (p, Node (Regular data) st) :: l2) = Ok true ->
  verify_manifest (l1 ++ (p, Node (Regular data') st') :: l2)
  = Raise (HashMismatch (path_str p) (Sha256.hexdigest data) (Sha256.hexdigest data')).
Proof. apply changed_content_raises. Qed.

(** ** [generate_manifest]: idempotence and listing order *)

Section Lists.

Context {A : Type}.

Lemma filter_perm (f : A -> bool) (l1 l2 : list A) :
  l1 ≡ₚ l2 -> List.filter f l1 ≡ₚ List.filter f l2.
Proof.
  induction 1 as [|x l1 l2 _ IH|x y l|l1 l2 l3 _ IH1 _ IH2]; cbn [List.filter].
  - reflexivity.
  - destruct (f x); [constructor|]; exact IH.
  - destruct (f x), (f y); try reflexivity. apply perm_swap.
  - etransitivity; eassumption.
Qed.

Lemma filter_sorted (R : relation A) (f : A -> bool) (l : list A) :
  StronglySorted R l -> StronglySorted R (List.filter f l).
Proof.
  induction 1 as [|x l _ IH Hx]; cbn [List.filter]; [constructor|].
  destruct (f x); [|exact IH]. constructor; [exact IH|].
  apply Forall_forall. intros y Hy. apply list_elem_of_In, List.filter_In in Hy as [Hy _].
  rewrite Forall_forall in Hx. apply Hx. apply list_elem_of_In. exact Hy.
Qed.

Lemma filter_bool_ext_in (f g : A -> bool) (l : list A) :
  (forall x, x ∈ l -> f x = g x) -> List.filter f l = List.filter g l.
Proof.
  intros H. apply List.filter_ext_in. intros x Hx. apply H, list_elem_of_In, Hx.
Qed.

Lemma elem_of_filter_bool (f : A -> bool) (l : list A) (x : A) :
  x ∈ List.filter f l <-> x ∈ l /\ f x = true.
Proof. rewrite !list_elem_of_In. apply List.filter_In. Qed.

End Lists.

Section Hashing.

Lemma hash_files_filter (fs : tree) (todo : list path) (hashes : PyDict.t) :
  hash_files fs todo hashes = hash_files fs (List.filter (hashed fs) todo) hashes.
Proof.
  revert hashes. induction todo as [|p rest IH]; intros hashes; [reflexivity|].
  cbn [hash_files List.filter]. unfold hashed at 1.
  destruct (is_file fs p) eqn:Hf; cbn [negb andb]; [|apply IH].
  destruct (skipped_by_generate p) eqn:Hs; cbn [negb]; [apply IH|].
  cbn [hash_files]. rewrite Hf, Hs. cbn [negb].
  destruct (calculate_file_hash fs p); cbn [bind]; [apply IH|reflexivity].
Qed.

Lemma content_is_file (fs fs' : tree) (p : path) :
  content <$> fs_lookup fs' p = content <$> fs_lookup fs p ->
  is_file fs' p = is_file fs p.
Proof.
  unfold is_file.
  destruct (fs_lookup fs' p) as [[k' s']|], (fs_lookup fs p) as [[k s]|];
    cbn; try discriminate; [|reflexivity].
  intros [= -> _]. reflexivity.
Qed.

Lemma content_hash (fs fs' : tree) (p : path) :
  content <$> fs_lookup fs' p = content <$> fs_lookup fs p ->
  calculate_file_hash fs' p = calculate_file_hash fs p.
Proof.
  unfold calculate_file_hash.
  destruct (fs_lookup fs' p) as [[k' s']|], (fs_lookup fs p) as [[k s]|];
    cbn; try discriminate; [|reflexivity].
  intros [= -> ->]. reflexivity.
Qed.

Lemma content_hashed (fs fs' : tree) (p : path) :
  content <$> fs_lookup fs' p = content <$> fs_lookup fs p ->
  hashed fs' p = hashed fs p.
Proof. intros H. unfold hashed. rewrite (content_is_file _ _ _ H). reflexivity. Qed.

(** The loop reads the tree through the type, the data and the readability
    of the entries it visits. *)
Lemma hash_files_content (fs fs' : tree) (todo : list path) (hashes : PyDict.t) :
  (forall q, q ∈ todo -> content <$> fs_lookup fs' q = content <$> fs_lookup fs q) ->
  hash_files fs' todo hashes = hash_files fs todo hashes.
Proof.
  revert hashes. induction todo as [|p rest IH]; intros hashes H; [reflexivity|].
  cbn [hash_files].
  rewrite (content_is_file fs fs' p), (content_hash fs fs' p) by (apply H; left).
  assert (forall h, hash_files fs' rest h = hash_files fs rest h) as IH'.
  { intros h. apply IH. intros q Hq. apply H. right. exact Hq. }
  destruct (is_file fs p); cbn [negb]; [|apply IH'].
  destruct (skipped_by_generate p); [apply IH'|].
  destruct (calculate_file_hash fs p); cbn [bind]; [apply IH'|reflexivity].
Qed.

Lemma skipped_manifest_rel : skipped_by_generate manifest_rel = true.
Proof. reflexivity. Qed.

Lemma hashed_manifest_rel (fs : tree) : hashed fs manifest_rel = false.
Proof. unfold hashed. rewrite skipped_manifest_rel. apply andb_false_r. Qed.

(** Sorting and then dropping the entries that are not hashed depends on
    the hashed entries only. *)
Lemma sorted_hashed (f : path -> bool) (l1 l2 : list path) :
  List.filter f l1 ≡ₚ List.filter f l2 ->
  List.filter f (sorted_paths l1) = List.filter f (sorted_paths l2).
Proof.
  intros H. apply (StronglySorted_unique path_le).
  - apply filter_sorted, sorted_paths_sorted.
  - apply filter_sorted, sorted_paths_sorted.
  - rewrite (filter_perm f _ _ (sorted_paths_perm l1)), H.
    symmetry. apply filter_perm, sorted_paths_perm.
Qed.

End Hashing.

Section Trees.

Lemma path_eqb_refl (p : path) : path_eqb p p = true.
Proof. apply path_eqb_eq. reflexivity. Qed.

Lemma path_eqb_neq (p q : path) : p <> q -> path_eqb p q = false.
Proof. intros H. unfold path_eqb. apply bool_decide_eq_false_2. exact H. Qed.

Lemma fs_lookup_replace (fs : tree) (p q : path) (n : node) :
  fs_lookup (fs_replace fs p n) q =
  if path_eqb p q then (fun _ => n) <$> fs_lookup fs p else fs_lookup fs q.
Proof.
  induction fs as [|[r x] fs IH]; cbn [fs_replace fs_lookup].
  - destruct (path_eqb p q); reflexivity.
  - destruct (decide (r = p)) as [->|Hrp].
    + rewrite path_eqb_refl. cbn [fs_lookup].
      destruct (path_eqb p q); reflexivity.
    + rewrite (path_eqb_neq r p Hrp). cbn [fs_lookup].
      destruct (decide (r = q)) as [->|Hrq].
      * rewrite path_eqb_refl, (path_eqb_neq p q) by congruence. reflexivity.
      * rewrite (path_eqb_neq r q Hrq). exact IH.
Qed.

Lemma rglob_replace (fs : tree) (p : path) (n : node) :
  rglob (fs_replace fs p n) = rglob fs.
Proof.
  induction fs as [|[r x] fs IH]; cbn [fs_replace]; [reflexivity|].
  destruct (path_eqb r p); cbn; [reflexivity|]. f_equal. exact IH.
Qed.

Lemma staged_view_replace (fs : tree) (p : path) (n n' : node) :
  fs_lookup fs p = Some n -> view n' = view n ->
  staged_view (fs_replace fs p n') = staged_view fs.
Proof.
  intros Hl Hv. induction fs as [|[r x] fs IH]; cbn [fs_replace]; [reflexivity|].
  cbn [fs_lookup] in Hl. destruct (path_eqb r p) eqn:E.
  - injection Hl as ->. cbn. rewrite Hv. reflexivity.
  - cbn. f_equal. apply IH. exact Hl.
Qed.

(** What [mkdir(exist_ok=True)] leaves. *)
Lemma mkdir_exist_ok_inv (m : machine) (fs fs' : tree) (d : path) :
  mkdir_exist_ok m fs d = Ok fs' ->
  is_dir fs' d = true
  /\ ((fs' = fs /\ is_dir fs d = true)
      \/ (fs' = fs ++ [(d, Node Directory (new_stat m 511))] /\ fs_lookup fs d = None)).
Proof.
  unfold mkdir_exist_ok, is_dir.
  destruct (fs_lookup fs d) as [[[data| |] st]|] eqn:Hl; try discriminate; intros [= <-].
  - rewrite Hl. auto.
  - rewrite fs_lookup_snoc, Hl.
    rewrite path_eqb_refl. auto.
Qed.

(** What [open(p, "w")] and the write leave. *)
Lemma write_file_inv (m : machine) (fs fs' : tree) (p : path) (data : string) :
  write_file m fs p data = Ok fs' ->
  (exists st, fs_lookup fs' p = Some (Node (Regular data) st))
  /\ (forall q, q <> p -> fs_lookup fs' q = fs_lookup fs q)
  /\ ((rglob fs' = rglob fs /\ is_file fs p = true)
      \/ (fs' = fs ++ [(p, Node (Regular data) (new_stat m 438))] /\ fs_lookup fs p = None)).
Proof.
  unfold write_file, is_file.
  destruct (fs_lookup fs p) as [[[old| |] st]|] eqn:Hl; try discriminate; intros [= <-].
  - split; [|split].
    + rewrite fs_lookup_replace, path_eqb_refl, Hl. eauto.
    + intros q Hq. rewrite fs_lookup_replace.
      destruct (path_eqb p q) eqn:E; [|reflexivity].
      apply path_eqb_eq in E. congruence.
    + left. split; [apply rglob_replace|reflexivity].
  - split; [|split].
    + rewrite fs_lookup_snoc, Hl, path_eqb_refl. eauto.
    + intros q Hq. rewrite fs_lookup_snoc.
      destruct (fs_lookup fs q); [reflexivity|].
      destruct (path_eqb p q) eqn:E; [|reflexivity].
      apply path_eqb_eq in E. congruence.
    + right. auto.
Qed.

End Trees.


Section Listing.

Context (s1 s2 : tree).
Hypothesis Hsame : same_staged s1 s2.

Lemma same_staged_content (p : path) :
  content <$> fs_lookup s1 p = content <$> fs_lookup s2 p.
Proof.
  pose proof (same_staged_lookup_1 s1 s2 p Hsame) as H.
  destruct (fs_lookup s1 p) as [n1|].
  - destruct H as (n2 & -> & Hv). cbn. unfold view in Hv. unfold content.
    injection Hv as -> _ ->. reflexivity.
  - rewrite H. reflexivity.
Qed.

End Listing.


(** ** [generate_manifest]: the content of the manifest *)

Section Dict.

Lemma dict_keys_set (d : PyDict.t) (k v k' : string) :
  k' ∈ PyDict.keys (PyDict.set d k v) <-> k' = k \/ k' ∈ PyDict.keys d.
Proof.
  induction d as [|[a b] d IH]; cbn [PyDict.set PyDict.keys List.map fst].
  - rewrite elem_of_cons. split; intros [H|H]; auto.
  - destruct (String.eqb a k) eqn:E.
    + apply String.eqb_eq in E. subst a. cbn [List.map fst]. rewrite elem_of_cons.
      split; [auto|]. intros [->|H]; [left; reflexivity|exact H].
    + cbn [List.map fst]. rewrite !elem_of_cons. unfold PyDict.keys in IH. rewrite IH.
      split; [intros [H|[H|H]]|intros [H|[H|H]]]; auto.
Qed.

Lemma dict_keys_set_NoDup (d : PyDict.t) (k v : string) :
  NoDup (PyDict.keys d) -> NoDup (PyDict.keys (PyDict.set d k v)).
Proof.
  induction d as [|[a b] d IH]; cbn [PyDict.set PyDict.keys List.map fst]; intros Hd.
  - apply NoDup_singleton.
  - apply NoDup_cons in Hd as [Ha Hd]. destruct (String.eqb a k) eqn:E.
    + cbn [List.map fst]. apply NoDup_cons. auto.
    + cbn [List.map fst]. apply NoDup_cons. split; [|apply IH; exact Hd].
      intros Hin. apply (dict_keys_set d k v a) in Hin as [->|Hin]; [|contradiction].
      rewrite String.eqb_refl in E. discriminate.
Qed.

End Dict.

Section HashLoop.

Context (fs : tree).

(** What the loop of [generate_manifest] has put into [hashes]. *)
Lemma hash_files_inv (todo : list path) (hashes0 hashes : PyDict.t) :
  hash_files fs todo hashes0 = Ok hashes ->
  (forall k, k ∈ PyDict.keys hashes <->
     k ∈ PyDict.keys hashes0
     \/ exists p, p ∈ todo /\ hashed fs p = true /\ path_str p = k)
  /\ (forall k h, PyDict.get hashes k = Some h ->
        PyDict.get hashes0 k = Some h
        \/ exists p data st, p ∈ todo /\ skipped_by_generate p = false
             /\ fs_lookup fs p = Some (Node (Regular data) st)
             /\ path_str p = k /\ h = Sha256.hexdigest data)
  /\ (NoDup (PyDict.keys hashes0) -> NoDup (PyDict.keys hashes)).
Proof.
  revert hashes0. induction todo as [|p rest IH]; intros hashes0 H.
  - injection H as <-. split; [|split]; [|auto..].
    intros k. split; [auto|]. intros [Hk|(p & Hp & _)]; [exact Hk|].
    apply elem_of_nil in Hp. contradiction.
  - cbn [hash_files] in H. destruct (hashed fs p) eqn:Hp.
    + unfold hashed in Hp. apply andb_true_iff in Hp as [Hfile Hskip].
      apply negb_true_iff in Hskip. rewrite Hfile, Hskip in H. cbn [negb] in H.
      destruct (calculate_file_hash fs p) as [h0|e] eqn:Hh; [|discriminate].
      cbn [bind] in H. destruct (IH _ H) as (Hkeys & Hget & Hnd).
      assert (exists data st, fs_lookup fs p = Some (Node (Regular data) st)
                              /\ h0 = Sha256.hexdigest data) as (data & st & Hl & ->).
      { unfold calculate_file_hash in Hh.
        destruct (fs_lookup fs p) as [[[data| |] st]|]; try discriminate.
        destruct (st_readable st); [|discriminate]. injection Hh as <-. eauto. }
      split; [|split].
      * intros k. rewrite Hkeys, dict_keys_set. split.
        -- intros [[->|Hk]|(q & Hq & Hqh & Hqs)].
           ++ right. exists p. split; [left|]. split; [|reflexivity].
              unfold hashed. rewrite Hfile, Hskip. reflexivity.
           ++ left. exact Hk.
           ++ right. exists q. split; [right; exact Hq|auto].
        -- intros [Hk|(q & Hq & Hqh & Hqs)]; [left; right; exact Hk|].
           apply elem_of_cons in Hq as [->|Hq]; [left; left; auto|].
           right. exists q. auto.
      * intros k h Hk. apply Hget in Hk as [Hk|(q & d & s & Hq & Hqk & Hql & Hqs & ->)].
        -- destruct (decide (path_str p = k)) as [<-|Hne].
           ++ rewrite dict_get_set_eq in Hk. injection Hk as <-.
              right. exists p, data, st. split; [left|auto].
           ++ rewrite dict_get_set_ne in Hk by exact Hne. left. exact Hk.
        -- right. exists q, d, s. split; [right; exact Hq|auto].
      * intros Hnd0. apply Hnd, dict_keys_set_NoDup, Hnd0.
    + assert (hash_files fs rest hashes0 = Ok hashes) as H'.
      { unfold hashed in Hp. destruct (is_file fs p); cbn [negb andb] in *; [|exact H].
        destruct (skipped_by_generate p); [exact H|discriminate]. }
      destruct (IH _ H') as (Hkeys & Hget & Hnd). split; [|split]; [| |exact Hnd].
      * intros k. rewrite Hkeys. split.
        -- intros [Hk|(q & Hq & Hqh & Hqs)]; [left; exact Hk|].
           right. exists q. split; [right; exact Hq|auto].
        -- intros [Hk|(q & Hq & Hqh & Hqs)]; [left; exact Hk|].
           apply elem_of_cons in Hq as [->|Hq]; [congruence|].
           right. exists q. auto.
      * intros k h Hk. apply Hget in Hk as [Hk|(q & d & s & Hq & Hrest)]; [left; exact Hk|].
        right. exists q, d, s. split; [right; exact Hq|exact Hrest].
Qed.

End HashLoop.

Section Lines.

Lemma write_lines_text (hashes : PyDict.t) (keys : list string) (text : string) :
  write_lines hashes keys = Ok text ->
  text = manifest_of (List.map (fun k => (k, default "" (PyDict.get hashes k))) keys).
Proof.
  revert text. induction keys as [|k keys IH]; intros text; cbn [write_lines].
  - intros [= <-]. reflexivity.
  - destruct (PyStr.utf8_valid _); [|discriminate].
    destruct (write_lines hashes keys) as [out|e]; [|discriminate]. cbn [bind].
    intros [= <-]. cbn [List.map manifest_of List.fold_right fst snd].
    rewrite (IH out eq_refl). reflexivity.
Qed.

Lemma str_ltb_of_le (a b : string) : PyStr.le a b -> a <> b -> String.ltb a b = true.
Proof.
  unfold PyStr.le, String.leb, String.ltb. intros Hle Hne.
  destruct (String.compare a b) eqn:E; [|reflexivity|discriminate].
  apply str_compare_eq in E. contradiction.
Qed.

(** Sorting names that are all different puts them in strictly increasing
    order. *)
Lemma sorted_strs_strict (l : list string) :
  NoDup l -> StronglySorted (fun a b => String.ltb a b = true) (sorted_strs l).
Proof.
  intros Hnd. unfold sorted_strs.
  assert (NoDup (merge_sort PyStr.le l)) as Hnd'
    by (rewrite merge_sort_Permutation; exact Hnd).
  pose proof (StronglySorted_merge_sort PyStr.le l) as Hs.
  induction Hs as [|x l' _ IH Hx]; [constructor|].
  apply NoDup_cons in Hnd' as [Hx' Hnd']. constructor; [apply IH; exact Hnd'|].
  apply Forall_forall. intros y Hy. rewrite Forall_forall in Hx.
  apply str_ltb_of_le; [apply Hx; exact Hy|]. intros ->. contradiction.
Qed.

End Lines.

(** X7.  After [generate_manifest] the manifest holds one line
    [<digest>  <path>] per regular file of the directory outside
    [manifest/.../sha256sum.txt], in strictly increasing order of the paths
    (so no path twice), and each digest is the SHA-256 digest of a regular
    file at that path. *)
Theorem generate_manifest_lists_hashed_files (m : machine) (fs fs' : tree) :
  generate_manifest m fs = Ok fs' ->
  exists entries st,
    fs_lookup fs' manifest_rel = Some (Node (Regular (manifest_of entries)) st)
    /\ StronglySorted (fun a b => String.ltb a b = true) (List.map fst entries)
    /\ (forall k, k ∈ List.map fst entries <->
          exists p, p ∈ rglob fs /\ hashed fs p = true /\ path_str p = k)
    /\ (forall k h, (k, h) ∈ entries ->
          exists p data st', p ∈ rglob fs /\ skipped_by_generate p = false
             /\ fs_lookup fs p = Some (Node (Regular data) st')
             /\ path_str p = k /\ h = Sha256.hexdigest data).
Proof.
  unfold generate_manifest. intros H.
  destruct (mkdir_exist_ok m fs ["manifest"]) as [fsA|e] eqn:Hmk; [|discriminate].
  cbn [bind] in H.
  destruct (hash_files fsA (sorted_paths (rglob fsA)) []) as [hashes|e] eqn:Hh; [|discriminate].
  cbn [bind] in H.
  destruct (manifest_text hashes) as [text|e] eqn:Ht; [|discriminate].
  cbn [bind] in H.
  apply write_file_inv in H as ([st Hman] & _ & _).
  apply write_lines_text in Ht. subst text.
  apply hash_files_inv in Hh as (Hkeys & Hget & Hnd).
  apply mkdir_exist_ok_inv in Hmk as [_ Hshape].
  (* the tree that is hashed has the files of [fs] *)
  assert (forall p, p ∈ rglob fs -> fs_lookup fsA p = fs_lookup fs p) as Hold.
  { intros p Hp. destruct Hshape as [[-> _]|[-> _]]; [reflexivity|].
    rewrite fs_lookup_snoc. destruct (fs_lookup fs p) eqn:E; [reflexivity|].
    apply fs_lookup_None in E. contradiction. }
  assert (forall p, is_file fsA p = true -> p ∈ rglob fs /\ fs_lookup fsA p = fs_lookup fs p)
    as Hfile.
  { intros p Hp. destruct Hshape as [[-> _]|[-> Hnone]].
    - split; [|reflexivity]. destruct (decide (p ∈ rglob fs)) as [|Hout]; [assumption|].
      apply fs_lookup_None in Hout. unfold is_file in Hp. rewrite Hout in Hp. discriminate.
    - unfold is_file in Hp. rewrite fs_lookup_snoc in Hp |- *.
      destruct (fs_lookup fs p) eqn:E.
      + split; [|reflexivity]. destruct (decide (p ∈ rglob fs)) as [|Hout]; [assumption|].
        apply fs_lookup_None in Hout. congruence.
      + destruct (path_eqb ["manifest"] p); discriminate. }
  exists (List.map (fun k => (k, default "" (PyDict.get hashes k)))
                   (sorted_strs (PyDict.keys hashes))), st.
  split; [exact Hman|].
  assert (forall l : list string,
            List.map fst (List.map (fun k => (k, default "" (PyDict.get hashes k))) l) = l)
    as Hfst.
  { intros l. rewrite List.map_map. apply List.map_id. }
  rewrite Hfst. split; [|split].
  - apply sorted_strs_strict, Hnd. constructor.
  - intros k. unfold sorted_strs. rewrite merge_sort_Permutation, Hkeys. split.
    + intros [Hk|(p & Hp & Hph & Hps)]; [apply elem_of_nil in Hk; contradiction|].
      unfold hashed in Hph. apply andb_true_iff in Hph as [Hpf Hpk].
      destruct (Hfile p Hpf) as [Hin Hl]. exists p. split; [exact Hin|]. split; [|exact Hps].
      unfold hashed, is_file in *. rewrite <- Hl, Hpf, Hpk. reflexivity.
    + intros (p & Hp & Hph & Hps). right. exists p. split.
      * rewrite sorted_paths_perm. destruct Hshape as [[-> _]|[-> _]]; [exact Hp|].
        unfold rglob. rewrite List.map_app. apply elem_of_app. left. exact Hp.
      * split; [|exact Hps]. unfold hashed, is_file in *. rewrite (Hold p Hp). exact Hph.
  - intros k h Hin. apply list_elem_of_fmap in Hin as (k' & [= -> ->] & Hk').
    unfold sorted_strs in Hk'. rewrite merge_sort_Permutation in Hk'.
    apply dict_get_keys in Hk' as [v Hv]. rewrite Hv. cbn [default].
    apply Hget in Hv as [Hv|(p & data & st' & Hp & Hskip & Hl & Hps & ->)]; [discriminate|].
    assert (is_file fsA p = true) as Hpf by (unfold is_file; rewrite Hl; reflexivity).
    destruct (Hfile p Hpf) as [Hin Heq]. exists p, data, st'.
    split; [exact Hin|]. split; [exact Hskip|]. split; [congruence|auto].
Qed.

(** ** [safe_extract]: containment *)

Section Segments.

Lemma has_char_rev_onto (c : ascii) (s acc : string) :
  has_char c (PyStr.rev_onto s acc) = has_char c s || has_char c acc.
Proof.
  revert acc. induction s as [|d s IH]; intros acc; cbn [PyStr.rev_onto has_char].
  - reflexivity.
  - rewrite IH. cbn [has_char].
    destruct (Ascii.eqb d c), (has_char c s), (has_char c acc); reflexivity.
Qed.

Lemma split_char_from_pieces (c : ascii) (s cur : string) :
  has_char c cur = false ->
  Forall (fun x => has_char c x = false) (PyStr.split_char_from c s cur).
Proof.
  revert cur. induction s as [|d s IH]; intros cur Hcur; cbn [PyStr.split_char_from].
  - constructor; [|constructor]. unfold PyStr.rev. rewrite has_char_rev_onto, Hcur.
    reflexivity.
  - destruct (Ascii.eqb d c) eqn:E.
    + constructor; [|apply IH; reflexivity].
      unfold PyStr.rev. rewrite has_char_rev_onto, Hcur. reflexivity.
    + apply IH. cbn [has_char]. rewrite E, Hcur. reflexivity.
Qed.

(** No segment of a path holds a slash. *)
Lemma segments_no_slash (s : string) :
  Forall (fun x => has_char "/" x = false) (segments s).
Proof.
  unfold segments. apply Forall_forall. intros x Hx.
  apply elem_of_filter_bool in Hx as [Hx _].
  pose proof (split_char_from_pieces "/" s "" eq_refl) as H.
  rewrite Forall_forall in H. apply H. exact Hx.
Qed.

Lemma parts_relative (s : string) : is_absolute s = false -> parts s = segments s.
Proof.
  unfold is_absolute, parts. intros H.
  assert (PyStr.startswith s "//" = false) as ->.
  { destruct s as [|a s]; [reflexivity|]. cbn [PyStr.startswith] in H |- *.
    destruct (Ascii.eqb "/" a); [|reflexivity].
    destruct s; discriminate. }
  cbn [andb]. rewrite H. reflexivity.
Qed.

Lemma inside_parts (s : string) :
  is_absolute s = false -> ".." ∉ parts s -> inside (parts s) = true.
Proof.
  intros Habs Hdots. unfold inside. rewrite bool_decide_eq_false_2 by exact Hdots.
  rewrite (parts_relative s Habs). pose proof (segments_no_slash s) as H.
  destruct (segments s) as [|x l]; [reflexivity|]. cbn [List.hd].
  apply Forall_inv in H.
  destruct (String.eqb x "/") eqn:E1; [apply String.eqb_eq in E1; subst; discriminate|].
  destruct (String.eqb x "//") eqn:E2; [apply String.eqb_eq in E2; subst; discriminate|].
  reflexivity.
Qed.

Lemma inside_firstn (p : path) (n : nat) :
  inside p = true -> 1 <= n -> inside (List.firstn n p) = true.
Proof.
  unfold inside. intros H Hn.
  apply andb_true_iff in H as [H H3]. apply andb_true_iff in H as [H1 H2].
  apply negb_true_iff, bool_decide_eq_false in H1.
  rewrite bool_decide_eq_false_2.
  - destruct n as [|n]; [lia|]. destruct p as [|x p]; [reflexivity|].
    cbn [List.firstn List.hd] in *. rewrite H2, H3. reflexivity.
  - intros Hin. apply H1. rewrite <- (List.firstn_skipn n p).
    apply elem_of_app. left. exact Hin.
Qed.

End Segments.

Section Containment.

Context (m : machine).

Lemma make_upperdirs_entries (fs fs' : tree) (done : path) (todo : list string) :
  make_upperdirs m fs done todo = Ok fs' ->
  forall p, p ∈ rglob fs' ->
    p ∈ rglob fs \/ exists n, 1 <= n /\ p = done ++ List.firstn n todo.
Proof.
  revert fs done. induction todo as [|x rest IH]; intros fs done H p Hp.
  - injection H as <-. left. exact Hp.
  - cbn [make_upperdirs] in H. destruct rest as [|y rest'].
    + injection H as <-. left. exact Hp.
    + assert (forall fs0, make_upperdirs m fs0 (done ++ [x]) (y :: rest') = Ok fs' ->
                p ∈ rglob fs0 \/ exists n, 1 <= n /\ p = done ++ List.firstn n (x :: y :: rest'))
        as Hstep.
      { intros fs0 H0. destruct (IH fs0 (done ++ [x]) H0 p Hp) as [Hin|(n & Hn & ->)].
        - left. exact Hin.
        - right. exists (S n). split; [lia|]. cbn [List.firstn].
          rewrite <- app_assoc. reflexivity. }
      destruct (fs_lookup fs (done ++ [x])) as [[[data| |] st]|]; try discriminate.
      * destruct (Hstep fs H) as [Hin|Hnew]; auto.
      * destruct (Hstep _ H) as [Hin|Hnew]; [|auto].
        unfold rglob in Hin. rewrite List.map_app in Hin.
        apply elem_of_app in Hin as [Hin|Hin]; [left; exact Hin|].
        apply list_elem_of_singleton in Hin. right. exists 1. split; [lia|].
        rewrite Hin. reflexivity.
Qed.

Lemma tar_extract_entries (dest dest' : tree) (mb : member) :
  tar_extract m dest mb = Ok dest' ->
  forall p, p ∈ rglob dest' ->
    p ∈ rglob dest \/ exists n, 1 <= n /\ p = List.firstn n (parts (ti_name mb.1)).
Proof.
  unfold tar_extract. intros H p Hp.
  destruct (make_upperdirs m dest [] (parts (ti_name mb.1))) as [fs|e] eqn:Hup;
    [|discriminate].
  cbn [bind] in H. pose proof (make_upperdirs_entries _ _ _ _ Hup) as Hfs.
  assert (parts (ti_name mb.1) <> [] ->
          p ∈ rglob (fs ++ [(parts (ti_name mb.1), Node Directory (new_stat m 0))]) ->
          p ∈ rglob dest \/ exists n, 1 <= n /\ p = List.firstn n (parts (ti_name mb.1)))
    as Hnew.
  { intros Hne Hin. unfold rglob in Hin. rewrite List.map_app in Hin.
    apply elem_of_app in Hin as [Hin|Hin]; [apply Hfs; exact Hin|].
    apply list_elem_of_singleton in Hin. right.
    exists (List.length (parts (ti_name mb.1))). split.
    - destruct (parts (ti_name mb.1)); [contradiction|cbn; lia].
    - rewrite List.firstn_all. exact Hin. }
  destruct (ti_type mb.1).
  - destruct (parts (ti_name mb.1)) as [|x l] eqn:Ht; [discriminate|].
    apply write_file_inv in H as (_ & _ & [[Hr _]|[-> _]]).
    + apply Hfs. rewrite <- Hr. exact Hp.
    + apply Hnew; [discriminate|]. unfold rglob in *. rewrite List.map_app in *. exact Hp.
  - destruct (parts (ti_name mb.1)) as [|x l] eqn:Ht.
    + injection H as <-. apply Hfs. exact Hp.
    + destruct (fs_lookup fs (x :: l)); injection H as <-; [apply Hfs; exact Hp|].
      apply Hnew; [discriminate|]. unfold rglob in *. rewrite List.map_app in *. exact Hp.
  - discriminate.
  - discriminate.
  - destruct (parts (ti_name mb.1)) as [|x l] eqn:Ht; [discriminate|].
    destruct (fs_lookup fs (x :: l)); [discriminate|]. injection H as <-.
    apply Hnew; [discriminate|]. unfold rglob in *. rewrite List.map_app in *. exact Hp.
Qed.

Lemma rejection_inside (t : TarInfo) :
  rejection t = None -> inside (parts (ti_name t)) = true.
Proof.
  unfold rejection. destruct (is_absolute (ti_name t)) eqn:Ha; [discriminate|].
  destruct (bool_decide (".." ∈ parts (ti_name t))) eqn:Hd; [discriminate|].
  intros _. apply bool_decide_eq_false in Hd. apply inside_parts; assumption.
Qed.

End Containment.

(** X8.  [safe_extract] never creates an entry outside the destination:
    if every path of the destination is relative and free of [..] before
    the call, so is every path after it, whatever the members of the archive
    are and whether or not the extraction is stopped by an error. *)
Theorem safe_extract_stays_inside (m : machine) (members : list member) (dest : tree) :
  Forall (fun p => inside p = true) (rglob dest) ->
  Forall (fun p => inside p = true) (rglob (safe_extract m members dest).1).
Proof.
  revert dest. induction members as [|mb rest IH]; intros dest Hdest; [exact Hdest|].
  cbn [safe_extract]. destruct (rejection mb.1) eqn:Hrej; [exact Hdest|].
  destruct (tar_extract m dest mb) as [dest'|e] eqn:Hex; [|exact Hdest].
  apply IH. apply Forall_forall. intros p Hp.
  destruct (tar_extract_entries m _ _ _ Hex p Hp) as [Hin|(n & Hn & ->)].
  - rewrite Forall_forall in Hdest. apply Hdest. exact Hin.
  - apply inside_firstn; [|exact Hn]. apply rejection_inside. exact Hrej.
Qed.

Section Metadata.

Context (m : machine).

Lemma tar_extract_payload (dest : tree) (a b : member) :
  payload a = payload b -> tar_extract m dest a = tar_extract m dest b.
Proof.
  unfold payload, tar_extract. intros [= Hn Ht Hd]. rewrite Hn, Ht, Hd. reflexivity.
Qed.

Lemma rejection_payload (a b : member) :
  payload a = payload b -> rejection a.1 = rejection b.1.
Proof.
  unfold payload, rejection, issym, islnk. intros [= Hn Ht Hd]. rewrite Hn, Ht. reflexivity.
Qed.

End Metadata.

Lemma safe_extract_payload (m : machine) (ms1 ms2 : list member) (dest : tree) :
  List.map payload ms1 = List.map payload ms2 ->
  safe_extract m ms1 dest = safe_extract m ms2 dest.
Proof.
  revert ms2 dest. induction ms1 as [|a ms1 IH]; intros [|b ms2] dest H;
    try discriminate; [reflexivity|].
  cbn [List.map] in H.
  assert (payload a = payload b /\ List.map payload ms1 = List.map payload ms2)
    as [Hab Hrest] by (split; congruence).
  cbn [safe_extract].
  rewrite (rejection_payload a b Hab), (tar_extract_payload m dest a b Hab).
  destruct (rejection b.1); [reflexivity|].
  destruct (tar_extract m dest b); [|reflexivity]. apply IH. exact Hrest.
Qed.

(** X9.  The extractor reads only the name, the type and the data of a
    member: two archives whose members agree on these give the same tree and
    the same error, whatever modes, owners, times and link names the headers
    carry. *)
Theorem safe_extract_ignores_metadata (m : machine) (ms1 ms2 : list member) (dest : tree) :
  List.map payload ms1 = List.map payload ms2 ->
  safe_extract m ms1 dest = safe_extract m ms2 dest.
Proof. apply safe_extract_payload. Qed.

(** ** [verify_bundle]: the meaning of a result *)

Section Outcome.

Lemma exn_str_ValueError (e : exn) : is_ValueError e = true -> exn_str e <> "".
Proof. destruct e; cbn; intros H; discriminate. Qed.

Lemma verify_cosign_inv (cosign : option bool) (e : exn) :
  verify_cosign cosign = Raise e ->
  e = RuntimeError "Cosign binary missing." \/ e = RuntimeError "Signature INVALID.".
Proof. destruct cosign as [[|]|]; cbn; intros [= <-]; auto. Qed.

Lemma getmembers_Ok (b : bundle_file) (ms : list member) :
  getmembers b = Ok ms -> ms = tar_members b.
Proof.
  unfold getmembers. destruct (tar_members b), (tar_finished b); intros [= <-]; reflexivity.
Qed.

Lemma verify_manifest_true (fs : tree) (b : bool) : verify_manifest fs = Ok b -> b = true.
Proof.
  intros H. apply verify_manifest_Ok in H as (expected & found & _ & _ & H).
  apply check_missing_inv in H as [-> _]. reflexivity.
Qed.

End Outcome.

(** X10.  What a result of [verify_bundle] means: it carries the bundle
    path and [strict = True]; [manifest_verified] is true exactly when there
    is no error, and the error is never the empty string; the signature
    counts as verified only if both a signature and a certificate were given
    and cosign accepted them; and [manifest_verified] implies that the bundle
    exists, was extracted without a rejected member, that the extracted tree
    passes [verify_manifest], and that the signature was verified or none
    was asked for. *)
Theorem verify_bundle_result (m : machine) (bundle_path : string)
    (bundle : option bundle_file) (sig_path cert_path : option string)
    (cosign : option bool) (r : verify_result) :
  verify_bundle m bundle_path bundle sig_path cert_path cosign = Ok r ->
  vr_bundle_path r = bundle_path
  /\ strict r = true
  /\ (manifest_verified r = true <-> error r = None)
  /\ error r <> Some ""
  /\ (signature_verified r = Some true ->
        is_Some sig_path /\ is_Some cert_path /\ cosign = Some true)
  /\ (manifest_verified r = true ->
        (exists b td, bundle = Some b
           /\ safe_extract m (tar_members b) [] = (td, None)
           /\ verify_manifest td = Ok true)
        /\ (signature_verified r = Some true
            \/ (signature_verified r = None /\ sig_path = None /\ cert_path = None))).
Proof.
  unfold verify_bundle. intros H.
  destruct bundle as [b|]; [|injection H as <-; cbn; repeat split; try discriminate;
                             intros [x Hx]; discriminate].
  assert (forall sv,
    (sv = Some true -> is_Some sig_path /\ is_Some cert_path /\ cosign = Some true) ->
    (sv = Some true \/ (sv = None /\ sig_path = None /\ cert_path = None)) ->
    match
      match getmembers b with
      | Ok ms => safe_extract m ms []
      | Raise e => ([], Some e)
      end
    with
    | (_, Some (Blocked w)) => Raise (Blocked w)
    | (_, Some e) =>
        Ok (mkVerifyResult bundle_path sv false true
              (Some ("Failed to extract bundle: " +:+ exn_str e)))
    | (td, None) =>
        match verify_manifest td with
        | Ok _ => Ok (mkVerifyResult bundle_path sv true true None)
        | Raise e =>
            if is_ValueError e
            then Ok (mkVerifyResult bundle_path sv false true (Some (exn_str e)))
            else Raise e
        end
    end = Ok r ->
    vr_bundle_path r = bundle_path
    /\ strict r = true
    /\ (manifest_verified r = true <-> error r = None)
    /\ error r <> Some ""
    /\ (signature_verified r = Some true ->
          is_Some sig_path /\ is_Some cert_path /\ cosign = Some true)
    /\ (manifest_verified r = true ->
          (exists b0 td, Some b = Some b0
             /\ safe_extract m (tar_members b0) [] = (td, None)
             /\ verify_manifest td = Ok true)
          /\ (signature_verified r = Some true
              \/ (signature_verified r = None /\ sig_path = None /\ cert_path = None))))
    as Hrest.
  { intros sv Hsv Hsv' Hr.
    destruct (getmembers b) as [ms|e0] eqn:Hms.
    - apply getmembers_Ok in Hms. subst ms.
      destruct (safe_extract m (tar_members b) []) as [td [e|]] eqn:Hex.
      + destruct e; try discriminate; injection Hr as <-; cbn;
          (split; [reflexivity|]); (split; [reflexivity|]);
          (split; [split; discriminate|]); (split; [discriminate|]);
          (split; [exact Hsv|discriminate]).
      + destruct (verify_manifest td) as [ok|e] eqn:Hv.
        * apply verify_manifest_true in Hv as Hok. subst ok. injection Hr as <-. cbn.
          repeat split; try discriminate; eauto; edestruct Hsv as (? & ? & ?); eauto.
        * destruct (is_ValueError e) eqn:Hve; [|discriminate]. injection Hr as <-. cbn.
          split; [reflexivity|]. split; [reflexivity|]. split; [split; discriminate|].
          split; [|split; [exact Hsv|discriminate]].
          intros [= Hempty]. apply (exn_str_ValueError e Hve). exact Hempty.
    - destruct e0; try discriminate; injection Hr as <-; cbn;
        (split; [reflexivity|]); (split; [reflexivity|]);
        (split; [split; discriminate|]); (split; [discriminate|]);
        (split; [exact Hsv|discriminate]). }
  destruct sig_path as [s|], cert_path as [c|].
  - destruct (verify_cosign cosign) as [[]|e] eqn:Hc.
    + apply Hrest in H; [exact H| |auto]. intros _.
      destruct cosign as [[|]|]; try discriminate. eauto.
    + apply verify_cosign_inv in Hc as [-> | ->]; injection H as <-; cbn;
        repeat split; try discriminate.
  - injection H as <-. cbn. repeat split; try discriminate.
  - injection H as <-. cbn. repeat split; try discriminate.
  - apply Hrest in H; [exact H|discriminate|auto].
Qed.

(** ** A bundle changed after it was written *)

Section Tampering.

Context (env : environ) (m m' : machine).

(** The staging directory of a build that is ready for its manifest, once
    the manifest is written. *)
Lemma generate_manifest_ready (stage : tree) :
  ready_stage stage = true ->
  exists text,
    generate_manifest m stage
    = Ok (stage ++ [(manifest_rel, Node (Regular text) (new_stat m 438))])
    /\ clean_stage (stage ++ [(manifest_rel, Node (Regular text) (new_stat m 438))]) = true.
Proof.
  intros Hready.
  destruct (ready_stage_facts stage Hready) as (Hc & Hdir & Hnew & Hskip & Hback).
  unfold manifest_reads_back in Hback.
  destruct (hash_files_clean stage Hc Hskip (sorted_paths (rglob stage)) [])
    as (hashes & Hh & _ & _).
  { apply sorted_in_stage. }
  { rewrite sorted_paths_perm. apply clean_stage_NoDup. exact Hc. }
  rewrite Hh in Hback.
  destruct (reads_back_spec hashes Hback) as (text & expected & Htext & _ & _).
  exists text. split; [|apply clean_stage_with_manifest; assumption].
  unfold generate_manifest, mkdir_exist_ok. unfold is_dir in Hdir.
  destruct (fs_lookup stage ["manifest"]) as [[[data| |] st]|]; try discriminate.
  cbn [bind]. rewrite Hh. cbn [bind]. rewrite Htext. cbn [bind].
  unfold write_file. rewrite Hnew. reflexivity.
Qed.

Lemma node_at_replace (fs : tree) (p q : path) (n : node) :
  p ∈ rglob fs ->
  node_at (fs_replace fs p n) q = if path_eqb p q then n else node_at fs q.
Proof.
  intros Hp. unfold node_at. rewrite fs_lookup_replace.
  destruct (path_eqb p q); [|reflexivity].
  rewrite (node_at_lookup fs p Hp). reflexivity.
Qed.

Lemma is_dir_replace_file (fs : tree) (p d : path) (data data' : string) (st st' : stat) :
  fs_lookup fs p = Some (Node (Regular data) st) ->
  is_dir (fs_replace fs p (Node (Regular data') st')) d = is_dir fs d.
Proof.
  intros Hl. unfold is_dir. rewrite fs_lookup_replace.
  destruct (path_eqb p d) eqn:E; [|reflexivity].
  apply path_eqb_eq in E. subst d. rewrite Hl. reflexivity.
Qed.

Lemma elem_of_replace (fs : tree) (p q : path) (n x : node) :
  (q, x) ∈ fs_replace fs p n ->
  (q, x) ∈ fs \/ (q = p /\ x = n).
Proof.
  induction fs as [|[r y] fs IH]; cbn [fs_replace]; intros H.
  - left. exact H.
  - destruct (path_eqb r p) eqn:E.
    + apply path_eqb_eq in E. subst r.
      apply elem_of_cons in H as [[= -> ->]|H]; [right; auto|left; right; exact H].
    + apply elem_of_cons in H as [[= -> ->]|H]; [left; left|].
      destruct (IH H) as [Hin|Hnew]; [left; right; exact Hin|right; exact Hnew].
Qed.

(** Changing the data of a regular file keeps a staging directory clean. *)
Lemma clean_stage_replace (fs : tree) (p : path) (data data' : string) (st : stat) :
  clean_stage fs = true ->
  fs_lookup fs p = Some (Node (Regular data) st) ->
  clean_stage (fs_replace fs p (Node (Regular data') st)) = true.
Proof.
  intros Hc Hl. unfold clean_stage. apply andb_true_iff. split.
  - apply bool_decide_eq_true. rewrite rglob_replace. apply clean_stage_NoDup. exact Hc.
  - apply List.forallb_forall. intros [q x] Hin. apply list_elem_of_In in Hin.
    assert (wf_path q = true /\ path_name q <> ".DS_Store" /\ clean_node x = true
            /\ Forall (fun d => is_dir fs d = true) (proper_prefixes q)) as (H1 & H2 & H3 & H4).
    { apply elem_of_replace in Hin as [Hin|[-> ->]].
      - apply (clean_stage_entry fs q x Hc Hin).
      - apply fs_lookup_Some_elem in Hl.
        destruct (clean_stage_entry fs p _ Hc Hl) as (H1 & H2 & H3 & H4). auto. }
    cbn [fst snd]. rewrite H1, H3. apply String.eqb_neq in H2. rewrite H2. cbn [negb andb].
    apply List.forallb_forall. intros d Hd. apply list_elem_of_In in Hd.
    rewrite (is_dir_replace_file fs p d data data' st st Hl).
    rewrite Forall_forall in H4. apply H4. exact Hd.
Qed.

(** A bundle of a clean staging directory, with the data of one regular
    member changed, fails verification with a hash mismatch for that
    member. *)
Lemma tampered_member_detected (staged : tree) (bundle_path : string)
    (ms1 ms2 : list member) (ti : TarInfo) (data data' : string) (fname : string)
    (mtime : Z) (finished : bool) :
  clean_stage staged = true ->
  verify_manifest (extracted staged m') = Ok true ->
  tar_members (write_bundle env m staged).1 = ms1 ++ (ti, data) :: ms2 ->
  ti_type ti = REGTYPE ->
  ti_name ti <> path_str manifest_rel ->
  Sha256.hexdigest data' <> Sha256.hexdigest data ->
  verify_bundle m' bundle_path
    (Some (mkBundle fname mtime (ms1 ++ (ti, data') :: ms2) finished)) None None None
  = Ok (mkVerifyResult bundle_path None false true
          (Some (exn_str (HashMismatch (ti_name ti) (Sha256.hexdigest data)
                            (Sha256.hexdigest data'))))).
Proof.
  intros Hc Hv Hms Hreg Hname Hdiff.
  rewrite (write_bundle_clean env m staged Hc) in Hms. cbn [fst tar_members] in Hms.
  apply List.map_eq_app in Hms as (s1 & s2' & Hsorted & Hms1 & Hms2).
  destruct s2' as [|p s2]; [discriminate|]. cbn [List.map] in Hms2.
  unfold member_of in Hms2. injection Hms2 as Hti Hdata Hms2.
  assert (NoDup (s1 ++ p :: s2)) as Hnd.
  { rewrite <- Hsorted, sorted_paths_perm. apply clean_stage_NoDup. exact Hc. }
  assert (p ∈ rglob staged) as Hp.
  { rewrite <- sorted_paths_perm, Hsorted. apply elem_of_app. right. left. }
  destruct (clean_stage_at staged p Hc Hp) as (Hwf & Hds & Hcn & _).
  pose proof (node_at_lookup staged p Hp) as Hl.
  destruct (node_at staged p) as [k st] eqn:Hnode.
  cbn [n_kind n_stat] in Hti, Hdata. subst ti. cbn [ti_type ti_name] in Hreg, Hname |- *.
  destruct k as [d0| |]; try discriminate. subst d0.
  set (staged' := fs_replace staged p (Node (Regular data') st)).
  assert (clean_stage staged' = true) as Hc'
    by (apply (clean_stage_replace staged p data data' st Hc Hl)).
  assert (sorted_paths (rglob staged') = s1 ++ p :: s2) as Hsorted'.
  { unfold staged'. rewrite rglob_replace. exact Hsorted. }
  assert (forall q, q <> p -> node_at staged' q = node_at staged q) as Hother.
  { intros q Hq. unfold staged'. rewrite (node_at_replace staged p q _ Hp).
    rewrite path_eqb_neq by congruence. reflexivity. }
  assert (node_at staged' p = Node (Regular data') st) as Hnode'.
  { unfold staged'. rewrite (node_at_replace staged p p _ Hp), path_eqb_refl. reflexivity. }
  assert (forall q, q ∈ s1 ++ s2 -> q <> p) as Hne.
  { intros q Hq ->. apply NoDup_app in Hnd as (_ & Hcross & Hnd2).
    apply NoDup_cons in Hnd2 as [Hp2 _].
    apply elem_of_app in Hq as [Hq|Hq]; [|contradiction].
    apply (Hcross p Hq). left. }
  (* the extraction of the changed archive *)
  assert (safe_extract m' (ms1 ++ (mkTarInfo (path_str p) (st_mode st) 0 0
                                      (N.of_nat (String.length data))
                                      (get_source_date_epoch env) REGTYPE "" "" "",
                                   data') :: ms2) []
          = (extracted staged' m', None)) as Hex.
  { unfold extracted.
    etransitivity; [|apply (extract_bundle_clean env m staged' Hc' m')].
    rewrite (write_bundle_clean env m staged' Hc'). cbn [fst tar_members].
    apply safe_extract_payload. rewrite Hsorted', !List.map_app. cbn [List.map].
    rewrite Hnode'. unfold member_of at 2. cbn [n_kind n_stat]. unfold payload at 2 4.
    cbn [fst snd ti_name ti_type]. subst ms1 ms2.
    f_equal; [|f_equal].
    - rewrite !List.map_map. apply List.map_ext_in. intros q Hq.
      rewrite Hother; [reflexivity|]. apply Hne, elem_of_app. left.
      apply list_elem_of_In. exact Hq.
    - rewrite !List.map_map. apply List.map_ext_in. intros q Hq.
      rewrite Hother; [reflexivity|]. apply Hne, elem_of_app. right.
      apply list_elem_of_In. exact Hq. }
  unfold verify_bundle, getmembers. cbn [tar_members tar_finished].
  assert (forall (l : list member) (f : bool),
            match ms1 ++ l, f with
            | [], false => Raise (TarReadError "empty file")
            | ms, _ => Ok ms
            end = Ok (ms1 ++ l) \/ l = []) as Hget.
  { intros l f. destruct (ms1 ++ l) eqn:E; [|left; reflexivity].
    right. apply app_eq_nil in E as [_ ->]. reflexivity. }
  destruct (Hget ((mkTarInfo (path_str p) (st_mode st) 0 0
                     (N.of_nat (String.length data))
                     (get_source_date_epoch env) REGTYPE "" "" "", data') :: ms2) finished)
    as [-> |]; [|discriminate].
  rewrite Hex.
  (* the two extracted trees differ in the data at [p] *)
  assert (extracted staged' m'
          = List.map (extracted_entry m' staged) s1
            ++ (p, Node (Regular data') (new_stat m' 438))
            :: List.map (extracted_entry m' staged) s2) as ->.
  { unfold extracted. rewrite Hsorted', List.map_app. cbn [List.map].
    unfold extracted_entry at 2. rewrite Hnode'. cbn.
    f_equal; [|f_equal]; apply List.map_ext_in; intros q Hq;
      unfold extracted_entry; rewrite Hother; try reflexivity;
      apply Hne, elem_of_app; [left|right]; apply list_elem_of_In; exact Hq. }
  assert (extracted staged m'
          = List.map (extracted_entry m' staged) s1
            ++ (p, Node (Regular data) (new_stat m' 438))
            :: List.map (extracted_entry m' staged) s2) as Hold.
  { unfold extracted. rewrite Hsorted, List.map_app. cbn [List.map].
    unfold extracted_entry at 2. rewrite Hnode. reflexivity. }
  rewrite Hold in Hv.
  rewrite (changed_content_raises _ _ p data data' (new_stat m' 438) (new_stat m' 438));
    [reflexivity|..];
    [|exact Hds| |exact Hdiff|reflexivity|exact Hv].
  - unfold rglob. rewrite List.map_app, !List.map_map. cbn [extracted_entry fst].
    rewrite !List.map_id. intros Hin. apply (Hne p Hin). reflexivity.
  - exact Hname.
Qed.

End Tampering.

(** X11.  If the bundle that the archive step of [create_bundle] writes
    from a clean staging directory (readable regular files and directories,
    nothing listed twice or named [.DS_Store]) verifies, then replacing the
    data of one of its regular members, other than the manifest, by data
    with another digest makes [verify_bundle] report exactly the hash
    mismatch for that member: its name, the digest of the original data and
    the digest of the new data. *)
Theorem tampered_bundle_is_rejected (env : environ) (m m' : machine) (staged : tree)
    (bundle_path : string) (b : bundle_file)
    (ms1 ms2 : list member) (ti : TarInfo) (data data' : string) :
  clean_stage staged = true ->
  write_bundle env m staged = (b, None) ->
  verify_bundle m' bundle_path (Some b) None None None
  = Ok (mkVerifyResult bundle_path None true true None) ->
  tar_members b = ms1 ++ (ti, data) :: ms2 ->
  ti_type ti = REGTYPE ->
  ti_name ti <> path_str manifest_rel ->
  Sha256.hexdigest data' <> Sha256.hexdigest data ->
  verify_bundle m' bundle_path
    (Some (mkBundle (gz_fname b) (gz_mtime b) (ms1 ++ (ti, data') :: ms2) (tar_finished b)))
    None None None
  = Ok (mkVerifyResult bundle_path None false true
          (Some (exn_str (HashMismatch (ti_name ti) (Sha256.hexdigest data)
                            (Sha256.hexdigest data'))))).
Proof.
  intros Hc Hw Hv Hms Hreg Hname Hdiff.
  assert (b = (write_bundle env m staged).1) as Hb by (rewrite Hw; reflexivity).
  subst b.
  apply (tampered_member_detected env m m' staged); try assumption.
  unfold verify_bundle in Hv.
  assert (getmembers (write_bundle env m staged).1
          = Ok (tar_members (write_bundle env m staged).1)) as Hget.
  { rewrite (write_bundle_clean env m staged Hc). unfold getmembers. cbn.
    destruct (List.map _ _); reflexivity. }
  rewrite Hget, (extract_bundle_clean env m staged Hc m') in Hv.
  fold (extracted staged m') in Hv.
  destruct (verify_manifest (extracted staged m')) as [ok|e] eqn:Hv';
    [|destruct (is_ValueError e); discriminate].
  apply verify_manifest_true in Hv' as ->. reflexivity.
Qed.

(** ** The commands: exit codes *)

Section CommandLine.

Context (rich_installed : bool) (m : machine).

Lemma verify_bundle_error (bundle : string) (file : option bundle_file)
    (sig cert : option string) (cosign : option bool) (r : verify_result) :
  verify_bundle m bundle file sig cert cosign = Ok r ->
  truthy (error r) = negb (manifest_verified r)
  /\ (manifest_verified r = true <-> error r = None)
  /\ (manifest_verified r = true <->
      exists b td, file = Some b
        /\ safe_extract m (tar_members b) [] = (td, None)
        /\ verify_manifest td = Ok true
        /\ ((sig = None /\ cert = None)
            \/ (is_Some sig /\ is_Some cert /\ cosign = Some true))).
Proof.
  unfold verify_bundle. intros H.
  destruct file as [b|].
  2:{ injection H as <-. cbn. split; [reflexivity|]. split; [split; discriminate|].
      split; [discriminate|]. intros (b & td & Hb & _). discriminate. }
  assert (forall sv,
    ((sig = None /\ cert = None)
     \/ (is_Some sig /\ is_Some cert /\ cosign = Some true)) ->
    match
      match getmembers b with
      | Ok ms => safe_extract m ms []
      | Raise e => ([], Some e)
      end
    with
    | (_, Some (Blocked w)) => Raise (Blocked w)
    | (_, Some e) =>
        Ok (mkVerifyResult bundle sv false true
              (Some ("Failed to extract bundle: " +:+ exn_str e)))
    | (td, None) =>
        match verify_manifest td with
        | Ok _ => Ok (mkVerifyResult bundle sv true true None)
        | Raise e =>
            if is_ValueError e
            then Ok (mkVerifyResult bundle sv false true (Some (exn_str e)))
            else Raise e
        end
    end = Ok r ->
    truthy (error r) = negb (manifest_verified r)
    /\ (manifest_verified r = true <-> error r = None)
    /\ (manifest_verified r = true <->
        exists b0 td, Some b = Some b0
          /\ safe_extract m (tar_members b0) [] = (td, None)
          /\ verify_manifest td = Ok true
          /\ ((sig = None /\ cert = None)
              \/ (is_Some sig /\ is_Some cert /\ cosign = Some true)))) as Hrest.
  { intros sv Hsig Hr.
    destruct (getmembers b) as [ms|e0] eqn:Hms.
    - apply getmembers_Ok in Hms. subst ms.
      destruct (safe_extract m (tar_members b) []) as [td [e|]] eqn:Hex.
      + assert (r = mkVerifyResult bundle sv false true
                      (Some ("Failed to extract bundle: " +:+ exn_str e))) as ->
          by (destruct e; try discriminate; congruence).
        cbn. split; [reflexivity|]. split; [split; discriminate|].
        split; [discriminate|]. intros (b0 & td0 & [= <-] & Hex0 & _). congruence.
      + destruct (verify_manifest td) as [ok|e] eqn:Hv.
        * apply verify_manifest_true in Hv as Hok. subst ok. injection Hr as <-. cbn.
          split; [reflexivity|]. split; [split; reflexivity|]. split; [|reflexivity].
          intros _. eauto 10.
        * destruct (is_ValueError e) eqn:Hve; [|discriminate]. injection Hr as <-. cbn.
          split; [|split; [split; discriminate|split; [discriminate|]]].
          -- destruct (String.eqb (exn_str e) "") eqn:E; [|reflexivity].
             apply String.eqb_eq in E. apply exn_str_ValueError in Hve. contradiction.
          -- intros (b0 & td0 & [= <-] & Hex0 & Hv0 & _). congruence.
    - assert (r = mkVerifyResult bundle sv false true
                    (Some ("Failed to extract bundle: " +:+ exn_str e0))) as ->
        by (destruct e0; try discriminate; congruence).
      cbn. split; [reflexivity|]. split; [split; discriminate|].
      split; [discriminate|]. intros (b0 & td0 & [= <-] & Hex0 & Hv0 & _).
      unfold getmembers in Hms.
      destruct (tar_members b) eqn:Hnil; [|destruct (tar_finished b); discriminate].
      cbn in Hex0. injection Hex0 as <-. discriminate Hv0. }
  destruct sig as [s|], cert as [c|].
  - destruct (verify_cosign cosign) as [[]|e] eqn:Hc.
    + apply (Hrest (Some true)); [|exact H]. right.
      destruct cosign as [[|]|]; try discriminate. eauto.
    + apply verify_cosign_inv in Hc as Hc'.
      assert (cosign <> Some true) as Hno by (intros ->; discriminate).
      destruct Hc' as [-> | ->]; injection H as <-; cbn;
        (split; [reflexivity|]); (split; [split; discriminate|]);
        (split; [discriminate|]);
        intros (b0 & td0 & _ & _ & _ & [[? _]|(_ & _ & ?)]); congruence.
  - injection H as <-. cbn. split; [reflexivity|]. split; [split; discriminate|].
    split; [discriminate|].
    intros (b0 & td0 & _ & _ & _ & [[? _]|(_ & [x Hx] & _)]); discriminate.
  - injection H as <-. cbn. split; [reflexivity|]. split; [split; discriminate|].
    split; [discriminate|].
    intros (b0 & td0 & _ & _ & _ & [[_ ?]|([x Hx] & _)]); discriminate.
  - apply (Hrest None); [|exact H]. left. auto.
Qed.

End CommandLine.

Section CommandLine2.

Context (rich_installed : bool) (m : machine).

Lemma verify_bundle_verified (bundle : string) (b : bundle_file) (td : tree)
    (sig cert : option string) (cosign : option bool) :
  safe_extract m (tar_members b) [] = (td, None) ->
  verify_manifest td = Ok true ->
  (sig = None /\ cert = None) \/ (is_Some sig /\ is_Some cert /\ cosign = Some true) ->
  exists r, verify_bundle m bundle (Some b) sig cert cosign = Ok r
            /\ manifest_verified r = true.
Proof.
  intros Hex Hv Hsig. unfold verify_bundle.
  assert (getmembers b = Ok (tar_members b)) as Hms.
  { unfold getmembers. destruct (tar_members b) eqn:E; [|reflexivity].
    cbn in Hex. injection Hex as <-. discriminate Hv. }
  destruct Hsig as [[-> ->]|([s ->] & [c ->] & ->)]; cbn [verify_cosign];
    rewrite Hms, Hex, Hv; eexists; (split; [reflexivity|reflexivity]).
Qed.

Lemma pack_payload (env : environ) (i : inputs) (bundle_path : string)
    (previous f : option bundle_file) (r : pack_result) :
  create_bundle env m i bundle_path previous = (f, Ok r) -> pr_bundle_path r = bundle_path.
Proof.
  unfold create_bundle. destruct (stage_tree env m i); [|discriminate].
  destruct (write_bundle env m a) as [b [e|]]; [discriminate|].
  intros [= _ <-]. reflexivity.
Qed.

End CommandLine2.

(** X12.  The exit code of the command [verify].  Call a bundle verified
    when it exists, is extracted without a rejected member, passes
    [verify_manifest], and either no signature material was given or both
    parts were given and cosign accepted them.  The code is 0 exactly when
    the bundle is verified and the success can be reported: with [--quiet],
    with [--json], or with Rich installed.  It is 2 exactly when
    [verify_bundle] returned a result whose manifest is not verified.  It is
    1 exactly when the bundle is missing, or [verify_bundle] raised, or the
    bundle is verified in the default mode without Rich, where importing
    [rich.panel] fails. *)
Theorem cli_verify_exit_code (rich_installed : bool) (m : machine) (bundle : string)
    (file : option bundle_file) (sig cert : option string) (cosign : option bool)
    (quiet json_mode : bool) :
  let code := (Cli.verify rich_installed m bundle file sig cert cosign quiet json_mode).2 in
  let verified :=
    exists b td, file = Some b
      /\ safe_extract m (tar_members b) [] = (td, None)
      /\ verify_manifest td = Ok true
      /\ ((sig = None /\ cert = None)
          \/ (is_Some sig /\ is_Some cert /\ cosign = Some true)) in
  let can_report := rich_installed || quiet || json_mode in
  (code = Some 0%Z <-> verified /\ can_report = true)
  /\ (code = Some 2%Z <->
        exists r, is_Some file
          /\ verify_bundle m bundle file sig cert cosign = Ok r
          /\ manifest_verified r = false)
  /\ (code = Some 1%Z <->
        file = None
        \/ (exists e, verify_bundle m bundle file sig cert cosign = Raise e
                      /\ forall w, e <> Blocked w)
        \/ (verified /\ can_report = false)).
Proof.
  cbv zeta. unfold Cli.verify.
  destruct file as [b|].
  2:{ assert ((if json_mode
               then (print_json (ErrorDoc ("Bundle not found: " +:+ bundle)), Some 1%Z)
               else (print_error (init_console rich_installed quiet json_mode)
                       ("Bundle not found: " +:+ bundle) None, Some 1%Z)).2 = Some 1%Z) as ->
        by (destruct json_mode; reflexivity).
      split; [|split].
      - split; [discriminate|]. intros [(b & td & Hb & _) _]. discriminate.
      - split; [discriminate|]. intros (r & [x Hx] & _). discriminate.
      - split; [auto|reflexivity]. }
  destruct (verify_bundle m bundle (Some b) sig cert cosign) as [r|e] eqn:Hvb.
  - destruct (verify_bundle_error m bundle (Some b) sig cert cosign r Hvb)
      as (Htruthy & _ & Hverified).
    rewrite Htruthy. destruct (manifest_verified r) eqn:Hmv; cbn [negb].
    + assert (forall (x y z w : list output * option Z),
                x.2 = Some 0%Z -> y.2 = Some 0%Z -> z.2 = Some 0%Z -> w.2 = Some 1%Z ->
                (if json_mode then x else if quiet then y
                 else if rich_installed then z else w).2
                = if rich_installed || quiet || json_mode then Some 0%Z else Some 1%Z)
        as Hcode
        by (intros x y z w Hx Hy Hz Hw; destruct json_mode, quiet, rich_installed;
            assumption).
      rewrite Hcode by reflexivity.
      assert (exists b0 td, Some b = Some b0
                /\ safe_extract m (tar_members b0) [] = (td, None)
                /\ verify_manifest td = Ok true
                /\ ((sig = None /\ cert = None)
                    \/ (is_Some sig /\ is_Some cert /\ cosign = Some true))) as Hv
        by (apply Hverified; reflexivity).
      destruct (rich_installed || quiet || json_mode); split; [| split | | split].
      * split; [intros _; split; [exact Hv|reflexivity]|reflexivity].
      * split; [discriminate|]. intros (r' & _ & [= <-] & Hf). congruence.
      * split; [discriminate|].
        intros [?|[(e & ? & _)|[_ ?]]]; discriminate.
      * split; [discriminate|]. intros [_ ?]. discriminate.
      * split; [discriminate|]. intros (r' & _ & [= <-] & Hf). congruence.
      * split; [|reflexivity]. intros _. right. right. split; [exact Hv|reflexivity].
    + assert (forall (x y : list output * option Z),
                x.2 = Some 2%Z -> y.2 = Some 2%Z ->
                (if json_mode then x else y).2 = Some 2%Z) as Hcode
        by (intros; destruct json_mode; assumption).
      rewrite Hcode by reflexivity. split; [|split].
      * split; [discriminate|]. intros [Hex _]. apply Hverified in Hex. discriminate.
      * split; [|reflexivity]. intros _. exists r. split; [eauto|auto].
      * split; [discriminate|].
        intros [?|[(e & ? & _)|[Hex _]]]; try discriminate.
        apply Hverified in Hex. discriminate.
  - assert (forall b0 td, Some b = Some b0 ->
              safe_extract m (tar_members b0) [] = (td, None) ->
              verify_manifest td = Ok true ->
              (sig = None /\ cert = None)
              \/ (is_Some sig /\ is_Some cert /\ cosign = Some true) -> False) as Hno.
    { intros b0 td [= <-] Hex Hv Hsig.
      destruct (verify_bundle_verified m bundle b td sig cert cosign Hex Hv Hsig)
        as (r & Hr & _). congruence. }
    assert ((exists w, e = Blocked w) \/ (forall w, e <> Blocked w)) as [[w ->]|Hnb]
      by (destruct e; eauto; right; discriminate).
    + cbn [snd]. split; [|split].
      * split; [discriminate|]. intros [(b0 & td & Hb & Hex & Hv & Hsig) _].
        exfalso. eapply Hno; eassumption.
      * split; [discriminate|]. intros (r & _ & ? & _). discriminate.
      * split; [discriminate|].
        intros [?|[(e & [= <-] & Hw)|[(b0 & td & Hb & Hex & Hv & Hsig) _]]];
          [discriminate| |].
        -- exfalso. apply (Hw w). reflexivity.
        -- exfalso. eapply Hno; eassumption.
    + assert (forall rule,
        (match e with
         | Blocked _ => (rule, None)
         | _ =>
           if json_mode then (rule ++ print_json (ErrorDoc (exn_str e)), Some 1%Z)
           else (rule ++ print_error (init_console rich_installed quiet json_mode)
                           ("Runtime Error: " +:+ exn_str e) None, Some 1%Z)
         end).2 = Some 1%Z) as Hcode.
      { intros rule. destruct e; try (destruct json_mode; reflexivity).
        exfalso. eapply Hnb. reflexivity. }
      rewrite Hcode. split; [|split].
      * split; [discriminate|]. intros [(b0 & td & Hb & Hex & Hv & Hsig) _].
        exfalso. eapply Hno; eassumption.
      * split; [discriminate|]. intros (r & _ & ? & _). discriminate.
      * split; [|reflexivity]. intros _. right. left. exists e.
        split; [reflexivity|exact Hnb].
Qed.

(** X13.  The command [pack] leaves at the bundle path what
    [create_bundle] leaves there, and exits with 0 or 1 when it returns: 0
    exactly when [create_bundle] returned and the success can be reported
    (with [--quiet], with [--json], or with Rich installed), 1 exactly when
    [create_bundle] raised, or returned in the default mode without Rich, in
    which case the bundle has been written all the same. *)
Theorem cli_pack_exit_code (rich_installed : bool) (env : environ) (m : machine)
    (i : inputs) (bundle_path : string) (previous : option bundle_file)
    (quiet json_mode : bool) :
  let run := Cli.pack rich_installed env m i bundle_path previous quiet json_mode in
  let built := create_bundle env m i bundle_path previous in
  let can_report := rich_installed || quiet || json_mode in
  run.1.1 = built.1
  /\ (run.2 = Some 0%Z <-> (exists r, built.2 = Ok r) /\ can_report = true)
  /\ (run.2 = Some 1%Z <->
        (exists e, built.2 = Raise e /\ forall w, e <> Blocked w)
        \/ ((exists r, built.2 = Ok r) /\ can_report = false))
  /\ (run.2 = Some 0%Z \/ run.2 = Some 1%Z \/ run.2 = None).
Proof.
  cbv zeta. unfold Cli.pack.
  destruct (create_bundle env m i bundle_path previous) as [f [r|e]]; cbn [fst snd].
  - destruct json_mode, quiet, rich_installed; cbn;
      (split; [reflexivity|]); (split; [|split]);
      try (split; [intros _; split; [eauto|reflexivity]|reflexivity]);
      try (split; [discriminate|intros [_ ?]; discriminate]);
      try (split; [discriminate|intros [(e & ? & _)|[_ ?]]; discriminate]);
      try (split; [intros _; right; split; [eauto|reflexivity]|reflexivity]);
      auto.
  - assert ((exists w, e = Blocked w) \/ (forall w, e <> Blocked w)) as [[w ->]|Hnb]
      by (destruct e; eauto; right; discriminate).
    + cbn. split; [reflexivity|]. split; [|split].
      * split; [discriminate|]. intros [(r & ?) _]. discriminate.
      * split; [discriminate|].
        intros [(e & [= <-] & Hw)|[(r & ?) _]]; [|discriminate].
        exfalso. apply (Hw w). reflexivity.
      * auto.
    + assert (forall rule,
        (match e with
         | Blocked _ => (f, rule, None)
         | _ =>
           if json_mode then (f, rule ++ print_json (ErrorDoc (exn_str e)), Some 1%Z)
           else (f, rule ++ print_error (init_console rich_installed quiet json_mode)
                              (exn_str e) None, Some 1%Z)
         end).2 = Some 1%Z
        /\ (match e with
            | Blocked _ => (f, rule, None)
            | _ =>
              if json_mode then (f, rule ++ print_json (ErrorDoc (exn_str e)), Some 1%Z)
              else (f, rule ++ print_error (init_console rich_installed quiet json_mode)
                                 (exn_str e) None, Some 1%Z)
            end).1.1 = f) as Hcode.
      { intros rule. destruct e; try (destruct json_mode; split; reflexivity).
        exfalso. eapply Hnb. reflexivity. }
      destruct (Hcode (if (rich_installed && negb quiet && negb json_mode)
                           && negb quiet && negb json_mode
                           && (rich_installed && negb quiet && negb json_mode)
                       then [Rich (Rule "[bold cyan]CI Evidence Pack - Generator[/bold cyan]")]
                       else [])) as [H2 H1].
      cbn [init_console console] in H1, H2 |- *.
      rewrite H1, H2. split; [reflexivity|]. split; [|split].
      * split; [discriminate|]. intros [(r & ?) _]. discriminate.
      * split; [|reflexivity]. intros _. left. exists e. split; [reflexivity|exact Hnb].
      * auto.
Qed.

(** ** The commands: output streams *)

Section Modes.

Lemma init_console_json (rich_installed quiet : bool) :
  console (init_console rich_installed quiet true) = false.
Proof. unfold init_console. cbn. rewrite !andb_false_r. reflexivity. Qed.

Lemma print_success_stderr (u : ui) (msg : string) :
  List.filter on_stdout (print_success u msg) = [].
Proof.
  unfold print_success. destruct (_quiet_mode u || _json_mode u); [reflexivity|].
  destruct (console u); reflexivity.
Qed.

Lemma print_error_stderr (u : ui) (msg : string) (hint : option string) :
  List.filter on_stdout (print_error u msg hint) = [].
Proof.
  unfold print_error. destruct (_json_mode u); [reflexivity|].
  destruct (_quiet_mode u); [reflexivity|].
  destruct (console u), (truthy hint); reflexivity.
Qed.

Lemma print_error_shown (rich_installed quiet : bool) (msg : string) :
  print_error (init_console rich_installed quiet false) msg None <> [].
Proof.
  unfold print_error, init_console. cbn.
  destruct quiet; [discriminate|]. destruct rich_installed; discriminate.
Qed.

End Modes.

(** X14.  With [--json] each of the commands [verify] and [pack] writes
    exactly one thing when it returns, a JSON document on standard output,
    whatever [--quiet] says and whether or not Rich is installed; the exit
    code is 0 exactly when that document has no [error] entry. *)
Theorem cli_json_mode_output (rich_installed : bool) (env : environ) (m : machine)
    (bundle : string) (file : option bundle_file) (sig cert : option string)
    (cosign : option bool) (i : inputs) (bundle_path : string)
    (previous : option bundle_file) (quiet : bool) :
  let v := Cli.verify rich_installed m bundle file sig cert cosign quiet true in
  let p := Cli.pack rich_installed env m i bundle_path previous quiet true in
  (match v.2 with
   | Some code => exists doc, v.1 = [StdoutJson doc]
                              /\ (code = 0%Z <-> doc_error doc = None)
   | None => v.1 = []
   end)
  /\ (match p.2 with
      | Some code => exists doc, p.1.2 = [StdoutJson doc]
                                 /\ (code = 0%Z <-> doc_error doc = None)
      | None => p.1.2 = []
      end).
Proof.
  cbv zeta. split.
  - unfold Cli.verify. rewrite init_console_json. cbn [andb negb app].
    destruct file as [b|].
    + destruct (verify_bundle m bundle (Some b) sig cert cosign) as [r|e] eqn:Hvb.
      * destruct (verify_bundle_error m bundle (Some b) sig cert cosign r Hvb)
          as (Htruthy & Hnone & _).
        rewrite Htruthy.
        destruct (manifest_verified r) eqn:Hmv; cbn [negb snd fst];
          exists (VerifyDoc r); (split; [reflexivity|]); cbn [doc_error].
        -- split; [intros _; apply Hnone; reflexivity|reflexivity].
        -- split; [discriminate|]. intros Hn. apply Hnone in Hn. discriminate.
      * destruct e; cbn [snd fst]; try reflexivity;
          eexists; (split; [reflexivity|]); cbn [doc_error]; split; discriminate.
    + cbn. eexists. split; [reflexivity|]. cbn. split; discriminate.
  - unfold Cli.pack. rewrite init_console_json. cbn [andb negb app].
    destruct (create_bundle env m i bundle_path previous) as [f [r|e]].
    + cbn. exists (PackDoc r). split; [reflexivity|]. cbn. split; reflexivity.
    + destruct e; cbn [snd fst]; try reflexivity;
        eexists; (split; [reflexivity|]); cbn [doc_error]; split; discriminate.
Qed.

(** X15.  Without [--json], standard output carries nothing but the
    one line of the quiet mode after a success, [OK] for [verify] and the
    bundle path for [pack]; every message, table and panel goes to standard
    error, and a failure always writes something there. *)
Theorem cli_stdout_without_json (rich_installed : bool) (env : environ) (m : machine)
    (bundle : string) (file : option bundle_file) (sig cert : option string)
    (cosign : option bool) (i : inputs) (bundle_path : string)
    (previous : option bundle_file) (quiet : bool) :
  let v := Cli.verify rich_installed m bundle file sig cert cosign quiet false in
  let p := Cli.pack rich_installed env m i bundle_path previous quiet false in
  List.filter on_stdout v.1
  = (if quiet && bool_decide (v.2 = Some 0%Z) then [Stdout "OK"] else [])
  /\ List.filter on_stdout p.1.2
     = (if quiet && bool_decide (p.2 = Some 0%Z) then [Stdout bundle_path] else [])
  /\ (v.2 = Some 1%Z \/ v.2 = Some 2%Z ->
      List.filter (fun o => negb (on_stdout o)) v.1 <> [])
  /\ (p.2 = Some 1%Z -> List.filter (fun o => negb (on_stdout o)) p.1.2 <> []).
Proof.
  cbv zeta. pose proof (pack_payload m env i bundle_path previous) as Hpay.
  unfold Cli.verify, Cli.pack.
  destruct (create_bundle env m i bundle_path previous) as [f [r|e]].
  - rewrite (Hpay f r eq_refl). clear Hpay.
    destruct file as [b|];
      [destruct (verify_bundle m bundle (Some b) sig cert cosign) as [r'|e'];
       [destruct (truthy (error r'))|destruct e']|];
      destruct rich_installed, quiet; cbn;
      repeat split; try reflexivity; try discriminate;
      try (intros [?|?]; discriminate).
  - clear Hpay.
    destruct file as [b|];
      [destruct (verify_bundle m bundle (Some b) sig cert cosign) as [r'|e'];
       [destruct (truthy (error r'))|destruct e']|];
      destruct e, rich_installed, quiet; cbn;
      repeat split; try reflexivity; try discriminate;
      try (intros [?|?]; discriminate).
Qed.

(** ** The reading loop *)

Section Chunks.

Lemma str_app_nil_r (s : string) : s +:+ "" = s.
Proof.
  induction s as [|c s IH]; [reflexivity|].
  change (String c (s +:+ "") = String c s). rewrite IH. reflexivity.
Qed.

Lemma str_app_assoc (a b c : string) : (a +:+ b) +:+ c = a +:+ (b +:+ c).
Proof.
  induction a as [|x a IH]; [reflexivity|].
  change (String x ((a +:+ b) +:+ c) = String x (a +:+ (b +:+ c))). rewrite IH. reflexivity.
Qed.

Lemma take_bytes_drop (n : nat) (s : string) : take_bytes n s +:+ PyStr.drop n s = s.
Proof.
  revert s. induction n as [|n IH]; intros s; [reflexivity|].
  destruct s as [|c s]; [reflexivity|].
  change (String c (take_bytes n s +:+ PyStr.drop n s) = String c s). rewrite IH. reflexivity.
Qed.

Lemma take_empty (n : nat) (s : string) : 0 < n -> take_bytes n s = "" -> s = "".
Proof. destruct n; [lia|]. destruct s; [reflexivity|discriminate]. Qed.

(** Whatever the size of the chunks, the loop feeds the hash object the
    whole content, in order. *)
Lemma read_loop_feeds_all (size : nat) (rest fed : string) :
  0 < size -> read_loop size rest fed = fed +:+ rest.
Proof.
  intros Hsize. funelim (read_loop size rest fed);
    repeat match goal with
           | E : sigmaI _ _ _ = sigmaI _ _ _ |- _ => clear E
           | E : _ = read_loop _ _ _ |- _ => clear E
           end.
  - match goal with
    | E : take_bytes _ _ = "" |- _ => apply (take_empty _ _ Hsize) in E; subst
    end.
    rewrite str_app_nil_r. reflexivity.
  - match goal with
    | E : take_bytes _ _ = String _ _, IH : 0 < _ -> _ |- _ =>
        rewrite IH by exact Hsize; rewrite str_app_assoc, <- E, take_bytes_drop
    end.
    reflexivity.
Qed.

End Chunks.

(** X16.  The chunked reading loops feed the whole content to the hash:
    [compute_file_sha256], which reads 4096 bytes at a time, returns or
    raises what [calculate_file_hash] does, and the loop with chunks of 65536
    bytes yields the digest of the content. *)
Theorem digest_independent_of_chunk_size (fs : tree) (p : path) (data : string) :
  compute_file_sha256 fs p = calculate_file_hash fs p
  /\ Sha256.hexdigest (read_loop (N.to_nat 65536) data "") = Sha256.hexdigest data.
Proof.
  split.
  - unfold compute_file_sha256, calculate_file_hash.
    destruct (fs_lookup fs p) as [[[bytes| |] st]|]; try reflexivity.
    rewrite read_loop_feeds_all by lia. reflexivity.
  - rewrite read_loop_feeds_all by lia. reflexivity.
Qed.

(** ** [stable_json_write]: key order *)

Section JsonKeys.

#[local] Instance key_le_trans : Transitive Json.key_le.
Proof. intros a b c. unfold Json.key_le. apply (transitivity (R:=PyStr.le)). Qed.

#[local] Instance key_le_total : Total Json.key_le.
Proof. intros a b. unfold Json.key_le. apply (total PyStr.le). Qed.

(** Items with different keys have one sorted order. *)
Lemma sorted_items_unique (l1 l2 : list (string * string)) :
  NoDup (List.map fst l1) -> l1 ≡ₚ l2 ->
  merge_sort Json.key_le l1 = merge_sort Json.key_le l2.
Proof.
  intros Hnd Hperm. apply (StronglySorted_unique_strong Json.key_le).
  - intros x1 x2 H1 H2 Hle Hge.
    assert (x1.1 = x2.1) as Hkey by (apply (anti_symm PyStr.le); assumption).
    rewrite merge_sort_Permutation in H1, H2. rewrite <- Hperm in H2.
    clear Hperm Hle Hge. induction l1 as [|y l1 IH]; [apply elem_of_nil in H1; contradiction|].
    cbn [List.map] in Hnd. apply NoDup_cons in Hnd as [Hy Hnd].
    assert (forall z, z ∈ l1 -> z.1 <> y.1) as Hfresh.
    { intros z Hz Heq. apply Hy. rewrite <- Heq. apply list_elem_of_fmap. eauto. }
    apply elem_of_cons in H1 as [->|H1], H2 as [->|H2].
    + reflexivity.
    + exfalso. apply (Hfresh x2 H2). congruence.
    + exfalso. apply (Hfresh x1 H1). congruence.
    + apply IH; assumption.
  - apply StronglySorted_merge_sort; apply _.
  - apply StronglySorted_merge_sort; apply _.
  - rewrite !merge_sort_Permutation. exact Hperm.
Qed.

Lemma dumps_items_perm (level : nat) (d1 d2 : list (string * Json.t)) :
  d1 ≡ₚ d2 ->
  List.map (fun kv => (kv.1, Json.dumps level kv.2)) d1
  ≡ₚ List.map (fun kv => (kv.1, Json.dumps level kv.2)) d2.
Proof. intros H. apply Permutation_map. exact H. Qed.

Lemma dumps_dict_key_order (level : nat) (d1 d2 : list (string * Json.t)) :
  NoDup (List.map fst d1) -> d1 ≡ₚ d2 ->
  Json.dumps level (Json.Dict d1) = Json.dumps level (Json.Dict d2).
Proof.
  intros Hnd Hperm. cbn [Json.dumps].
  destruct d1 as [|x d1], d2 as [|y d2].
  - reflexivity.
  - apply Permutation_nil_cons in Hperm. contradiction.
  - symmetry in Hperm. apply Permutation_nil_cons in Hperm. contradiction.
  - rewrite (sorted_items_unique
               (List.map (fun kv => (kv.1, Json.dumps (S level) kv.2)) (x :: d1))
               (List.map (fun kv => (kv.1, Json.dumps (S level) kv.2)) (y :: d2))).
    + reflexivity.
    + rewrite List.map_map. exact Hnd.
    + apply dumps_items_perm. exact Hperm.
Qed.

End JsonKeys.

(** X17.  [stable_json_write] does not depend on the insertion order of
    the dictionary it is given: two dictionaries with the same entries, keys
    distinct, in any two orders give the same file and the same outcome. *)
Theorem stable_json_write_key_order (m : machine) (fs : tree) (p : path)
    (d1 d2 : list (string * Json.t)) :
  NoDup (List.map fst d1) -> d1 ≡ₚ d2 ->
  stable_json_write m fs p (Json.Dict d1) = stable_json_write m fs p (Json.Dict d2).
Proof.
  intros Hnd Hperm. unfold stable_json_write.
  rewrite (dumps_dict_key_order 0 d1 d2 Hnd Hperm). reflexivity.
Qed.

(** ** [get_source_date_epoch]: decimal texts *)

(** [utf8_decode] accepts the strings that are valid UTF-8. *)
Lemma utf8_decode_valid (s : string) :
  PyStr.utf8_valid s = bool_decide (is_Some (utf8_decode s)).
Proof.
  remember (String.length s) as n eqn:Hn. revert s Hn.
  induction n as [n IH] using lt_wf_ind. intros s Hn.
  assert (forall t, String.length t < n ->
            PyStr.utf8_valid t = bool_decide (is_Some (utf8_decode t))) as IH'
    by (intros t Ht; exact (IH _ Ht t eq_refl)).
  assert (forall (f : list N -> list N) t,
            bool_decide (is_Some (f <$> utf8_decode t))
            = bool_decide (is_Some (utf8_decode t))) as Hmap.
  { intros f t. destruct (utf8_decode t); reflexivity. }
  destruct s as [|b0 s1]; [reflexivity|].
  cbn [PyStr.utf8_valid utf8_decode]. cbn [String.length] in Hn.
  destruct (PyStr.in_range 0 127 b0); [rewrite Hmap; apply IH'; lia|].
  destruct s1 as [|b1 s2]; [reflexivity|]. cbn [String.length] in Hn.
  destruct (PyStr.in_range 194 223 b0).
  { destruct (PyStr.in_range 128 191 b1); [|reflexivity].
    rewrite Hmap. cbn [andb]. apply IH'. lia. }
  destruct s2 as [|b2 s3]; [reflexivity|]. cbn [String.length] in Hn.
  destruct (PyStr.in_range 224 239 b0).
  { destruct ((if PyStr.in_range 224 224 b0 then PyStr.in_range 160 191 b1
               else if PyStr.in_range 237 237 b0 then PyStr.in_range 128 159 b1
               else PyStr.in_range 128 191 b1) && PyStr.in_range 128 191 b2);
      [|reflexivity].
    rewrite Hmap. cbn [andb]. apply IH'. lia. }
  destruct s3 as [|b3 s4]; [reflexivity|]. cbn [String.length] in Hn.
  destruct (PyStr.in_range 240 244 b0
            && (if PyStr.in_range 240 240 b0 then PyStr.in_range 144 191 b1
                else if PyStr.in_range 244 244 b0 then PyStr.in_range 128 143 b1
                else PyStr.in_range 128 191 b1)
            && PyStr.in_range 128 191 b2 && PyStr.in_range 128 191 b3);
    [|reflexivity].
  rewrite Hmap. cbn [andb]. apply IH'. lia.
Qed.

Section Decimal.

Lemma all_chars_app (f : ascii -> bool) (a b : string) :
  all_chars f (a +:+ b) = all_chars f a && all_chars f b.
Proof.
  induction a as [|c a IH]; [reflexivity|].
  change (String c a +:+ b) with (String c (a +:+ b)). cbn [all_chars].
  rewrite IH, andb_assoc. reflexivity.
Qed.

Lemma all_chars_rev_onto (f : ascii -> bool) (s acc : string) :
  all_chars f (PyStr.rev_onto s acc) = all_chars f s && all_chars f acc.
Proof.
  revert acc. induction s as [|c s IH]; intros acc; cbn [PyStr.rev_onto all_chars];
    [reflexivity|].
  rewrite IH. cbn [all_chars]. destruct (f c), (all_chars f s); reflexivity.
Qed.

Lemma rev_onto_onto (s a b : string) :
  PyStr.rev_onto (PyStr.rev_onto s a) b = PyStr.rev_onto a (s +:+ b).
Proof.
  revert a b. induction s as [|c s IH]; intros a b; cbn [PyStr.rev_onto]; [reflexivity|].
  rewrite IH. reflexivity.
Qed.

Lemma str_rev_involutive (s : string) : PyStr.rev (PyStr.rev s) = s.
Proof. unfold PyStr.rev. rewrite rev_onto_onto. cbn. apply str_app_nil_r. Qed.

Lemma lstrip_plain (c : ascii) (s : string) :
  plain c = true -> PyStr.lstrip (String c s) = String c s.
Proof.
  unfold plain. intros H. apply andb_true_iff in H as [Hws Hlow].
  apply negb_true_iff in Hws. apply N.ltb_lt in Hlow. cbn [PyStr.lstrip]. rewrite Hws.
  assert (forall lo hi, (128 <= lo)%N -> PyStr.in_range lo hi c = false) as Hhigh.
  { intros lo hi Hlo. unfold PyStr.in_range. apply andb_false_iff. left.
    apply N.leb_gt. lia. }
  destruct s as [|b s]; [reflexivity|].
  unfold PyStr.ws2. rewrite Hhigh by lia. cbn [andb].
  destruct s as [|d s]; [reflexivity|].
  unfold PyStr.ws3. rewrite !Hhigh by lia. reflexivity.
Qed.

Lemma lstrip_rev_plain (c : ascii) (s : string) :
  plain c = true -> PyStr.lstrip_rev (String c s) = String c s.
Proof.
  unfold plain. intros H. apply andb_true_iff in H as [Hws Hlow].
  apply negb_true_iff in Hws. apply N.ltb_lt in Hlow. cbn [PyStr.lstrip_rev]. rewrite Hws.
  assert (forall lo hi, (128 <= lo)%N -> PyStr.in_range lo hi c = false) as Hhigh.
  { intros lo hi Hlo. unfold PyStr.in_range. apply andb_false_iff. left.
    apply N.leb_gt. lia. }
  destruct s as [|b s]; [reflexivity|].
  unfold PyStr.ws2. rewrite !Hhigh by lia. rewrite andb_false_r.
  destruct s as [|d s]; [reflexivity|].
  unfold PyStr.ws3. rewrite !Hhigh by lia. rewrite !andb_false_r. reflexivity.
Qed.

(** [strip] leaves a string of plain characters alone. *)
Lemma strip_plain (s : string) : all_chars plain s = true -> PyStr.strip s = s.
Proof.
  intros H. unfold PyStr.strip, PyStr.rstrip.
  assert (PyStr.lstrip s = s) as ->.
  { destruct s as [|c s]; [reflexivity|]. cbn [all_chars] in H.
    apply andb_true_iff in H as [Hc _]. apply lstrip_plain. exact Hc. }
  assert (all_chars plain (PyStr.rev s) = true) as Hrev.
  { unfold PyStr.rev. rewrite all_chars_rev_onto, H. reflexivity. }
  destruct (PyStr.rev s) as [|c r] eqn:E.
  - cbn. rewrite <- (str_rev_involutive s), E. reflexivity.
  - cbn [all_chars] in Hrev. apply andb_true_iff in Hrev as [Hc _].
    rewrite (lstrip_rev_plain c r Hc), <- E. apply str_rev_involutive.
Qed.

Lemma size_nat_gt (n : N) : (n < 2 ^ N.of_nat (N.size_nat n))%N.
Proof.
  destruct n as [|p]; [reflexivity|]. cbn [N.size_nat].
  induction p as [p IH|p IH|]; cbn [Pos.size_nat].
  - rewrite Nat2N.inj_succ, N.pow_succ_r'. lia.
  - rewrite Nat2N.inj_succ, N.pow_succ_r'. lia.
  - reflexivity.
Qed.

Lemma digit_char (d : N) :
  (d < 10)%N ->
  is_digit (ascii_of_N (48 + d)) = true
  /\ (Z.of_N (PyStr.ord (ascii_of_N (48 + d))) - 48 = Z.of_N d)%Z.
Proof.
  intros Hd. unfold is_digit, PyStr.in_range, PyStr.ord.
  rewrite N_ascii_embedding by lia. split; [|lia].
  apply andb_true_iff. split; apply N.leb_le; lia.
Qed.

Lemma str_length_app (a b : string) :
  String.length (a +:+ b) = String.length a + String.length b.
Proof.
  induction a as [|c a IH]; [reflexivity|].
  change (String c a +:+ b) with (String c (a +:+ b)). cbn [String.length].
  rewrite IH. reflexivity.
Qed.

(** The digits [N_digits] writes, read by [digits_value]. *)
Lemma N_digits_value (f : nat) (n : N) (s : string) :
  (n < 2 ^ N.of_nat (S f))%N ->
  exists D c,
    Json.N_digits (S f) n s = String c D +:+ s
    /\ all_chars is_digit (String c D) = true
    /\ (10 ^ N.of_nat (String.length D) <= N.max n 1)%N
    /\ forall t a d b, exists k, (0 <= k)%Z /\
         digits_value (String c D +:+ t) a d b
         = digits_value t (a * 10 ^ k + Z.of_N n)%Z
             (d + N.of_nat (String.length (String c D)))%N true.
Proof.
  revert n s. induction f as [|f IH]; intros n s Hn;
    cbn [Json.N_digits];
    assert (n mod 10 < 10)%N as Hmod by (apply N.mod_lt; lia);
    destruct (digit_char (n mod 10) Hmod) as [Hdig Hval];
    destruct (n <? 10)%N eqn:Hlt.
  1, 3: apply N.ltb_lt in Hlt; exists "", (ascii_of_N (48 + n mod 10));
    (split; [reflexivity|]);
    (split; [cbn [all_chars]; rewrite Hdig; reflexivity|]);
    (split; [cbn [String.length N.of_nat]; rewrite N.pow_0_r; lia|]);
    intros t a d b; exists 1%Z; (split; [lia|]);
    change (String (ascii_of_N (48 + n mod 10)) "" +:+ t)
      with (String (ascii_of_N (48 + n mod 10)) t);
    cbn [digits_value]; rewrite Hdig, Hval;
    rewrite N.mod_small by exact Hlt; f_equal; cbn [String.length]; lia.
  - apply N.ltb_ge in Hlt. cbn in Hn. lia.
  - apply N.ltb_ge in Hlt.
    destruct (IH (n / 10)%N (String (ascii_of_N (48 + n mod 10)) s))
      as (D & c & Heq & Hc & Hlen & Hparse).
    { rewrite Nat2N.inj_succ, N.pow_succ_r' in Hn.
      assert (n / 10 <= n / 2)%N by (apply N.div_le_compat_l; lia).
      assert (n / 2 < 2 ^ N.of_nat (S f))%N by (apply N.Div0.div_lt_upper_bound; lia).
      lia. }
    exists (D +:+ String (ascii_of_N (48 + n mod 10)) ""), c.
    split; [|split; [|split]].
    2:{ change (String c (D +:+ String (ascii_of_N (48 + n mod 10)) ""))
          with (String c D +:+ String (ascii_of_N (48 + n mod 10)) "").
        rewrite all_chars_app, Hc. cbn [all_chars]. rewrite Hdig. reflexivity. }
    + change (Json.N_digits (S f) (n / 10) (String (ascii_of_N (48 + n mod 10)) s)
              = String c (D +:+ String (ascii_of_N (48 + n mod 10)) "") +:+ s).
      rewrite Heq.
      change (String c (D +:+ String (ascii_of_N (48 + n mod 10)) s)
              = String c ((D +:+ String (ascii_of_N (48 + n mod 10)) "") +:+ s)).
      rewrite str_app_assoc. reflexivity.
    + rewrite str_length_app. cbn [String.length].
      replace (N.of_nat (String.length D + 1)) with (N.succ (N.of_nat (String.length D)))
        by lia.
      rewrite N.pow_succ_r'.
      assert (1 <= n / 10)%N as H1.
      { apply N.div_le_lower_bound; lia. }
      assert (10 * (n / 10) <= n)%N as H2.
      { apply (N.Div0.mul_div_le n 10). }
      lia.
    + intros t a d b.
      destruct (Hparse (String (ascii_of_N (48 + n mod 10)) t) a d b) as (k & Hk0 & Hk).
      exists (k + 1)%Z. split; [lia|].
      change (String c (D +:+ String (ascii_of_N (48 + n mod 10)) "") +:+ t)
        with (String c ((D +:+ String (ascii_of_N (48 + n mod 10)) "") +:+ t)).
      rewrite str_app_assoc.
      change (String c (D +:+ (String (ascii_of_N (48 + n mod 10)) "" +:+ t)))
        with (String c D +:+ String (ascii_of_N (48 + n mod 10)) t).
      rewrite Hk. cbn [digits_value]. rewrite Hdig, Hval.
      cbn [String.length]. rewrite str_length_app. cbn [String.length]. f_equal.
      * rewrite Z.pow_add_r by lia.
        pose proof (N.div_mod n 10 ltac:(lia)) as Hdm. lia.
      * lia.
Qed.

End Decimal.

Section Epoch.

Lemma all_chars_impl (f g : ascii -> bool) (s : string) :
  (forall c, f c = true -> g c = true) -> all_chars f s = true -> all_chars g s = true.
Proof.
  intros Hfg. induction s as [|c s IH]; [reflexivity|]. cbn [all_chars].
  intros H. apply andb_true_iff in H as [Hc Hs]. rewrite (Hfg c Hc), (IH Hs). reflexivity.
Qed.

Lemma digit_plain (c : ascii) : is_digit c = true -> plain c = true.
Proof.
  unfold is_digit, plain, PyStr.ws1, PyStr.in_range. intros H.
  apply andb_true_iff in H as [H1 H2]. apply N.leb_le in H1, H2.
  apply andb_true_iff. split; [|apply N.ltb_lt; lia].
  apply negb_true_iff, orb_false_iff. split; apply andb_false_iff.
  - right. apply N.leb_gt. lia.
  - right. apply N.leb_gt. lia.
Qed.

Lemma digit_literal (c : ascii) : is_digit c = true -> literal_char c = true.
Proof.
  unfold is_digit, literal_char, is_c_space, PyStr.in_range. intros H.
  apply andb_true_iff in H as [H1 H2]. apply N.leb_le in H1, H2.
  apply andb_true_iff. split; [apply N.ltb_lt; lia|].
  apply negb_true_iff, orb_false_iff. split; apply andb_false_iff.
  - right. apply N.leb_gt. lia.
  - right. apply N.leb_gt. lia.
Qed.

(** [int] sees a string of such characters as it is. *)
Lemma decode_literal (s : string) :
  all_chars literal_char s = true ->
  exists cps, utf8_decode s = Some cps /\ transform cps = Some s.
Proof.
  induction s as [|c s IH]; [exists []; split; reflexivity|].
  cbn [all_chars]. intros H. apply andb_true_iff in H as [Hc Hs].
  destruct (IH Hs) as (cps & Hd & Ht).
  unfold literal_char in Hc. apply andb_true_iff in Hc as [Hlow _].
  apply N.ltb_lt in Hlow.
  exists (PyStr.ord c :: cps). split.
  - cbn [utf8_decode].
    assert (PyStr.in_range 0 127 c = true) as ->.
    { unfold PyStr.in_range. apply andb_true_iff. split; apply N.leb_le; lia. }
    rewrite Hd. reflexivity.
  - cbn [transform]. unfold to_ascii.
    assert ((PyStr.ord c <? 127)%N = true) as -> by (apply N.ltb_lt; exact Hlow).
    unfold PyStr.ord. rewrite ascii_N_embedding, Ht. reflexivity.
Qed.

Lemma strip_c_literal (s : string) :
  all_chars literal_char s = true -> strip_c s = s.
Proof.
  intros H. unfold strip_c.
  assert (forall t, all_chars literal_char t = true -> lstrip_c t = t) as Hl.
  { intros [|c t]; [reflexivity|]. cbn [all_chars lstrip_c]. intros Ht.
    apply andb_true_iff in Ht as [Hc _]. unfold literal_char in Hc.
    apply andb_true_iff in Hc as [_ Hc]. apply negb_true_iff in Hc. rewrite Hc.
    reflexivity. }
  rewrite (Hl s H), Hl.
  - apply str_rev_involutive.
  - unfold PyStr.rev. rewrite all_chars_rev_onto, H. reflexivity.
Qed.

Lemma py_int_str_of_N (n : N) :
  exists c D, Json.str_of_N n = String c D
    /\ all_chars is_digit (String c D) = true
    /\ (10 ^ N.of_nat (String.length D) <= N.max n 1)%N
    /\ digits_value (String c D) 0 0 false
       = Some (Z.of_N n, N.of_nat (String.length (String c D))).
Proof.
  unfold Json.str_of_N.
  destruct (N_digits_value (N.size_nat n) n "") as (D & c & Heq & Hc & Hlen & Hparse).
  { pose proof (size_nat_gt n) as H. rewrite Nat2N.inj_succ, N.pow_succ_r'. lia. }
  rewrite str_app_nil_r in Heq. exists c, D. split; [exact Heq|]. split; [exact Hc|].
  split; [exact Hlen|].
  destruct (Hparse "" 0%Z 0%N false) as (k & _ & Hk). rewrite str_app_nil_r in Hk.
  rewrite Hk. cbn [digits_value]. rewrite N.add_0_l.
  replace (0 * 10 ^ k + Z.of_N n)%Z with (Z.of_N n) by lia. reflexivity.
Qed.

Lemma few_digits (n : N) (c : ascii) (D : string) :
  (10 ^ N.of_nat (String.length D) <= N.max n 1)%N ->
  (Z.of_N n < 10 ^ 4300)%Z ->
  (N.of_nat (String.length (String c D)) <=? int_max_str_digits)%N = true.
Proof.
  intros Hlen Hn. apply N.leb_le. unfold int_max_str_digits. cbn [String.length].
  assert (10 ^ N.of_nat (String.length D) < 10 ^ 4300)%N as Hlt.
  { eapply N.le_lt_trans; [exact Hlen|]. apply N.max_lub_lt.
    - apply N2Z.inj_lt. rewrite N2Z.inj_pow. exact Hn.
    - apply N.pow_gt_1; [reflexivity|discriminate]. }
  clear Hlen Hn. apply N.pow_lt_mono_r_iff in Hlt; [lia|reflexivity].
Qed.

Lemma py_int_str_of_Z (z : Z) :
  (Z.abs z < 10 ^ 4300)%Z -> py_int (Json.str_of_Z z) = Some z.
Proof.
  intros Hz. unfold py_int. destruct z as [|p|p]; [reflexivity| |]; cbn [Json.str_of_Z].
  - destruct (py_int_str_of_N (Npos p)) as (c & D & -> & Hd & Hlen & Hv).
    assert (all_chars literal_char (String c D) = true) as Hlit
      by (apply (all_chars_impl is_digit); [apply digit_literal|exact Hd]).
    destruct (decode_literal _ Hlit) as (cps & -> & ->).
    rewrite (strip_c_literal _ Hlit).
    pose proof (few_digits (Npos p) c D Hlen Hz) as Hfew.
    cbn [all_chars] in Hd. apply andb_true_iff in Hd as [Hc _].
    destruct c as [[] [] [] [] [] [] [] []];
      try (vm_compute in Hc; discriminate Hc); rewrite Hv, Hfew; reflexivity.
  - destruct (py_int_str_of_N (Npos p)) as (c & D & -> & Hd & Hlen & Hv).
    change ("-" +:+ String c D) with (String "-" (String c D)).
    assert (all_chars literal_char (String "-" (String c D)) = true) as Hlit.
    { change (literal_char "-" && all_chars literal_char (String c D) = true).
      rewrite (all_chars_impl is_digit literal_char _ digit_literal Hd). reflexivity. }
    destruct (decode_literal _ Hlit) as (cps & -> & ->).
    rewrite (strip_c_literal _ Hlit), Hv.
    rewrite (few_digits (Npos p) c D Hlen Hz). reflexivity.
Qed.

End Epoch.


(** ** The SBOM step *)

(** X19.  The SBOM step of [create_bundle] has four outcomes, each for
    exactly the inputs named.  No [sbom] directory is made, and the tool is
    reported as [none], exactly when the format is [none], or [auto] with
    neither tool installed.  [cyclonedx-py] is run, writing
    [sbom/sbom.cdx.json], exactly when the format is [cyclonedx] or [auto]
    and it is installed; [syft] is run, writing [sbom/sbom.syft.json],
    exactly when it is installed and the format is [syft], or [auto] without
    [cyclonedx-py].  In every other case (an explicit tool that is missing,
    or any other format) the directory is made, nothing is run, and the
    requested format is reported as the tool. *)
Theorem sbom_file_matches_tool (which : string -> bool) (stage_dir sbom_format : string) :
  let step := sbom_step which stage_dir sbom_format in
  let run_cyclonedx :=
    ("cyclonedx",
     Some ("sbom.cdx.json",
           Some ["cyclonedx-py"; "environment"; "--output-format"; "json";
                 "--output-file"; stage_dir +:+ "/sbom/sbom.cdx.json"])) in
  let run_syft :=
    ("syft",
     Some ("sbom.syft.json",
           Some ["syft"; "."; "-o"; "cyclonedx-json"; "--file";
                 stage_dir +:+ "/sbom/sbom.syft.json"])) in
  let run_nothing :=
    (sbom_format,
     Some (if String.eqb sbom_format "cyclonedx" then "sbom.cdx.json"
           else "sbom.syft.json", None)) in
  let cyclonedx := which "cyclonedx-py" in
  let syft := which "syft" in
  (step = ("none", None) <->
     sbom_format = "none" \/ (sbom_format = "auto" /\ cyclonedx = false /\ syft = false))
  /\ (step = run_cyclonedx <->
        (sbom_format = "cyclonedx" \/ sbom_format = "auto") /\ cyclonedx = true)
  /\ (step = run_syft <->
        (sbom_format = "syft" \/ (sbom_format = "auto" /\ cyclonedx = false))
        /\ syft = true)
  /\ (step = run_nothing <->
        sbom_format <> "none" /\ sbom_format <> "auto"
        /\ (sbom_format = "cyclonedx" -> cyclonedx = false)
        /\ (sbom_format = "syft" -> syft = false))
  /\ (step = ("none", None) \/ step = run_cyclonedx \/ step = run_syft
      \/ step = run_nothing).
Proof.
  cbv zeta. unfold sbom_step, eff_tool, generate_sbom.
  destruct (String.eqb_spec sbom_format "none") as [->|Hnone];
    [cbn; intuition congruence|].
  destruct (String.eqb_spec sbom_format "auto") as [->|Hauto];
    [destruct (which "cyclonedx-py"), (which "syft"); cbn; intuition congruence|].
  destruct (String.eqb_spec sbom_format "cyclonedx") as [->|Hcdx];
    [destruct (which "cyclonedx-py"); cbn; intuition congruence|].
  destruct (String.eqb_spec sbom_format "syft") as [->|Hsyft];
    [destruct (which "syft"); cbn; intuition congruence|].
  assert (String.eqb sbom_format "none" = false) as Hn by (apply String.eqb_neq; exact Hnone).
  cbn. rewrite ?Hn. intuition congruence.
Qed.

(** ** Includes and the file count *)

Section Includes.

Context (env : environ) (m : machine).

Lemma stage_includes_app (i : inputs) (l1 l2 : list string)
    (st : tree * list (string * Json.t)) :
  stage_includes m i (l1 ++ l2) st
  = (st' <-! stage_includes m i l1 st; stage_includes m i l2 st').
Proof.
  revert st. induction l1 as [|x l1 IH]; intros st; [reflexivity|].
  cbn [app stage_includes]. destruct (stage_include m i x st); cbn [bind]; [apply IH|reflexivity].
Qed.

Lemma stage_include_missing (i : inputs) (inc_str : string)
    (st : tree * list (string * Json.t)) :
  include_missing i inc_str = true -> stage_include m i inc_str st = Ok st.
Proof.
  unfold include_missing, stage_include. destruct st as [stage input_log].
  intros H. apply andb_true_iff in H as [_ H]. revert H.
  destruct (clean_rel (in_repo_root i) inc_str) as [rel|]; [|reflexivity].
  intros H. apply andb_true_iff in H as [Hne Hmiss].
  apply negb_true_iff in Hne, Hmiss. rewrite Hne. unfold exists_ in Hmiss.
  destruct (fs_lookup (in_repo i) rel); [discriminate|reflexivity].
Qed.

Lemma stage_includes_with (i : inputs) (l l' : list string)
    (st : tree * list (string * Json.t)) :
  stage_includes m (with_includes i l') l st = stage_includes m i l st.
Proof.
  revert st. induction l as [|x l IH]; intros st; [reflexivity|].
  cbn [stage_includes].
  assert (stage_include m (with_includes i l') x st = stage_include m i x st) as ->
    by reflexivity.
  destruct (stage_include m i x st); cbn [bind]; [apply IH|reflexivity].
Qed.

Lemma stage_includes_skip (i : inputs) (before after : list string) (inc_str : string)
    (st : tree * list (string * Json.t)) :
  include_missing i inc_str = true ->
  stage_includes m i (before ++ inc_str :: after) st
  = stage_includes m i (before ++ after) st.
Proof.
  intros H. rewrite !stage_includes_app.
  destruct (stage_includes m i before st) as [st'|e]; cbn [bind]; [|reflexivity].
  cbn [stage_includes]. rewrite (stage_include_missing i inc_str st' H). reflexivity.
Qed.

End Includes.


Section Counting.

Context (env : environ) (m : machine).

Lemma pack_entries_length (stage_dir : tree) (todo : list path) (ms : list member) :
  pack_entries env m stage_dir todo = (ms, None) -> List.length ms = List.length todo.
Proof.
  intros H. pose proof (pack_entries_names env m stage_dir todo) as Hn.
  rewrite H in Hn. destruct Hn as [_ Hn]. specialize (Hn eq_refl).
  apply (f_equal (@List.length _)) in Hn. rewrite !List.length_map in Hn. exact Hn.
Qed.

End Counting.

(** X21.  [file_count] in the result of [create_bundle] is the number of
    entries of the staging directory, directories and the manifest included:
    it exceeds the number of members of the archive by the number of
    [.DS_Store] entries. *)
Theorem file_count_counts_entries (env : environ) (m : machine) (i : inputs)
    (bundle_path : string) (previous f : option bundle_file) (r : pack_result) :
  create_bundle env m i bundle_path previous = (f, Ok r) ->
  exists stage b,
    stage_tree env m i = Ok stage
    /\ f = Some b
    /\ file_count r = List.length (rglob stage)
    /\ file_count r
       = List.length (tar_members b)
         + List.length (List.filter (fun p => negb (kept p)) (rglob stage)).
Proof.
  unfold create_bundle. destruct (stage_tree env m i) as [stage|e]; [|discriminate].
  rewrite write_bundle_eq. cbv zeta.
  destruct (pack_entries env m stage (List.filter kept (sorted_paths (rglob stage))))
    as [ms [e|]] eqn:Hp; cbn [fst snd]; [discriminate|].
  intros [= <- <-]. exists stage. eexists. split; [reflexivity|]. split; [reflexivity|].
  cbn [file_count tar_members]. split; [reflexivity|].
  rewrite (pack_entries_length env m stage _ ms Hp).
  rewrite (Permutation_length (filter_perm kept _ _ (sorted_paths_perm (rglob stage)))).
  symmetry. apply List.filter_length.
Qed.

(** ** The layout of a bundle *)

Section Layout.

Context (m : machine) (P : path -> Prop).

Lemma write_file_keeps (fs fs' : tree) (p : path) (data : string) :
  write_file m fs p data = Ok fs' ->
  Forall P (rglob fs) -> P p -> Forall P (rglob fs').
Proof.
  intros H Hfs Hp. apply write_file_inv in H as (_ & _ & [[-> _]|[-> _]]); [exact Hfs|].
  unfold rglob. rewrite List.map_app. apply Forall_app. split; [exact Hfs|].
  constructor; [exact Hp|constructor].
Qed.

Lemma stable_json_write_keeps (fs fs' : tree) (p : path) (data : Json.t) :
  stable_json_write m fs p data = Ok fs' ->
  Forall P (rglob fs) -> P p -> Forall P (rglob fs').
Proof.
  unfold stable_json_write. destruct (PyStr.utf8_valid _); [|discriminate].
  apply write_file_keeps.
Qed.

Lemma mkdir_keeps (fs fs' : tree) (p : path) :
  mkdir m fs p = Ok fs' -> Forall P (rglob fs) -> P p -> Forall P (rglob fs').
Proof.
  unfold mkdir. destruct (fs_lookup fs p); [discriminate|]. intros [= <-] Hfs Hp.
  unfold rglob. rewrite List.map_app. apply Forall_app. split; [exact Hfs|].
  constructor; [exact Hp|constructor].
Qed.

Lemma mkdir_exist_ok_keeps (fs fs' : tree) (p : path) :
  mkdir_exist_ok m fs p = Ok fs' -> Forall P (rglob fs) -> P p -> Forall P (rglob fs').
Proof.
  intros H Hfs Hp. apply mkdir_exist_ok_inv in H as [_ [[-> _]|[-> _]]]; [exact Hfs|].
  unfold rglob. rewrite List.map_app. apply Forall_app. split; [exact Hfs|].
  constructor; [exact Hp|constructor].
Qed.

Lemma fs_put_keeps (fs : tree) (p : path) (n : node) :
  Forall P (rglob fs) -> P p -> Forall P (rglob (fs_put fs p n)).
Proof.
  intros Hfs Hp. unfold fs_put. destruct (exists_ fs p).
  - rewrite rglob_replace. exact Hfs.
  - unfold rglob. rewrite List.map_app. apply Forall_app. split; [exact Hfs|].
    constructor; [exact Hp|constructor].
Qed.

Lemma copy_entries_keeps (todo : list (path * node)) (stage stage' : tree) :
  copy_entries m todo stage = Ok stage' ->
  Forall P (rglob stage) -> (forall q, P ("artifacts" :: q)) -> Forall P (rglob stage').
Proof.
  intros H Hfs Hp. revert stage H Hfs.
  induction todo as [|[q n] todo IH]; intros stage H Hfs.
  - injection H as <-. exact Hfs.
  - cbn [copy_entries] in H. destruct (n_kind n).
    + destruct (st_readable (n_stat n)); [|discriminate].
      apply (IH _ H). apply fs_put_keeps; [exact Hfs|apply Hp].
    + apply (IH _ H). apply fs_put_keeps; [exact Hfs|apply Hp].
    + discriminate.
Qed.

Lemma make_upperdirs_keeps (fs fs' : tree) (target : path) :
  make_upperdirs m fs [] target = Ok fs' ->
  Forall P (rglob fs) -> (forall n, 1 <= n -> P (List.firstn n target)) ->
  Forall P (rglob fs').
Proof.
  intros H Hfs Hp. apply Forall_forall. intros p Hin.
  destruct (make_upperdirs_entries m _ _ _ _ H p Hin) as [Hold|(n & Hn & ->)].
  - rewrite Forall_forall in Hfs. apply Hfs. exact Hold.
  - apply Hp. exact Hn.
Qed.

End Layout.

Section StagedLayout.

Context (env : environ) (m : machine).

Lemma in_layout_artifacts (q : path) : laid_out ("artifacts" :: q).
Proof. reflexivity. Qed.

Lemma stage_include_layout (i : inputs) (inc_str : string)
    (st st' : tree * list (string * Json.t)) :
  stage_include m i inc_str st = Ok st' -> Forall laid_out (rglob st.1) -> Forall laid_out (rglob st'.1).
Proof.
  unfold stage_include. destruct st as [stage input_log]. cbn [fst].
  destruct (clean_rel (in_repo_root i) inc_str) as [rel|]; [|intros [= <-]; auto].
  destruct (if bool_decide (rel = []) then _ else _) as [n|]; [|intros [= <-]; auto].
  destruct (make_upperdirs m stage [] ("artifacts" :: rel)) as [stage1|e] eqn:Hup;
    [|discriminate].
  cbn [bind]. intros H Hfs.
  assert (Forall laid_out (rglob stage1)) as H1.
  { apply (make_upperdirs_keeps m laid_out _ _ _ Hup Hfs). intros [|k] Hk; [lia|reflexivity]. }
  destruct (n_kind n).
  - destruct (st_readable (n_stat n)); [|discriminate]. injection H as <-. cbn [fst].
    apply fs_put_keeps; [exact H1|reflexivity].
  - destruct (copy_entries m _ _) as [stage2|e] eqn:Hcp; [|discriminate].
    cbn [bind] in H. injection H as <-. cbn [fst].
    apply (copy_entries_keeps m laid_out _ _ _ Hcp); [|apply in_layout_artifacts].
    apply fs_put_keeps; [exact H1|reflexivity].
  - discriminate.
Qed.

Lemma stage_includes_layout (i : inputs) (includes : list string)
    (st st' : tree * list (string * Json.t)) :
  stage_includes m i includes st = Ok st' -> Forall laid_out (rglob st.1) -> Forall laid_out (rglob st'.1).
Proof.
  revert st. induction includes as [|x l IH]; intros st H Hfs.
  - injection H as <-. exact Hfs.
  - cbn [stage_includes] in H.
    destruct (stage_include m i x st) as [st1|e] eqn:Hx; [|discriminate].
    cbn [bind] in H. apply (IH _ H). apply (stage_include_layout i x st st1 Hx Hfs).
Qed.

Lemma stage_inputs_layout (i : inputs) (stage : tree) :
  stage_inputs env m i = Ok stage -> Forall laid_out (rglob stage).
Proof.
  unfold stage_inputs. intros H.
  destruct (mkdir m [] ["artifacts"]) as [s0|e] eqn:H0; [|discriminate]. cbn [bind] in H.
  pose proof (mkdir_keeps m laid_out _ _ _ H0 (Forall_nil_2 _) eq_refl) as I0.
  destruct (stage_includes m i (in_includes i) (s0, [])) as [[s1 input_log]|e] eqn:H1;
    [|discriminate].
  cbn [bind] in H. pose proof (stage_includes_layout i _ _ _ H1 I0) as I1. cbn [fst] in I1.
  destruct (mkdir m s1 ["metadata"]) as [s2|e] eqn:H2; [|discriminate]. cbn [bind] in H.
  pose proof (mkdir_keeps m laid_out _ _ _ H2 I1 eq_refl) as I2.
  destruct (stable_json_write m s2 ["metadata"; "metadata.json"] _) as [s3|e] eqn:H3;
    [|discriminate].
  cbn [bind] in H. pose proof (stable_json_write_keeps m laid_out _ _ _ _ H3 I2 eq_refl) as I3.
  destruct (stable_json_write m s3 ["metadata"; "run.json"] _) as [s4|e] eqn:H4;
    [|discriminate].
  cbn [bind] in H. pose proof (stable_json_write_keeps m laid_out _ _ _ _ H4 I3 eq_refl) as I4.
  destruct (match in_git i with Some (_ :: _ as gdata) => _ | _ => Ok s4 end)
    as [s5|e] eqn:H5; [|discriminate].
  cbn [bind] in H.
  assert (Forall laid_out (rglob s5)) as I5.
  { destruct (in_git i) as [[|g gdata]|]; try (injection H5 as <-; exact I4).
    apply (stable_json_write_keeps m laid_out _ _ _ _ H5 I4 eq_refl). }
  destruct (match in_pip i with Some pf => _ | None => Ok s5 end) as [s6|e] eqn:H6;
    [|discriminate].
  cbn [bind] in H.
  assert (Forall laid_out (rglob s6)) as I6.
  { destruct (in_pip i) as [pf|]; [|injection H6 as <-; exact I5].
    destruct (String.eqb pf ""); [injection H6 as <-; exact I5|].
    destruct (mkdir_exist_ok m s5 ["deps"]) as [s5'|e] eqn:Hd; [|discriminate].
    cbn [bind] in H6. destruct (PyStr.utf8_valid pf); [|discriminate].
    apply (write_file_keeps m laid_out _ _ _ _ H6); [|reflexivity].
    apply (mkdir_exist_ok_keeps m laid_out _ _ _ Hd I5 eq_refl). }
  destruct (if String.eqb (in_sbom_tool i) "none" then Ok s6 else _) as [s7|e] eqn:H7;
    [|discriminate].
  cbn [bind] in H.
  assert (Forall laid_out (rglob s7)) as I7.
  { destruct (String.eqb (in_sbom_tool i) "none"); [injection H7 as <-; exact I6|].
    destruct (mkdir m s6 ["sbom"]) as [s6'|e] eqn:Hs; [|discriminate].
    cbn [bind] in H7. pose proof (mkdir_keeps m laid_out _ _ _ Hs I6 eq_refl) as I6'.
    destruct (in_sbom_file i); [|injection H7 as <-; exact I6'].
    apply (write_file_keeps m laid_out _ _ _ _ H7 I6'). reflexivity. }
  destruct (mkdir_exist_ok m s7 ["manifest"]) as [s8|e] eqn:H8; [|discriminate].
  cbn [bind] in H. pose proof (mkdir_exist_ok_keeps m laid_out _ _ _ H8 I7 eq_refl) as I8.
  apply (stable_json_write_keeps m laid_out _ _ _ _ H I8 eq_refl).
Qed.

Lemma generate_manifest_layout (fs fs' : tree) :
  generate_manifest m fs = Ok fs' -> Forall laid_out (rglob fs) -> Forall laid_out (rglob fs').
Proof.
  unfold generate_manifest. intros H Hfs.
  destruct (mkdir_exist_ok m fs ["manifest"]) as [fsA|e] eqn:Hmk; [|discriminate].
  cbn [bind] in H.
  destruct (hash_files fsA _ []) as [hashes|e]; [|discriminate]. cbn [bind] in H.
  destruct (manifest_text hashes) as [text|e]; [|discriminate]. cbn [bind] in H.
  apply (write_file_keeps m laid_out _ _ _ _ H); [|reflexivity].
  apply (mkdir_exist_ok_keeps m laid_out _ _ _ Hmk Hfs eq_refl).
Qed.

Lemma stage_tree_layout (i : inputs) (stage : tree) :
  stage_tree env m i = Ok stage -> Forall laid_out (rglob stage).
Proof.
  unfold stage_tree. destruct (stage_inputs env m i) as [s|e] eqn:Hs; [|discriminate].
  cbn [bind]. intros H. apply (generate_manifest_layout _ _ H).
  apply (stage_inputs_layout i s Hs).
Qed.

End StagedLayout.

(** X22.  When no include holds a [..] segment, every member of a bundle
    that [create_bundle] writes lies at or below one of the directories
    [artifacts], [metadata], [deps], [sbom] and [manifest], and none is
    called [.DS_Store]. *)
Theorem bundle_layout (env : environ) (m : machine) (i : inputs) (bundle_path : string)
    (previous f : option bundle_file) (r : pack_result) :
  plain_includes i = true ->
  create_bundle env m i bundle_path previous = (f, Ok r) ->
  exists b, f = Some b
    /\ Forall (fun mb : member =>
                 exists p, ti_name mb.1 = path_str p /\ in_layout p = true
                           /\ path_name p <> ".DS_Store")
              (tar_members b).
Proof.
  intros _.
  unfold create_bundle. destruct (stage_tree env m i) as [stage|e] eqn:Hs; [|discriminate].
  pose proof (stage_tree_layout env m i stage Hs) as Hlayout.
  rewrite write_bundle_eq. cbv zeta.
  pose proof (pack_entries_names env m stage (List.filter kept (sorted_paths (rglob stage))))
    as Hnames.
  destruct (pack_entries env m stage (List.filter kept (sorted_paths (rglob stage))))
    as [ms [e|]]; cbn [fst snd]; [discriminate|].
  intros [= <- _]. eexists. split; [reflexivity|]. cbn [tar_members].
  destruct Hnames as [_ Hnames]. specialize (Hnames eq_refl).
  apply Forall_forall. intros mb Hmb.
  assert (ti_name mb.1 ∈ List.map path_str (List.filter kept (sorted_paths (rglob stage))))
    as Hin.
  { rewrite <- Hnames. apply list_elem_of_fmap. eauto. }
  apply list_elem_of_fmap in Hin as (p & Hp & Hin).
  apply elem_of_filter_bool in Hin as [Hin Hkept].
  exists p. split; [exact Hp|]. split.
  - rewrite sorted_paths_perm in Hin. rewrite Forall_forall in Hlayout. apply Hlayout, Hin.
  - unfold kept in Hkept. apply negb_true_iff, String.eqb_neq in Hkept. exact Hkept.
Qed.

(** ** The manifest format: digests *)

Section Hex.

Lemma hex_digit_hex (n : N) : (n < 16)%N -> is_hex (Sha256.hex_digit n) = true.
Proof.
  intros H.
  assert (n ∈ List.map N.of_nat (List.seq 0 16)) as Hin.
  { apply list_elem_of_fmap. exists (N.to_nat n). split; [lia|].
    apply list_elem_of_In, List.in_seq. lia. }
  assert (Forall (fun k => is_hex (Sha256.hex_digit k) = true)
                 (List.map N.of_nat (List.seq 0 16))) as Hall.
  { apply (bool_decide_unpack _). vm_compute. exact I. }
  rewrite Forall_forall in Hall. apply Hall. exact Hin.
Qed.

Lemma hex_nibbles_hex (n : nat) (x : N) : all_chars is_hex (Sha256.hex_nibbles n x) = true.
Proof.
  induction n as [|n IH]; [reflexivity|]. cbn [Sha256.hex_nibbles all_chars].
  rewrite IH, andb_true_r. apply hex_digit_hex.
  change 15%N with (N.ones 4). rewrite N.land_ones. apply N.mod_lt. discriminate.
Qed.

Lemma hex_words_hex (ws : list N) : all_chars is_hex (Sha256.hex_words ws) = true.
Proof.
  induction ws as [|w ws IH]; [reflexivity|]. cbn [Sha256.hex_words].
  rewrite all_chars_app, hex_nibbles_hex, IH. reflexivity.
Qed.

Lemma compress_length (h block : list N) :
  List.length h = 8 -> List.length (Sha256.compress h block) = 8.
Proof.
  intros H. unfold Sha256.compress. rewrite List.length_map, List.length_combine, H.
  reflexivity.
Qed.

Lemma blocks_length (fuel : nat) (ws h : list N) :
  List.length h = 8 -> List.length (Sha256.blocks fuel ws h) = 8.
Proof.
  revert ws h. induction fuel as [|f IH]; intros ws h H; [exact H|].
  cbn [Sha256.blocks]. destruct ws; [exact H|]. apply IH, compress_length, H.
Qed.

(** A digest is a string of hexadecimal digits, and not empty. *)
Lemma hexdigest_is_digest (data : string) : is_digest (Sha256.hexdigest data) = true.
Proof.
  unfold is_digest, Sha256.hexdigest. rewrite hex_words_hex, andb_true_r.
  unfold Sha256.digest_words.
  pose proof (blocks_length
                (List.length (Sha256.words (List.length (Sha256.pad (Sha256.bytes_of data)))
                                (Sha256.pad (Sha256.bytes_of data))))
                (Sha256.words (List.length (Sha256.pad (Sha256.bytes_of data)))
                   (Sha256.pad (Sha256.bytes_of data)))
                Sha256.H0 eq_refl) as Hlen.
  cbv zeta. destruct (Sha256.blocks _ _ _) as [|w ws]; [discriminate|]. reflexivity.
Qed.

End Hex.

(** ** The manifest format: one line *)

Section Line.

Lemma rev_onto_app (s acc : string) : PyStr.rev_onto s acc = PyStr.rev s +:+ acc.
Proof.
  unfold PyStr.rev. revert acc. induction s as [|c s IH]; intros acc; [reflexivity|].
  cbn [PyStr.rev_onto]. rewrite (IH (String c acc)), (IH (String c "")).
  rewrite str_app_assoc. reflexivity.
Qed.

Lemma str_rev_app (a b : string) : PyStr.rev (a +:+ b) = PyStr.rev b +:+ PyStr.rev a.
Proof.
  unfold PyStr.rev. revert b. induction a as [|c a IH]; intros b.
  - cbn [String.append PyStr.rev_onto]. change ("" +:+ b) with b.
    rewrite str_app_nil_r. reflexivity.
  - change (String c a +:+ b) with (String c (a +:+ b)). cbn [PyStr.rev_onto].
    rewrite (rev_onto_app (a +:+ b)), (rev_onto_app a). fold (PyStr.rev (a +:+ b)).
    unfold PyStr.rev at 1. rewrite IH. fold (PyStr.rev a) (PyStr.rev b).
    rewrite str_app_assoc. reflexivity.
Qed.

Lemma lstrip_rev_length (s : string) :
  String.length (PyStr.lstrip_rev s) <= String.length s.
Proof.
  remember (String.length s) as n eqn:Hn.
  assert (String.length s <= n) as Hle by lia. clear Hn. revert s Hle.
  induction n as [|n IH]; intros s Hle.
  - destruct s; [cbn; lia|cbn in Hle; lia].
  - destruct s as [|a s1]; [cbn; lia|]. cbn [PyStr.lstrip_rev].
    cbn [String.length] in Hle |- *.
    destruct (PyStr.ws1 a).
    + specialize (IH s1 ltac:(lia)). lia.
    + destruct s1 as [|b s2]; [cbn; lia|]. cbn [String.length] in Hle |- *.
      destruct (PyStr.ws2 b a).
      * specialize (IH s2 ltac:(lia)). lia.
      * destruct s2 as [|c s3]; [cbn; lia|]. cbn [String.length] in Hle |- *.
        destruct (PyStr.ws3 c b a); [|cbn; lia].
        specialize (IH s3 ltac:(lia)). lia.
Qed.

Lemma space_not_lead (a b : ascii) :
  PyStr.ws2 " " a = false /\ PyStr.ws3 " " b a = false.
Proof. split; reflexivity. Qed.

Lemma lstrip_rev_eq (a : ascii) (s1 : string) :
  PyStr.lstrip_rev (String a s1) =
  if PyStr.ws1 a then PyStr.lstrip_rev s1 else
  match s1 with
  | EmptyString => String a s1
  | String b s2 =>
    if PyStr.ws2 b a then PyStr.lstrip_rev s2 else
    match s2 with
    | EmptyString => String a s1
    | String c s3 => if PyStr.ws3 c b a then PyStr.lstrip_rev s3 else String a s1
    end
  end.
Proof. reflexivity. Qed.

(** White space is stripped from the end of the line up to the end of the
    path, when the path does not end in white space itself. *)
Lemma lstrip_rev_keep (r t : string) :
  r <> "" -> PyStr.lstrip_rev r = r ->
  PyStr.lstrip_rev (r +:+ String " " (String " " t)) = r +:+ String " " (String " " t).
Proof.
  intros Hne Hr.
  assert (forall s x, PyStr.lstrip_rev s = x -> String.length s < String.length x -> False)
    as Hshort.
  { intros s x <- Hlen. pose proof (lstrip_rev_length s). lia. }
  destruct r as [|a [|b [|c r3]]]; [contradiction| | |].
  - change (String a "" +:+ String " " (String " " t))
      with (String a (String " " (String " " t))).
    rewrite lstrip_rev_eq in Hr |- *. cbv match in Hr |- *.
    destruct (PyStr.ws1 a); [exfalso; apply (Hshort _ _ Hr); cbn; lia|].
    destruct (space_not_lead a " ") as [-> ->]. reflexivity.
  - change (String a (String b "") +:+ String " " (String " " t))
      with (String a (String b (String " " (String " " t)))).
    rewrite lstrip_rev_eq in Hr |- *. cbv match in Hr |- *.
    destruct (PyStr.ws1 a); [exfalso; apply (Hshort _ _ Hr); cbn; lia|].
    destruct (PyStr.ws2 b a); [exfalso; apply (Hshort _ _ Hr); cbn; lia|].
    destruct (space_not_lead a b) as [_ ->]. reflexivity.
  - change (String a (String b (String c r3)) +:+ String " " (String " " t))
      with (String a (String b (String c (r3 +:+ String " " (String " " t))))).
    rewrite lstrip_rev_eq in Hr |- *. cbv match in Hr |- *.
    destruct (PyStr.ws1 a); [exfalso; apply (Hshort _ _ Hr); cbn; lia|].
    destruct (PyStr.ws2 b a); [exfalso; apply (Hshort _ _ Hr); cbn; lia|].
    destruct (PyStr.ws3 c b a); [exfalso; apply (Hshort _ _ Hr); cbn; lia|].
    reflexivity.
Qed.

Lemma hex_plain (c : ascii) : is_hex c = true -> plain c = true.
Proof.
  unfold is_hex, plain, PyStr.ws1, PyStr.in_range. intros H.
  apply andb_true_iff. split.
  - apply negb_true_iff, orb_false_iff.
    apply orb_true_iff in H as [H|H]; apply andb_true_iff in H as [H1 H2];
      apply N.leb_le in H1, H2; split; apply andb_false_iff; right; apply N.leb_gt; lia.
  - apply N.ltb_lt.
    apply orb_true_iff in H as [H|H]; apply andb_true_iff in H as [H1 H2];
      apply N.leb_le in H1, H2; lia.
Qed.

Lemma hex_not_space (c : ascii) : is_hex c = true -> Ascii.eqb " " c = false.
Proof.
  intros H. destruct (Ascii.eqb " " c) eqn:E; [|reflexivity].
  apply Ascii.eqb_eq in E. subst c. discriminate.
Qed.

(** The first two-space separator of a line comes right after the digest. *)
Lemma split_after_digest (d p before : string) :
  all_chars is_hex d = true ->
  PyStr.split_at_first "  " (d +:+ "  " +:+ p) before
  = Some (PyStr.rev (PyStr.rev_onto d before), p).
Proof.
  revert before. induction d as [|c d IH]; intros before H.
  - destruct p; reflexivity.
  - cbn [all_chars] in H. apply andb_true_iff in H as [Hc Hd].
    change (String c d +:+ "  " +:+ p) with (String c (d +:+ "  " +:+ p)).
    cbn [PyStr.split_at_first PyStr.startswith]. rewrite (hex_not_space c Hc).
    rewrite IH by exact Hd. reflexivity.
Qed.

Lemma rstrip_fixed (p : string) : PyStr.rstrip p = p -> PyStr.lstrip_rev (PyStr.rev p) = PyStr.rev p.
Proof.
  unfold PyStr.rstrip. intros H. apply (f_equal PyStr.rev) in H.
  rewrite str_rev_involutive in H. exact H.
Qed.

Lemma rev_nonempty (p : string) : p <> "" -> PyStr.rev p <> "".
Proof.
  intros Hne Hrev. apply Hne. rewrite <- (str_rev_involutive p), Hrev. reflexivity.
Qed.

(** The line written for a path is read back as that path and its digest. *)
Lemma line_entry_manifest_line (d p : string) :
  is_digest d = true -> p <> "" -> PyStr.rstrip p = p ->
  line_entry (manifest_line d p) = Some (d, p).
Proof.
  unfold is_digest. intros Hd Hp Hstrip. apply andb_true_iff in Hd as [Hne Hhex].
  apply negb_true_iff, String.eqb_neq in Hne.
  unfold line_entry, manifest_line.
  assert (PyStr.strip (d +:+ "  " +:+ p +:+ PyStr.LF) = d +:+ "  " +:+ p) as ->.
  { unfold PyStr.strip, PyStr.rstrip.
    assert (PyStr.lstrip (d +:+ "  " +:+ p +:+ PyStr.LF) = d +:+ "  " +:+ p +:+ PyStr.LF) as ->.
    { destruct d as [|c d]; [contradiction|]. cbn [all_chars] in Hhex.
      apply andb_true_iff in Hhex as [Hc _].
      change (String c d +:+ "  " +:+ p +:+ PyStr.LF)
        with (String c (d +:+ "  " +:+ p +:+ PyStr.LF)).
      apply lstrip_plain, hex_plain, Hc. }
    rewrite <- !str_app_assoc, (str_rev_app _ PyStr.LF).
    change (PyStr.rev PyStr.LF +:+ ?x) with (String (PyStr.chr 10) x).
    cbn [PyStr.lstrip_rev]. change (PyStr.ws1 (PyStr.chr 10)) with true. cbv iota.
    rewrite (str_rev_app _ p), (str_rev_app d "  ").
    change (PyStr.rev "  ") with "  ". rewrite str_app_assoc.
    change ("  " +:+ PyStr.rev d) with (String " " (String " " (PyStr.rev d))).
    rewrite (lstrip_rev_keep (PyStr.rev p) (PyStr.rev d) (rev_nonempty p Hp)
               (rstrip_fixed p Hstrip)).
    rewrite str_rev_app, str_rev_involutive.
    change (String " " (String " " (PyStr.rev d))) with ("  " +:+ PyStr.rev d).
    rewrite str_rev_app, str_rev_involutive. change (PyStr.rev "  ") with "  ".
    rewrite str_app_assoc. reflexivity. }
  assert (String.eqb (d +:+ "  " +:+ p) "" = false) as ->.
  { destruct d; [contradiction|reflexivity]. }
  unfold PyStr.split1. rewrite (split_after_digest d p "" Hhex).
  fold (PyStr.rev d). rewrite str_rev_involutive. reflexivity.
Qed.

End Line.

(** ** The manifest format: the round trip *)

Section Utf8.

Lemma utf8_valid_eq (b0 : ascii) (s1 : string) :
  PyStr.utf8_valid (String b0 s1) =
  if PyStr.in_range 0 127 b0 then PyStr.utf8_valid s1 else
  match s1 with
  | EmptyString => false
  | String b1 s2 =>
    if PyStr.in_range 194 223 b0 then PyStr.in_range 128 191 b1 && PyStr.utf8_valid s2 else
    match s2 with
    | EmptyString => false
    | String b2 s3 =>
      if PyStr.in_range 224 239 b0 then
        (if PyStr.in_range 224 224 b0 then PyStr.in_range 160 191 b1
         else if PyStr.in_range 237 237 b0 then PyStr.in_range 128 159 b1
         else PyStr.in_range 128 191 b1)
        && PyStr.in_range 128 191 b2 && PyStr.utf8_valid s3
      else
      match s3 with
      | EmptyString => false
      | String b3 s4 =>
        PyStr.in_range 240 244 b0
        && (if PyStr.in_range 240 240 b0 then PyStr.in_range 144 191 b1
            else if PyStr.in_range 244 244 b0 then PyStr.in_range 128 143 b1
            else PyStr.in_range 128 191 b1)
        && PyStr.in_range 128 191 b2 && PyStr.in_range 128 191 b3 && PyStr.utf8_valid s4
      end
    end
  end.
Proof. reflexivity. Qed.

(** Valid UTF-8 followed by valid UTF-8 is valid UTF-8. *)
Lemma utf8_valid_app (a b : string) :
  PyStr.utf8_valid a = true -> PyStr.utf8_valid b = true ->
  PyStr.utf8_valid (a +:+ b) = true.
Proof.
  intros Ha Hb. remember (String.length a) as n eqn:Hn.
  assert (String.length a <= n) as Hle by lia. clear Hn. revert a Ha Hle.
  induction n as [|n IH]; intros a Ha Hle.
  - destruct a; [exact Hb|cbn in Hle; lia].
  - destruct a as [|b0 [|b1 [|b2 [|b3 a4]]]]; [exact Hb| | | |].
    + change (String b0 "" +:+ b) with (String b0 b).
      rewrite utf8_valid_eq in Ha |- *.
      destruct (PyStr.in_range 0 127 b0); [exact Hb|discriminate].
    + change (String b0 (String b1 "") +:+ b) with (String b0 (String b1 b)).
      rewrite utf8_valid_eq in Ha. rewrite (utf8_valid_eq b0).
      destruct (PyStr.in_range 0 127 b0).
      { apply (IH (String b1 "")); [exact Ha|cbn in Hle |- *; lia]. }
      destruct (PyStr.in_range 194 223 b0); [|discriminate].
      apply andb_true_iff in Ha as [-> _]. exact Hb.
    + change (String b0 (String b1 (String b2 "")) +:+ b)
        with (String b0 (String b1 (String b2 b))).
      rewrite utf8_valid_eq in Ha. rewrite (utf8_valid_eq b0).
      destruct (PyStr.in_range 0 127 b0).
      { apply (IH (String b1 (String b2 ""))); [exact Ha|cbn in Hle |- *; lia]. }
      destruct (PyStr.in_range 194 223 b0).
      { apply andb_true_iff in Ha as [-> Ha]. cbn [andb].
        apply (IH (String b2 "")); [exact Ha|cbn in Hle |- *; lia]. }
      destruct (PyStr.in_range 224 239 b0); [|discriminate].
      apply andb_true_iff in Ha as [-> _]. exact Hb.
    + change (String b0 (String b1 (String b2 (String b3 a4))) +:+ b)
        with (String b0 (String b1 (String b2 (String b3 (a4 +:+ b))))).
      rewrite utf8_valid_eq in Ha. rewrite (utf8_valid_eq b0).
      destruct (PyStr.in_range 0 127 b0).
      { apply (IH (String b1 (String b2 (String b3 a4)))); [exact Ha|cbn in Hle |- *; lia]. }
      destruct (PyStr.in_range 194 223 b0).
      { apply andb_true_iff in Ha as [-> Ha]. cbn [andb].
        apply (IH (String b2 (String b3 a4))); [exact Ha|cbn in Hle |- *; lia]. }
      destruct (PyStr.in_range 224 239 b0).
      { apply andb_true_iff in Ha as [-> Ha]. cbn [andb].
        apply (IH (String b3 a4)); [exact Ha|cbn in Hle |- *; lia]. }
      apply andb_true_iff in Ha as [-> Ha]. cbn [andb].
      apply (IH a4); [exact Ha|cbn in Hle |- *; lia].
Qed.

Lemma utf8_valid_plain (s : string) : all_chars plain s = true -> PyStr.utf8_valid s = true.
Proof.
  induction s as [|c s IH]; [reflexivity|]. cbn [all_chars]. intros H.
  apply andb_true_iff in H as [Hc Hs]. rewrite utf8_valid_eq.
  assert (PyStr.in_range 0 127 c = true) as ->; [|exact (IH Hs)].
  unfold plain in Hc. apply andb_true_iff in Hc as [_ Hc]. apply N.ltb_lt in Hc.
  unfold PyStr.in_range. apply andb_true_iff. split; apply N.leb_le; lia.
Qed.

End Utf8.

Section Text.

Lemma has_char_app (c : ascii) (a b : string) :
  has_char c (a +:+ b) = has_char c a || has_char c b.
Proof.
  induction a as [|x a IH]; [reflexivity|].
  change (String x a +:+ b) with (String x (a +:+ b)). cbn [has_char].
  rewrite IH, orb_assoc. reflexivity.
Qed.

Lemma has_char_plain (c : ascii) (s : string) (f : ascii -> bool) :
  f c = false -> all_chars f s = true -> has_char c s = false.
Proof.
  intros Hc. induction s as [|x s IH]; [reflexivity|]. cbn [all_chars has_char].
  intros H. apply andb_true_iff in H as [Hx Hs]. rewrite (IH Hs), orb_false_r.
  destruct (Ascii.eqb x c) eqn:E; [|reflexivity]. apply Ascii.eqb_eq in E. congruence.
Qed.

(** Text without carriage return is not changed by the newline
    translation. *)
Lemma translate_newlines_id (s : string) :
  has_char (PyStr.chr 13) s = false -> PyStr.translate_newlines s = s.
Proof.
  induction s as [|c s IH]; [reflexivity|]. cbn [has_char PyStr.translate_newlines].
  intros H. apply orb_false_iff in H as [Hc Hs]. rewrite Hc, (IH Hs). reflexivity.
Qed.

(** A line without line feed, ended by a line feed, is the next line that
    the iteration over the file yields. *)
Lemma lines_from_line (body rest cur : string) :
  has_char (PyStr.chr 10) body = false ->
  PyStr.lines_from (body +:+ String (PyStr.chr 10) rest) cur
  = (PyStr.rev cur +:+ body +:+ PyStr.LF) :: PyStr.lines_from rest "".
Proof.
  revert cur. induction body as [|c body IH]; intros cur H.
  - change ("" +:+ String (PyStr.chr 10) rest) with (String (PyStr.chr 10) rest).
    cbn [PyStr.lines_from]. rewrite Ascii.eqb_refl. f_equal.
    unfold PyStr.rev. cbn [PyStr.rev_onto]. rewrite (rev_onto_app cur). reflexivity.
  - cbn [has_char] in H. apply orb_false_iff in H as [Hc Hb].
    change (String c body +:+ String (PyStr.chr 10) rest)
      with (String c (body +:+ String (PyStr.chr 10) rest)).
    cbn [PyStr.lines_from]. rewrite Hc, (IH (String c cur) Hb). f_equal.
    unfold PyStr.rev. cbn [PyStr.rev_onto]. rewrite (rev_onto_app cur).
    fold (PyStr.rev cur). rewrite str_app_assoc. reflexivity.
Qed.

End Text.

Section RoundTripFormat.

Context (hashes : PyDict.t).

Hypothesis Hgood :
  Forall (fun kv : string * string => good_name kv.1 = true /\ is_digest kv.2 = true) hashes.

Lemma dict_get_elem (d : PyDict.t) (k v : string) :
  PyDict.get d k = Some v -> (k, v) ∈ d.
Proof.
  induction d as [|[k' v'] d IH]; cbn [PyDict.get]; [discriminate|].
  destruct (String.eqb k' k) eqn:E.
  - apply String.eqb_eq in E. subst. intros [= ->]. left.
  - intros H. right. apply IH. exact H.
Qed.

Lemma good_key (k : string) :
  k ∈ PyDict.keys hashes -> good_name k = true /\ is_digest (digest_of hashes k) = true.
Proof.
  intros Hk. rewrite Forall_forall in Hgood. split.
  - unfold PyDict.keys in Hk. apply list_elem_of_fmap in Hk as ([k' v] & -> & Hin).
    apply (Hgood _ Hin).
  - apply dict_get_keys in Hk as [v Hv]. unfold digest_of. rewrite Hv.
    apply dict_get_elem in Hv. apply (Hgood _ Hv).
Qed.

Lemma good_name_facts (k : string) :
  good_name k = true ->
  k <> "" /\ PyStr.utf8_valid k = true /\ has_char (PyStr.chr 10) k = false
  /\ has_char (PyStr.chr 13) k = false /\ PyStr.rstrip k = k.
Proof.
  unfold good_name. intros H.
  apply andb_true_iff in H as [H H5]. apply andb_true_iff in H as [H H4].
  apply andb_true_iff in H as [H H3]. apply andb_true_iff in H as [H1 H2].
  apply negb_true_iff in H1, H3, H4. apply String.eqb_neq in H1. apply String.eqb_eq in H5.
  auto.
Qed.

Lemma digest_facts (d : string) :
  is_digest d = true ->
  all_chars plain d = true /\ has_char (PyStr.chr 10) d = false
  /\ has_char (PyStr.chr 13) d = false.
Proof.
  unfold is_digest. intros H. apply andb_true_iff in H as [_ H]. split; [|split].
  - apply (all_chars_impl is_hex); [apply hex_plain|exact H].
  - apply (has_char_plain _ _ is_hex); [reflexivity|exact H].
  - apply (has_char_plain _ _ is_hex); [reflexivity|exact H].
Qed.

Lemma line_valid (k : string) :
  k ∈ PyDict.keys hashes ->
  PyStr.utf8_valid (line_of hashes k) = true
  /\ has_char (PyStr.chr 13) (line_of hashes k) = false
  /\ exists body, line_of hashes k = body +:+ String (PyStr.chr 10) ""
                  /\ has_char (PyStr.chr 10) body = false.
Proof.
  intros Hk. destruct (good_key k Hk) as [Hn Hd].
  destruct (good_name_facts k Hn) as (_ & Hu & Hlf & Hcr & _).
  destruct (digest_facts _ Hd) as (Hp & Hdlf & Hdcr).
  unfold line_of, manifest_line. split; [|split].
  - apply utf8_valid_app; [apply utf8_valid_plain, Hp|].
    apply (utf8_valid_app "  "); [reflexivity|].
    apply utf8_valid_app; [exact Hu|reflexivity].
  - rewrite !has_char_app, Hdcr, Hcr. reflexivity.
  - exists (digest_of hashes k +:+ "  " +:+ k). split.
    + rewrite !str_app_assoc. reflexivity.
    + rewrite !has_char_app, Hdlf, Hlf. reflexivity.
Qed.

Lemma write_lines_good (ks : list string) :
  Forall (fun k => k ∈ PyDict.keys hashes) ks ->
  write_lines hashes ks = Ok (List.fold_right (fun k out => line_of hashes k +:+ out) "" ks).
Proof.
  induction 1 as [|k ks Hk _ IH]; [reflexivity|].
  cbn [write_lines List.fold_right]. fold (digest_of hashes k) (line_of hashes k).
  destruct (line_valid k Hk) as (-> & _). rewrite IH. reflexivity.
Qed.

Lemma text_good (ks : list string) :
  Forall (fun k => k ∈ PyDict.keys hashes) ks ->
  let text := List.fold_right (fun k out => line_of hashes k +:+ out) "" ks in
  PyStr.utf8_valid text = true
  /\ has_char (PyStr.chr 13) text = false
  /\ PyStr.readlines text = List.map (line_of hashes) ks.
Proof.
  cbv zeta. induction 1 as [|k ks Hk _ (IH1 & IH2 & IH3)]; [repeat split|].
  cbn [List.fold_right List.map].
  destruct (line_valid k Hk) as (Hu & Hcr & body & Hb & Hlf).
  split; [|split].
  - apply utf8_valid_app; assumption.
  - rewrite has_char_app, Hcr, IH2. reflexivity.
  - unfold PyStr.readlines in *. rewrite Hb at 1. rewrite str_app_assoc.
    change (String (PyStr.chr 10) "" +:+ ?x) with (String (PyStr.chr 10) x).
    rewrite (lines_from_line body _ "" Hlf), IH3. f_equal.
    rewrite Hb. reflexivity.
Qed.

Lemma load_lines_good (ks : list string) (expected : PyDict.t) :
  Forall (fun k => k ∈ PyDict.keys hashes) ks ->
  List.fold_left load_line (List.map (line_of hashes) ks) expected
  = List.fold_left (fun e k => PyDict.set e k (digest_of hashes k)) ks expected.
Proof.
  intros H. revert expected. induction H as [|k ks Hk _ IH]; intros expected; [reflexivity|].
  cbn [List.map List.fold_left]. rewrite load_line_entry.
  destruct (good_key k Hk) as [Hn Hd].
  destruct (good_name_facts k Hn) as (Hne & _ & _ & _ & Hstrip).
  change (line_entry (line_of hashes k)) with (line_entry (manifest_line (digest_of hashes k) k)).
  rewrite (line_entry_manifest_line _ k Hd Hne Hstrip). apply IH.
Qed.

Lemma get_fold_set (f : string -> string) (ks : list string) (expected : PyDict.t)
    (k : string) :
  PyDict.get (List.fold_left (fun e k => PyDict.set e k (f k)) ks expected) k
  = if bool_decide (k ∈ ks) then Some (f k) else PyDict.get expected k.
Proof.
  revert expected. induction ks as [|x ks IH]; intros expected; [reflexivity|].
  cbn [List.fold_left]. rewrite IH.
  destruct (decide (k ∈ ks)) as [Hin|Hout].
  - rewrite !bool_decide_eq_true_2; [reflexivity|right; exact Hin|exact Hin].
  - rewrite (bool_decide_eq_false_2 (k ∈ ks)) by exact Hout.
    destruct (decide (x = k)) as [->|Hne].
    + rewrite dict_get_set_eq, bool_decide_eq_true_2 by left. reflexivity.
    + rewrite dict_get_set_ne by exact Hne.
      rewrite bool_decide_eq_false_2; [reflexivity|].
      intros Hin. apply elem_of_cons in Hin as [->|Hin]; contradiction.
Qed.

(** The manifest written from [hashes] is read back as [hashes]. *)
Lemma manifest_round_trip :
  exists text expected,
    manifest_text hashes = Ok text
    /\ parse_manifest text = Ok expected
    /\ forall k, PyDict.get expected k = PyDict.get hashes k.
Proof.
  assert (Forall (fun k => k ∈ PyDict.keys hashes) (sorted_strs (PyDict.keys hashes))) as Hks.
  { apply Forall_forall. intros k Hk. unfold sorted_strs in Hk.
    rewrite merge_sort_Permutation in Hk. exact Hk. }
  destruct (text_good _ Hks) as (Hu & Hcr & Hlines).
  eexists _, _. split; [apply (write_lines_good _ Hks)|]. split.
  - unfold parse_manifest. rewrite Hu, (translate_newlines_id _ Hcr), Hlines. reflexivity.
  - intros k. rewrite (load_lines_good _ _ Hks), get_fold_set.
    destruct (decide (k ∈ PyDict.keys hashes)) as [Hin|Hout].
    + rewrite bool_decide_eq_true_2
        by (unfold sorted_strs; rewrite merge_sort_Permutation; exact Hin).
      apply dict_get_keys in Hin as [v Hv]. unfold digest_of. rewrite Hv. reflexivity.
    + rewrite bool_decide_eq_false_2
        by (unfold sorted_strs; rewrite merge_sort_Permutation; exact Hout).
      rewrite (dict_get_None hashes k Hout). reflexivity.
Qed.

End RoundTripFormat.

(** X23.  The manifest format round trip: if every key is a valid UTF-8
    path that is not empty, holds no line break and does not end in white
    space, and every value is a non-empty string of lowercase hexadecimal
    digits, then the text [generate_manifest] writes for the dictionary is
    parsed by [verify_manifest] into a dictionary with the same value at
    every key. *)
Theorem manifest_format_round_trip (hashes : PyDict.t) :
  List.forallb (fun kv : string * string => good_name kv.1 && is_digest kv.2) hashes = true ->
  exists text expected,
    manifest_text hashes = Ok text
    /\ parse_manifest text = Ok expected
    /\ forall k, PyDict.get expected k = PyDict.get hashes k.
Proof.
  intros H. apply manifest_round_trip. apply Forall_forall. intros kv Hkv.
  rewrite List.forallb_forall in H. apply andb_true_iff, H, list_elem_of_In, Hkv.
Qed.

(** ** The round trip under conditions on names *)

Section GoodNames.

Lemma dict_elem_get (d : PyDict.t) (k v : string) :
  NoDup (PyDict.keys d) -> (k, v) ∈ d -> PyDict.get d k = Some v.
Proof.
  induction d as [|[k' v'] d IH]; intros Hnd Hin; [apply elem_of_nil in Hin; contradiction|].
  cbn [PyDict.keys List.map fst] in Hnd. apply NoDup_cons in Hnd as [Hk' Hnd].
  cbn [PyDict.get]. apply elem_of_cons in Hin as [[= -> ->]|Hin].
  - rewrite String.eqb_refl. reflexivity.
  - destruct (String.eqb k' k) eqn:E; [|apply IH; assumption].
    apply String.eqb_eq in E. subst k'. exfalso. apply Hk'.
    apply list_elem_of_fmap. exists (k, v). auto.
Qed.

Lemma reads_back_intro (hashes : PyDict.t) (text : string) (expected : PyDict.t) :
  manifest_text hashes = Ok text ->
  parse_manifest text = Ok expected ->
  (forall k, PyDict.get expected k = PyDict.get hashes k) ->
  reads_back hashes = true.
Proof.
  intros Ht Hp Hsame. unfold reads_back. rewrite Ht, Hp.
  apply List.forallb_forall. intros k _. apply bool_decide_eq_true, Hsame.
Qed.

Lemma good_stage_ready (stage : tree) : good_stage stage = true -> ready_stage stage = true.
Proof.
  unfold good_stage, ready_stage. intros H.
  apply andb_true_iff in H as [H Hnames]. rewrite H. cbn [andb].
  apply andb_true_iff in H as [H Hskip]. apply andb_true_iff in H as [H _].
  apply andb_true_iff in H as [Hclean _].
  unfold manifest_reads_back.
  destruct (hash_files stage (sorted_paths (rglob stage)) []) as [hashes|e] eqn:Hh.
  - destruct (hash_files_inv stage _ _ _ Hh) as (_ & Hget & Hnd).
    destruct (manifest_round_trip hashes) as (text & expected & Ht & Hp & Hsame).
    + apply Forall_forall. intros [k v] Hin.
      apply (dict_elem_get hashes k v (Hnd (NoDup_nil_2))) in Hin.
      apply Hget in Hin as [Hin|(p & data & st & Hp & _ & Hl & <- & ->)]; [discriminate|].
      split; [|apply hexdigest_is_digest].
      rewrite List.forallb_forall in Hnames.
      rewrite sorted_paths_perm in Hp. apply list_elem_of_In in Hp.
      specialize (Hnames p Hp). unfold is_file in Hnames. rewrite Hl in Hnames.
      exact Hnames.
    + apply (reads_back_intro hashes text expected Ht Hp Hsame).
  - exfalso.
    destruct (hash_files_clean stage Hclean) with (todo := sorted_paths (rglob stage))
                                                  (hashes0 := @nil (string * string))
      as (hashes & Hok & _).
    + intros p Hp Hf. rewrite List.forallb_forall in Hskip.
      apply list_elem_of_In in Hp. specialize (Hskip p Hp). rewrite Hf in Hskip.
      cbn [andb] in Hskip. apply negb_true_iff in Hskip. exact Hskip.
    + apply sorted_in_stage.
    + rewrite sorted_paths_perm. apply clean_stage_NoDup. exact Hclean.
    + congruence.
Qed.

End GoodNames.


(** ** [create_bundle] and the machine *)

Section Alike.

Lemma alike_nil_inv (s : tree) : alike [] s -> s = [].
Proof. unfold alike. destruct s; [reflexivity|discriminate]. Qed.

Lemma alike_rglob (s1 s2 : tree) : alike s1 s2 -> rglob s1 = rglob s2.
Proof. intros H. rewrite !rglob_staged_view, H. reflexivity. Qed.

Lemma alike_lookup (s1 s2 : tree) (p : path) :
  alike s1 s2 -> view <$> fs_lookup s1 p = view <$> fs_lookup s2 p.
Proof.
  unfold alike. revert s2. induction s1 as [|[q1 n1] s1 IH]; intros [|[q2 n2] s2] H;
    try discriminate; [reflexivity|].
  assert (q1 = q2 /\ view n1 = view n2 /\ staged_view s1 = staged_view s2)
    as (-> & Hv & Hrest)
    by (unfold staged_view in *; cbn [List.map fst snd] in H; repeat split; congruence).
  cbn [fs_lookup].
  destruct (path_eqb q2 p); [cbn [fmap option_fmap option_map]; rewrite Hv; reflexivity|].
  apply IH. exact Hrest.
Qed.

Lemma alike_kind (s1 s2 : tree) (p : path) :
  alike s1 s2 -> n_kind <$> fs_lookup s1 p = n_kind <$> fs_lookup s2 p.
Proof.
  intros H. pose proof (alike_lookup s1 s2 p H) as Hl.
  destruct (fs_lookup s1 p) as [n1|], (fs_lookup s2 p) as [n2|]; cbn in Hl |- *;
    try discriminate; [|reflexivity].
  injection Hl as Hv. unfold view in Hv. congruence.
Qed.

Lemma alike_content (s1 s2 : tree) (p : path) :
  alike s1 s2 -> content <$> fs_lookup s1 p = content <$> fs_lookup s2 p.
Proof.
  intros H. pose proof (alike_lookup s1 s2 p H) as Hl.
  destruct (fs_lookup s1 p) as [n1|], (fs_lookup s2 p) as [n2|]; cbn in Hl |- *;
    try discriminate; [|reflexivity].
  injection Hl as Hv. unfold view in Hv. unfold content. congruence.
Qed.

Lemma alike_snoc (s1 s2 : tree) (p : path) (n1 n2 : node) :
  alike s1 s2 -> view n1 = view n2 -> alike (s1 ++ [(p, n1)]) (s2 ++ [(p, n2)]).
Proof.
  unfold alike, staged_view. intros H Hv. rewrite !List.map_app, H. cbn. rewrite Hv.
  reflexivity.
Qed.

Lemma alike_replace (s1 s2 : tree) (p : path) (n1 n2 : node) :
  alike s1 s2 -> view n1 = view n2 -> alike (fs_replace s1 p n1) (fs_replace s2 p n2).
Proof.
  unfold alike. revert s2. induction s1 as [|[q1 x1] s1 IH]; intros [|[q2 x2] s2] H Hv;
    try discriminate; [reflexivity|].
  assert (q1 = q2 /\ view x1 = view x2 /\ staged_view s1 = staged_view s2)
    as (-> & Hx & Hrest)
    by (unfold staged_view in *; cbn [List.map fst snd] in H; repeat split; congruence).
  cbn [fs_replace].
  destruct (path_eqb q2 p); unfold staged_view in *; cbn [List.map fst snd].
  - rewrite Hv, Hrest. reflexivity.
  - rewrite Hx. f_equal. apply IH; assumption.
Qed.

Lemma alike_bind {A B : Type} (R : A -> A -> Prop) (R' : B -> B -> Prop)
    (r1 r2 : result A) (k1 k2 : A -> result B) :
  alike_result R r1 r2 ->
  (forall a b, R a b -> alike_result R' (k1 a) (k2 b)) ->
  alike_result R' (bind r1 k1) (bind r2 k2).
Proof.
  destruct r1 as [a|e1], r2 as [b|e2]; cbn; intros H Hk; try contradiction; auto.
Qed.

Lemma alike_result_eq {A : Type} (r1 r2 : result A) :
  alike_result eq r1 r2 -> r1 = r2.
Proof. destruct r1, r2; cbn; intros H; try contradiction; congruence. Qed.

End Alike.

Section SameUmask.

Context (m1 m2 : machine).
Hypothesis Humask : m_umask m1 = m_umask m2.

Lemma new_stat_view (k : kind) (perm : N) :
  view (Node k (new_stat m1 perm)) = view (Node k (new_stat m2 perm)).
Proof. unfold view, new_stat. cbn. rewrite Humask. reflexivity. Qed.

Lemma copied_view (n : node) : view (copied m1 n) = view (copied m2 n).
Proof. reflexivity. Qed.

Lemma mkdir_alike (s1 s2 : tree) (p : path) :
  alike s1 s2 -> alike_result alike (mkdir m1 s1 p) (mkdir m2 s2 p).
Proof.
  intros H. unfold mkdir. pose proof (alike_kind s1 s2 p H) as Hk.
  destruct (fs_lookup s1 p), (fs_lookup s2 p); cbn in Hk |- *; try discriminate;
    [reflexivity|].
  apply alike_snoc; [exact H|apply new_stat_view].
Qed.

Lemma mkdir_exist_ok_alike (s1 s2 : tree) (p : path) :
  alike s1 s2 -> alike_result alike (mkdir_exist_ok m1 s1 p) (mkdir_exist_ok m2 s2 p).
Proof.
  intros H. unfold mkdir_exist_ok. pose proof (alike_kind s1 s2 p H) as Hk.
  destruct (fs_lookup s1 p) as [[k1 t1]|], (fs_lookup s2 p) as [[k2 t2]|];
    cbn in Hk |- *; try discriminate.
  - injection Hk as ->. destruct k2; cbn; auto.
  - apply alike_snoc; [exact H|apply new_stat_view].
Qed.

Lemma write_file_alike (s1 s2 : tree) (p : path) (data : string) :
  alike s1 s2 -> alike_result alike (write_file m1 s1 p data) (write_file m2 s2 p data).
Proof.
  intros H. unfold write_file. pose proof (alike_lookup s1 s2 p H) as Hl.
  destruct (fs_lookup s1 p) as [[k1 t1]|], (fs_lookup s2 p) as [[k2 t2]|];
    cbn in Hl |- *; try discriminate.
  - injection Hl as -> Hmode Hread.
    destruct k2; cbn; auto. apply alike_replace; [exact H|].
    unfold view. cbn. rewrite Hmode, Hread. reflexivity.
  - apply alike_snoc; [exact H|apply new_stat_view].
Qed.

Lemma stable_json_write_alike (s1 s2 : tree) (p : path) (data : Json.t) :
  alike s1 s2 ->
  alike_result alike (stable_json_write m1 s1 p data) (stable_json_write m2 s2 p data).
Proof.
  intros H. unfold stable_json_write. destruct (PyStr.utf8_valid _); [|reflexivity].
  apply write_file_alike. exact H.
Qed.

Lemma fs_put_alike (s1 s2 : tree) (p : path) (n1 n2 : node) :
  alike s1 s2 -> view n1 = view n2 -> alike (fs_put s1 p n1) (fs_put s2 p n2).
Proof.
  intros H Hv. unfold fs_put, exists_. pose proof (alike_kind s1 s2 p H) as Hk.
  destruct (fs_lookup s1 p), (fs_lookup s2 p); cbn in Hk; try discriminate.
  - apply alike_replace; assumption.
  - apply alike_snoc; assumption.
Qed.

Lemma make_upperdirs_alike (s1 s2 : tree) (done : path) (todo : list string) :
  alike s1 s2 ->
  alike_result alike (make_upperdirs m1 s1 done todo) (make_upperdirs m2 s2 done todo).
Proof.
  revert s1 s2 done. induction todo as [|x rest IH]; intros s1 s2 done H; [exact H|].
  cbn [make_upperdirs]. destruct rest as [|y rest']; [exact H|].
  pose proof (alike_kind s1 s2 (done ++ [x]) H) as Hk.
  destruct (fs_lookup s1 (done ++ [x])) as [[k1 t1]|],
           (fs_lookup s2 (done ++ [x])) as [[k2 t2]|]; cbn in Hk; try discriminate.
  - injection Hk as ->. destruct k2; try reflexivity. apply IH. exact H.
  - apply IH. apply alike_snoc; [exact H|apply new_stat_view].
Qed.

Lemma copy_entries_alike (todo : list (path * node)) (s1 s2 : tree) :
  alike s1 s2 ->
  alike_result alike (copy_entries m1 todo s1) (copy_entries m2 todo s2).
Proof.
  revert s1 s2. induction todo as [|[q n] todo IH]; intros s1 s2 H; [exact H|].
  cbn [copy_entries]. destruct (n_kind n); try reflexivity.
  - destruct (st_readable (n_stat n)); [|reflexivity].
    apply IH. apply fs_put_alike; [exact H|apply copied_view].
  - apply IH. apply fs_put_alike; [exact H|apply copied_view].
Qed.

Lemma stage_include_alike (i : inputs) (inc_str : string)
    (st1 st2 : tree * list (string * Json.t)) :
  alike_log st1 st2 ->
  alike_result alike_log (stage_include m1 i inc_str st1) (stage_include m2 i inc_str st2).
Proof.
  destruct st1 as [s1 log1], st2 as [s2 log2]. intros [H Hlog]. cbn [fst snd] in H, Hlog.
  subst log2. unfold stage_include.
  destruct (clean_rel (in_repo_root i) inc_str) as [rel|]; [|split; auto].
  destruct (if bool_decide (rel = []) then _ else _) as [n|]; [|split; auto].
  apply (alike_bind alike); [apply make_upperdirs_alike; exact H|].
  intros a b Hab. destruct (n_kind n).
  - destruct (st_readable (n_stat n)); [|reflexivity].
    split; [|reflexivity]. apply fs_put_alike; [exact Hab|apply copied_view].
  - apply (alike_bind alike).
    + apply copy_entries_alike. apply fs_put_alike; [exact Hab|apply copied_view].
    + intros a' b' Hab'. split; [exact Hab'|reflexivity].
  - reflexivity.
Qed.

Lemma stage_includes_alike (i : inputs) (includes : list string)
    (st1 st2 : tree * list (string * Json.t)) :
  alike_log st1 st2 ->
  alike_result alike_log (stage_includes m1 i includes st1)
                         (stage_includes m2 i includes st2).
Proof.
  revert st1 st2. induction includes as [|x l IH]; intros st1 st2 H; [exact H|].
  cbn [stage_includes]. apply (alike_bind alike_log); [apply stage_include_alike; exact H|].
  intros a b Hab. apply IH. exact Hab.
Qed.

Lemma stage_inputs_alike (env : environ) (i : inputs) :
  alike_result alike (stage_inputs env m1 i) (stage_inputs env m2 i).
Proof.
  unfold stage_inputs.
  apply (alike_bind alike); [apply mkdir_alike; reflexivity|]. intros a0 b0 H0.
  apply (alike_bind alike_log); [apply stage_includes_alike; split; [exact H0|reflexivity]|].
  intros [a1 log1] [b1 log2] [H1 Hlog]. cbn [fst snd] in H1, Hlog. subst log2.
  apply (alike_bind alike); [apply mkdir_alike; exact H1|]. intros a2 b2 H2.
  apply (alike_bind alike); [apply stable_json_write_alike; exact H2|]. intros a3 b3 H3.
  apply (alike_bind alike); [apply stable_json_write_alike; exact H3|]. intros a4 b4 H4.
  apply (alike_bind alike).
  { destruct (in_git i) as [[|g gdata]|]; try exact H4.
    apply stable_json_write_alike. exact H4. }
  intros a5 b5 H5. apply (alike_bind alike).
  { destruct (in_pip i) as [pf|]; [|exact H5].
    destruct (String.eqb pf ""); [exact H5|].
    apply (alike_bind alike); [apply mkdir_exist_ok_alike; exact H5|]. intros a b Hab.
    destruct (PyStr.utf8_valid pf); [|reflexivity]. apply write_file_alike. exact Hab. }
  intros a6 b6 H6. apply (alike_bind alike).
  { destruct (String.eqb (in_sbom_tool i) "none"); [exact H6|].
    apply (alike_bind alike); [apply mkdir_alike; exact H6|]. intros a b Hab.
    destruct (in_sbom_file i); [|exact Hab]. apply write_file_alike. exact Hab. }
  intros a7 b7 H7.
  apply (alike_bind alike); [apply mkdir_exist_ok_alike; exact H7|]. intros a8 b8 H8.
  apply stable_json_write_alike. exact H8.
Qed.

Lemma generate_manifest_alike (s1 s2 : tree) :
  alike s1 s2 -> alike_result alike (generate_manifest m1 s1) (generate_manifest m2 s2).
Proof.
  intros H. unfold generate_manifest.
  apply (alike_bind alike); [apply mkdir_exist_ok_alike; exact H|]. intros a b Hab.
  rewrite (alike_rglob a b Hab).
  rewrite (hash_files_content b a) by (intros q _; apply alike_content; exact Hab).
  destruct (hash_files b (sorted_paths (rglob b)) []) as [hashes|e]; [|reflexivity].
  cbn [bind]. destruct (manifest_text hashes) as [text|e]; [|reflexivity].
  cbn [bind]. apply write_file_alike. exact Hab.
Qed.

Lemma pack_entries_alike (env : environ) (s1 s2 : tree) (todo : list path) :
  alike s1 s2 -> pack_entries env m1 s1 todo = pack_entries env m2 s2 todo.
Proof.
  intros H. induction todo as [|p todo IH]; [reflexivity|].
  cbn [pack_entries]. rewrite !add_entry_normalized, IH.
  pose proof (alike_lookup s1 s2 p H) as Hl.
  destruct (fs_lookup s1 p) as [n1|], (fs_lookup s2 p) as [n2|];
    cbn [fmap option_fmap option_map] in Hl; try discriminate; [|reflexivity].
  assert (view n1 = view n2) as Hv by congruence.
  rewrite (normalized_member_view env env (path_str p) n1 n2 eq_refl Hv). reflexivity.
Qed.

Lemma write_bundle_alike (env : environ) (s1 s2 : tree) :
  alike s1 s2 -> write_bundle env m1 s1 = write_bundle env m2 s2.
Proof.
  intros H. rewrite !write_bundle_eq, (alike_rglob s1 s2 H).
  rewrite (pack_entries_alike env s1 s2 _ H). reflexivity.
Qed.

End SameUmask.


(** ** The properties at concrete inputs *)

Ltac by_compute := apply (bool_decide_unpack _); vm_compute; exact I.

(** C1.  A directory that holds a [.DS_Store] file is bundled without
    error, and the bundle then fails verification: the manifest lists the
    file, the archive does not contain it. *)
Theorem C1_ds_store_breaks_round_trip :
  let built := create_bundle Ex.env_unset Ex.machine_022 Ex.ds_inputs "out/bundle.tar.gz" None in
  built.2 = Ok (mkPackResult "out/bundle.tar.gz" 10 "none" false 0)
  /\ List.map (fun mb : member => ti_name mb.1) (from_option tar_members [] built.1)
     = ["artifacts"; "artifacts/docs"; "artifacts/docs/guide.txt"; "manifest";
        "manifest/inputs.json"; "manifest/sha256sum.txt"; "metadata";
        "metadata/metadata.json"; "metadata/run.json"]
  /\ verify_bundle Ex.machine_022 "out/bundle.tar.gz" built.1 None None None
     = Ok (mkVerifyResult "out/bundle.tar.gz" None false true
             (Some "Missing file declared in manifest: artifacts/docs/.DS_Store")).
Proof. vm_compute. repeat split; reflexivity. Qed.

(** The staging directories of the two builds above: the first is ready
    for the round trip, the second is not, because of [.DS_Store]. *)
Example repo_stage_ready :
  ready_stage <$> (match stage_inputs Ex.env_1700 Ex.machine_022 Ex.repo_inputs with
                   | Ok stage => Some stage
                   | Raise _ => None
                   end) = Some true.
Proof. vm_compute. reflexivity. Qed.

Example ds_stage_not_ready :
  ready_stage <$> (match stage_inputs Ex.env_unset Ex.machine_022 Ex.ds_inputs with
                   | Ok stage => Some stage
                   | Raise _ => None
                   end) = Some false.
Proof. vm_compute. reflexivity. Qed.

(** A file name that ends in a space does not survive the manifest. *)
Example trailing_space_not_ready :
  manifest_reads_back
    [ (["manifest"], Ex.dir); (["notes "], Ex.file "x") ] = false.
Proof. vm_compute. reflexivity. Qed.

(** The round trip theorem at the tree of the integration tests, built on
    one machine and verified on another. *)
Example round_trip_create_bundle_repo :
  exists b payload,
    create_bundle Ex.env_1700 Ex.machine_022 Ex.repo_inputs "out/bundle.tar.gz" None
    = (Some b, Ok payload)
    /\ verify_bundle Ex.machine_002 "out/bundle.tar.gz" (Some b) None None None
       = Ok (mkVerifyResult "out/bundle.tar.gz" None true true None).
Proof.
  destruct (stage_inputs Ex.env_1700 Ex.machine_022 Ex.repo_inputs) as [stage|e] eqn:E;
    [|vm_compute in E; discriminate E].
  apply (round_trip_create_bundle Ex.env_1700 Ex.machine_022 Ex.machine_002
           Ex.repo_inputs "out/bundle.tar.gz" None stage E).
  vm_compute in E. injection E as <-. vm_compute. reflexivity.
Qed.

(** The round trip on the tree of the integration tests. *)
Example round_trip_repo :
  let built := create_bundle Ex.env_1700 Ex.machine_022 Ex.repo_inputs "out/bundle.tar.gz" None in
  verify_bundle Ex.machine_002 "out/bundle.tar.gz" built.1 None None None
  = Ok (mkVerifyResult "out/bundle.tar.gz" None true true None).
Proof. vm_compute. reflexivity. Qed.

(** C2, counterexample.  Two staging directories with the same paths and
    the same data, one with mode 755 on a directory and one with mode 775:
    the archives differ. *)
Lemma C2_counterexample_mode :
  List.map (fun e : path * node => (e.1, n_kind e.2)) Ex.stage_a
  = List.map (fun e : path * node => (e.1, n_kind e.2)) Ex.stage_c
  /\ write_bundle Ex.env_1700 Ex.machine_022 Ex.stage_a
     <> write_bundle Ex.env_1700 Ex.machine_022 Ex.stage_c.
Proof.
  split; [reflexivity|]. intros H.
  apply (f_equal (fun r : bundle_file * option exn =>
                    List.map (fun mb : member => ti_mode mb.1) (tar_members r.1))) in H.
  vm_compute in H. discriminate H.
Qed.

(** The same at the level of [create_bundle]: one repository, one
    environment, two machines that differ in their umask. *)
Example create_bundle_depends_on_umask :
  (create_bundle Ex.env_1700 Ex.machine_022 Ex.repo_inputs "out/bundle.tar.gz" None).1
  <> (create_bundle Ex.env_1700 Ex.machine_002 Ex.repo_inputs "out/bundle.tar.gz" None).1.
Proof.
  intros H.
  apply (f_equal (fun b : option bundle_file =>
                    List.map (fun mb : member => ti_mode mb.1)
                             (from_option tar_members [] b))) in H.
  vm_compute in H. discriminate H.
Qed.

Lemma C2_witness :
  write_bundle Ex.env_1700 Ex.machine_022 Ex.stage_a
  = write_bundle Ex.env_1700 Ex.machine_002 Ex.stage_b.
Proof.
  apply (C2_archive_determined_by_content_mode_and_epoch
           Ex.env_1700 Ex.env_1700 Ex.machine_022 Ex.machine_002 Ex.stage_a Ex.stage_b).
  - reflexivity.
  - split; [by_compute|]. split; by_compute.
Defined.

(** C3, counterexample.  A regular file followed by a symbolic link: the
    link is refused, and the regular file is in the destination. *)
Lemma C3_counterexample_partial_extraction :
  (exists mb, mb ∈ Ex.link_archive /\ ti_type mb.1 = SYMTYPE)
  /\ (safe_extract Ex.machine_022 Ex.link_archive []).2 = Some (UnsafeLink "bad_link")
  /\ fs_lookup (safe_extract Ex.machine_022 Ex.link_archive []).1 ["artifacts"; "data.txt"]
     = Some (Node (Regular "content") (Stat 420 1000 1000 1700000123 true)).
Proof.
  split.
  - exists (Ex.sym_member "bad_link" "artifacts/data.txt"). split; [|reflexivity].
    right. left.
  - vm_compute. split; reflexivity.
Qed.

Lemma C3_witness :
  exists before bad after e,
    Ex.link_archive = before ++ bad :: after
    /\ Forall (fun mb : member => ~ unsafe mb.1) before
    /\ unsafe bad.1
    /\ ((e = UnsafeAbsolutePath (ti_name bad.1) /\ is_absolute (ti_name bad.1) = true)
        \/ (e = UnsafePathTraversal (ti_name bad.1) /\ ".." ∈ parts (ti_name bad.1))
        \/ (e = UnsafeLink (ti_name bad.1)
            /\ (ti_type bad.1 = SYMTYPE \/ ti_type bad.1 = LNKTYPE)))
    /\ (safe_extract Ex.machine_022 Ex.link_archive []).2 <> None
    /\ (safe_extract Ex.machine_022 Ex.link_archive []).1
       = (safe_extract Ex.machine_022 before []).1
    /\ ((safe_extract Ex.machine_022 before []).2 = None ->
        (safe_extract Ex.machine_022 Ex.link_archive []).2 = Some e).
Proof.
  apply (C3_unsafe_member_stops_extraction Ex.machine_022 Ex.link_archive []).
  apply Exists_cons. right. apply Exists_cons. left.
  right. right. left. reflexivity.
Defined.

(** C4, counterexample.  A file named [.DS_Store] that the manifest does not
    list is injected into a tree that verifies: the tree still verifies. *)
Lemma C4_counterexample_ds_store :
  listed (Ex.good_tree_1 ++ Ex.good_tree_2) "evil/.DS_Store" = false
  /\ verify_manifest (Ex.good_tree_1 ++ Ex.good_tree_2) = Ok true
  /\ verify_manifest
       (Ex.good_tree_1 ++ (["evil"; ".DS_Store"], Ex.file "x") :: Ex.good_tree_2)
     = Ok true.
Proof. vm_compute. repeat split; reflexivity. Qed.

Lemma C4_witness :
  (forall b, verify_manifest
               (Ex.good_tree_1 ++ (["evil.txt"], Node (Regular "x") Ex.file_stat) :: Ex.good_tree_2)
             <> Ok b)
  /\ (forall b, verify_manifest (Ex.good_tree_1 ++ Ex.good_tree_2) = Ok b ->
      verify_manifest
        (Ex.good_tree_1 ++ (["evil.txt"], Node (Regular "x") Ex.file_stat) :: Ex.good_tree_2)
      = Raise (UnexpectedFile (path_str ["evil.txt"]))).
Proof.
  apply (C4_unlisted_file_fails_verification
           Ex.good_tree_1 Ex.good_tree_2 ["evil.txt"] "x" Ex.file_stat).
  - by_compute.
  - by_compute.
  - by_compute.
  - vm_compute. reflexivity.
Defined.

(** C5.  A regular file [manifest/old/sha256sum.txt] is left out of the
    manifest, which lists the other file only. *)
Theorem C5_nested_sha256sum_is_left_out :
  is_file Ex.nested_tree ["manifest"; "old"; "sha256sum.txt"] = true
  /\ path_str ["manifest"; "old"; "sha256sum.txt"] <> path_str manifest_rel
  /\ (fs <-! generate_manifest Ex.machine_022 Ex.nested_tree;
      Ok (n_kind <$> fs_lookup fs manifest_rel))
     = Ok (Some (Regular
                   ("2cf24dba5fb0a30e26e83b2ac5b9e29e1b161e5c1fa7425e73043362938b9824  a.txt"
                    +:+ PyStr.LF))).
Proof.
  split; [reflexivity|]. split; [by_compute|]. vm_compute. reflexivity.
Qed.


(** C7, counterexample.  With [SOURCE_DATE_EPOCH=1700000000] the members
    carry 1700000000 and the gzip header carries 0. *)
Lemma C7_counterexample_gzip_mtime :
  get_source_date_epoch Ex.env_1700 = 1700000000%Z
  /\ gz_mtime (write_bundle Ex.env_1700 Ex.machine_022 Ex.stage_a).1
     <> get_source_date_epoch Ex.env_1700
  /\ List.map (fun mb : member => ti_mtime mb.1)
              (tar_members (write_bundle Ex.env_1700 Ex.machine_022 Ex.stage_a).1)
     = [1700000000; 1700000000; 1700000000]%Z.
Proof.
  split; [reflexivity|]. split; [|vm_compute; reflexivity].
  vm_compute. discriminate.
Qed.



(** A file that cannot be read when it is staged stops the build before the
    bundle path is opened: what was there stays. *)
Lemma create_bundle_staging_failure (env : environ) (m : machine) (i : inputs)
    (bundle_path : string) (previous : option bundle_file) (e : exn) :
  stage_tree env m i = Raise e ->
  create_bundle env m i bundle_path previous = (previous, Raise e).
Proof. intros H. unfold create_bundle. rewrite H. reflexivity. Qed.

Example create_bundle_unreadable_source :
  create_bundle Ex.env_unset Ex.machine_022
    (mkInputs Ex.stage_unreadable Ex.dir_stat "/home/ci/repo" ["a.txt"; "b.txt"]
              None None None "none" None)
    "out/bundle.tar.gz" None
  = (None, Raise (OSError "PermissionError: b.txt")).
Proof. vm_compute. reflexivity. Qed.

(** C9, counterexample.  The byte FF is not UTF-8: reading the manifest
    raises. *)
Lemma C9_counterexample_invalid_utf8 :
  parse_manifest Ex.not_utf8 = Raise UnicodeDecodeError.
Proof. reflexivity. Qed.

Lemma C9_witness :
  exists expected,
    parse_manifest Ex.manifest_dup = Ok expected
    /\ forall p,
        let lines := PyStr.readlines (PyStr.translate_newlines Ex.manifest_dup) in
        (forall before line after h,
            lines = before ++ line :: after ->
            line_entry line = Some (h, p) ->
            (forall l h', l ∈ after -> line_entry l <> Some (h', p)) ->
            PyDict.get expected p = Some h)
        /\ ((forall l h, l ∈ lines -> line_entry l <> Some (h, p)) ->
            PyDict.get expected p = None).
Proof.
  apply (C9_parse_valid_utf8_last_line_wins Ex.manifest_dup).
  vm_compute. reflexivity.
Defined.

Example parse_manifest_dup : parse_manifest Ex.manifest_dup = Ok [("x", "bb")].
Proof. vm_compute. reflexivity. Qed.


(** What [int] makes of some values. *)
Example py_int_values :
  List.map py_int
    ["12"; " 12 "; "+12"; "-12"; "1_000"; "1__0"; "_1"; "+ 5"; ""; "yesterday"]
  = [Some 12; Some 12; Some 12; Some (-12); Some 1000; None; None; None; None; None]%Z.
Proof. vm_compute. reflexivity. Qed.

(** Fullwidth digits are digits; U+001C is not white space for [int];
    U+00A0 is. *)
Example py_int_unicode :
  List.map py_int
    [String (PyStr.chr 239) (String (PyStr.chr 188) (String (PyStr.chr 145)
       (String (PyStr.chr 239) (String (PyStr.chr 188) (String (PyStr.chr 146) "")))));
     String (PyStr.chr 28) "5";
     String (PyStr.chr 194) (String (PyStr.chr 160) "5");
     String (PyStr.chr 255) "5"]
  = [Some 12; None; Some 5; None]%Z.
Proof. vm_compute. reflexivity. Qed.

(** The limit on the number of digits counts leading zeros. *)
Example py_int_limit :
  py_int (Ex.repeat_char 4300 "0") = Some 0%Z
  /\ py_int (Ex.repeat_char 4301 "0") = None
  /\ py_int (Ex.repeat_char 4301 "1") = None
  /\ py_int (Ex.repeat_char 4300 "1") <> None.
Proof.
  split; [vm_compute; reflexivity|]. split; [vm_compute; reflexivity|].
  split; [vm_compute; reflexivity|]. by_compute.
Qed.

Example epoch_unset : get_source_date_epoch Ex.env_unset = 0%Z.
Proof. reflexivity. Qed.

Example epoch_set : get_source_date_epoch Ex.env_1700 = 1700000000%Z.
Proof. reflexivity. Qed.

(** ** The further properties at concrete inputs *)

Lemma verify_manifest_sound_witness :
  true = true
  /\ exists expected,
       expected_of (Ex.good_tree_1 ++ Ex.good_tree_2) = Some expected
       /\ (forall p, p ∈ rglob (Ex.good_tree_1 ++ Ex.good_tree_2) ->
             checked (Ex.good_tree_1 ++ Ex.good_tree_2) p = true ->
             exists data st,
               fs_lookup (Ex.good_tree_1 ++ Ex.good_tree_2) p = Some (Node (Regular data) st)
               /\ PyDict.get expected (path_str p) = Some (Sha256.hexdigest data))
       /\ (forall k, k ∈ PyDict.keys expected ->
             exists p, p ∈ rglob (Ex.good_tree_1 ++ Ex.good_tree_2)
                       /\ checked (Ex.good_tree_1 ++ Ex.good_tree_2) p = true
                       /\ path_str p = k).
Proof.
  apply (verify_manifest_sound (Ex.good_tree_1 ++ Ex.good_tree_2) true).
  vm_compute. reflexivity.
Defined.

Lemma verify_manifest_detects_removed_file_witness :
  verify_manifest ([] ++ Ex.good_tree_2) = Raise (MissingFile (path_str ["a.txt"])).
Proof.
  apply (verify_manifest_detects_removed_file [] Ex.good_tree_2 ["a.txt"] "hello" Ex.file_stat).
  - by_compute.
  - by_compute.
  - by_compute.
  - vm_compute. reflexivity.
Defined.

Lemma verify_manifest_ignores_unchecked_entries_witness :
  verify_manifest (Ex.good_tree_1 ++ (["a"; ".DS_Store"], Ex.file "Bud1") :: Ex.good_tree_2)
  = verify_manifest (Ex.good_tree_1 ++ Ex.good_tree_2).
Proof.
  apply (verify_manifest_ignores_unchecked_entries
           Ex.good_tree_1 Ex.good_tree_2 ["a"; ".DS_Store"] (Ex.file "Bud1")).
  - by_compute.
  - by_compute.
  - left. reflexivity.
Defined.

Lemma verify_manifest_detects_changed_content_witness :
  verify_manifest ([] ++ (["a.txt"], Node (Regular "jello") Ex.file_stat) :: Ex.good_tree_2)
  = Raise (HashMismatch (path_str ["a.txt"]) (Sha256.hexdigest "hello")
             (Sha256.hexdigest "jello")).
Proof.
  apply (verify_manifest_detects_changed_content
           [] Ex.good_tree_2 ["a.txt"] "hello" "jello" Ex.file_stat Ex.file_stat).
  - by_compute.
  - by_compute.
  - by_compute.
  - by_compute.
  - reflexivity.
  - vm_compute. reflexivity.
Defined.



Lemma generate_manifest_lists_hashed_files_witness :
  exists entries st,
    fs_lookup Ex.stage_a_hashed manifest_rel = Some (Node (Regular (manifest_of entries)) st)
    /\ StronglySorted (fun a b => String.ltb a b = true) (List.map fst entries)
    /\ (forall k, k ∈ List.map fst entries <->
          exists p, p ∈ rglob Ex.stage_a /\ hashed Ex.stage_a p = true /\ path_str p = k)
    /\ (forall k h, (k, h) ∈ entries ->
          exists p data st', p ∈ rglob Ex.stage_a /\ skipped_by_generate p = false
             /\ fs_lookup Ex.stage_a p = Some (Node (Regular data) st')
             /\ path_str p = k /\ h = Sha256.hexdigest data).
Proof.
  apply (generate_manifest_lists_hashed_files Ex.machine_022 Ex.stage_a Ex.stage_a_hashed).
  vm_compute. reflexivity.
Defined.

Lemma safe_extract_stays_inside_witness :
  Forall (fun p => inside p = true)
         (rglob (safe_extract Ex.machine_022 Ex.escaping_archive []).1).
Proof.
  apply (safe_extract_stays_inside Ex.machine_022 Ex.escaping_archive []).
  by_compute.
Defined.

Lemma safe_extract_ignores_metadata_witness :
  safe_extract Ex.machine_022 Ex.plain_archive []
  = safe_extract Ex.machine_022 Ex.setuid_archive [].
Proof.
  apply (safe_extract_ignores_metadata Ex.machine_022 Ex.plain_archive Ex.setuid_archive []).
  reflexivity.
Defined.

Lemma verify_bundle_result_witness :
  exists td,
    safe_extract Ex.machine_002 (tar_members Ex.repo_bundle) [] = (td, None)
    /\ verify_manifest td = Ok true.
Proof.
  destruct (verify_bundle_result Ex.machine_002 "out/bundle.tar.gz" (Some Ex.repo_bundle)
              None None None (mkVerifyResult "out/bundle.tar.gz" None true true None))
    as (_ & _ & _ & _ & _ & H).
  - vm_compute. reflexivity.
  - destruct (H eq_refl) as [(b & td & Hb & Hex & Hv) _].
    injection Hb as <-. exists td. split; assumption.
Defined.

Lemma tampered_bundle_is_rejected_witness :
  verify_bundle Ex.machine_002 "out/bundle.tar.gz"
    (Some (mkBundle (gz_fname Ex.repo_bundle) (gz_mtime Ex.repo_bundle)
             (List.firstn 1 (tar_members Ex.repo_bundle)
              ++ (Ex.repo_file1, "jello") :: List.skipn 2 (tar_members Ex.repo_bundle))
             (tar_finished Ex.repo_bundle)))
    None None None
  = Ok (mkVerifyResult "out/bundle.tar.gz" None false true
          (Some (exn_str (HashMismatch (ti_name Ex.repo_file1) (Sha256.hexdigest "hello")
                            (Sha256.hexdigest "jello"))))).
Proof.
  apply (tampered_bundle_is_rejected Ex.env_1700 Ex.machine_022 Ex.machine_002
           Ex.repo_staged "out/bundle.tar.gz" Ex.repo_bundle).
  - vm_compute. reflexivity.
  - vm_compute. reflexivity.
  - vm_compute. reflexivity.
  - vm_compute. reflexivity.
  - reflexivity.
  - by_compute.
  - by_compute.
Defined.


Lemma stable_json_write_key_order_witness :
  stable_json_write Ex.machine_022 [] ["tool.json"]
    (Json.Dict (tool_meta Ex.env_unset None))
  = stable_json_write Ex.machine_022 [] ["tool.json"]
      (Json.Dict (List.rev (tool_meta Ex.env_unset None))).
Proof.
  apply (stable_json_write_key_order Ex.machine_022 [] ["tool.json"]
           (tool_meta Ex.env_unset None) (List.rev (tool_meta Ex.env_unset None))).
  - by_compute.
  - apply Permutation_rev.
Defined.


Lemma file_count_counts_entries_witness :
  exists stage b,
    stage_tree Ex.env_unset Ex.machine_022 Ex.ds_inputs = Ok stage
    /\ (create_bundle Ex.env_unset Ex.machine_022 Ex.ds_inputs "out/bundle.tar.gz" None).1
       = Some b
    /\ file_count (mkPackResult "out/bundle.tar.gz" 10 "none" false 0)
       = List.length (rglob stage)
    /\ file_count (mkPackResult "out/bundle.tar.gz" 10 "none" false 0)
       = List.length (tar_members b)
         + List.length (List.filter (fun p => negb (kept p)) (rglob stage)).
Proof.
  apply (file_count_counts_entries Ex.env_unset Ex.machine_022 Ex.ds_inputs
           "out/bundle.tar.gz" None).
  vm_compute. reflexivity.
Defined.

Lemma bundle_layout_witness :
  exists b,
    (create_bundle Ex.env_unset Ex.machine_022 Ex.ds_inputs "out/bundle.tar.gz" None).1
    = Some b
    /\ Forall (fun mb : member =>
                 exists p, ti_name mb.1 = path_str p /\ in_layout p = true
                           /\ path_name p <> ".DS_Store")
              (tar_members b).
Proof.
  apply (bundle_layout Ex.env_unset Ex.machine_022 Ex.ds_inputs "out/bundle.tar.gz" None
           _ (mkPackResult "out/bundle.tar.gz" 10 "none" false 0)).
  - reflexivity.
  - vm_compute. reflexivity.
Defined.

Lemma manifest_format_round_trip_witness :
  exists text expected,
    manifest_text Ex.two_hashes = Ok text
    /\ parse_manifest text = Ok expected
    /\ forall k, PyDict.get expected k = PyDict.get Ex.two_hashes k.
Proof.
  apply (manifest_format_round_trip Ex.two_hashes). vm_compute. reflexivity.
Defined.


